(** * peektab: format detection, delimiter sniffing, rendering and the
      [stats], [sample] and [convert] commands

    A shallow embedding of [src/peektab/utils.py] and of the commands of
    [src/peektab/cli.py] that the specification makes statements about.

    Conventions.
    - A Python [str] is a list of Unicode code points ([N]); a file is a
      list of bytes.
    - The data-frame engine, the case tables of the Unicode database and
      the float formatter are not part of the repository: they are the
      fields of the interface [Runtime], and the few facts the engine
      documents about them are stated as hypotheses where a theorem
      needs them.
    - Paths are POSIX paths.
    - A command runs in a small state-and-exception monad over a
      [world] (file system, console, the process's entropy).
    - [rich] reads every string it prints as console markup and raises
      on a closing tag that closes nothing: its scan for tags and its
      stack of open tags are modelled, the canonical form of style
      names and the evaluation of handler parameters are two more
      fields of [Runtime]. *)

From Stdlib Require Import List NArith ZArith Bool Lia Floats.
From Stdlib Require Import Strings.Byte Numbers.DecimalString.
From Stdlib Require String Ascii.
Import ListNotations.
Import String.StringSyntax.
Delimit Scope string_scope with string.

(* ================================================================== *)
(** ** Python strings *)

Module Py.

Local Open Scope N_scope.

Definition char := N.
Definition str := list char.

(** An ASCII literal of the source, as a Python string. *)
Definition U (s : String.string) : str :=
  map Ascii.N_of_ascii (String.list_ascii_of_string s).
Arguments U s%_string.

Definition str_eqb (a b : str) : bool :=
  if list_eq_dec N.eq_dec a b then true else false.

(** Truthiness of a string: [if s:]. *)
Definition truthy (s : str) : bool :=
  match s with [] => false | _ :: _ => true end.

(** [s.count(c)] for a one-character needle. *)
Definition count (c : char) (s : str) : Z :=
  Z.of_nat (count_occ N.eq_dec s c).

(** [Py_UNICODE_ISSPACE]: the characters [str.strip()] removes. *)
Definition isspace (c : char) : bool :=
  ((0x09 <=? c) && (c <=? 0x0D)) || ((0x1C <=? c) && (c <=? 0x20))
  || (c =? 0x85) || (c =? 0xA0) || (c =? 0x1680)
  || ((0x2000 <=? c) && (c <=? 0x200A))
  || (c =? 0x2028) || (c =? 0x2029) || (c =? 0x202F)
  || (c =? 0x205F) || (c =? 0x3000).

Fixpoint dropwhile (p : char -> bool) (s : str) : str :=
  match s with
  | [] => []
  | c :: r => if p c then dropwhile p r else s
  end.

Definition lstrip_ws (s : str) : str := dropwhile isspace s.
Definition rstrip_ws (s : str) : str := rev (dropwhile isspace (rev s)).

(** [s.strip()] *)
Definition strip (s : str) : str := rstrip_ws (lstrip_ws s).

(** [s.lstrip(chars)] *)
Definition lstrip (chars : str) (s : str) : str :=
  dropwhile (fun c => existsb (N.eqb c) chars) s.

Definition is_ascii (c : char) : bool := c <? 128.

Definition ascii_tolower (c : char) : char :=
  if (0x41 <=? c) && (c <=? 0x5A) then c + 32 else c.

(** [s.rfind(c)]: the index of the last occurrence of [c], or -1. *)
Fixpoint rfind_from (c : char) (s : str) (i : Z) (last : Z) : Z :=
  match s with
  | [] => last
  | x :: r => rfind_from c r (i + 1)%Z (if x =? c then i else last)
  end.

Definition rfind (c : char) (s : str) : Z := rfind_from c s 0%Z (-1)%Z.

(** [s[i:j]] for indices that are already within range or negative
    ones clipped to 0 (the only uses below). *)
Definition slice_from (i : Z) (s : str) : str := skipn (Z.to_nat i) s.
Definition slice_to (j : Z) (s : str) : str := firstn (Z.to_nat j) s.
Definition slice (i j : Z) (s : str) : str :=
  slice_to (j - Z.max 0 i)%Z (slice_from i s).

(** [str(n)] for an [int]. *)
Definition str_of_Z (z : Z) : str := U (NilZero.string_of_int (Z.to_int z)).

Fixpoint prefixb (p s : str) : bool :=
  match p, s with
  | [], _ => true
  | _ :: _, [] => false
  | a :: p', b :: s' => (a =? b) && prefixb p' s'
  end.

(** [needle in s] *)
Fixpoint contains (needle s : str) : bool :=
  prefixb needle s ||
  match s with
  | [] => false
  | _ :: r => contains needle r
  end.

End Py.
Import Py.

(* ================================================================== *)
(** ** Reading a text file: UTF-8 with [errors="ignore"], universal
       newlines, iteration by line *)

Module TextIO.

Local Open Scope N_scope.

Definition is_cont (b : N) : bool := (0x80 <=? b) && (b <=? 0xBF).

(** The range the second byte of a three-byte sequence must lie in:
    [E0] excludes overlong forms, [ED] excludes surrogates. *)
Definition second_ok3 (b0 b1 : N) : bool :=
  is_cont b1 &&
  negb ((b0 =? 0xE0) && (b1 <? 0xA0)) &&
  negb ((b0 =? 0xED) && (0xA0 <=? b1)).

(** The same for four-byte sequences: [F0] excludes overlong forms,
    [F4] excludes code points above U+10FFFF. *)
Definition second_ok4 (b0 b1 : N) : bool :=
  is_cont b1 &&
  negb ((b0 =? 0xF0) && (b1 <? 0x90)) &&
  negb ((b0 =? 0xF4) && (0x90 <=? b1)).

Definition cp2 (b0 b1 : N) : N := (b0 - 0xC0) * 64 + (b1 - 0x80).
Definition cp3 (b0 b1 b2 : N) : N :=
  (b0 - 0xE0) * 4096 + (b1 - 0x80) * 64 + (b2 - 0x80).
Definition cp4 (b0 b1 b2 b3 : N) : N :=
  (b0 - 0xF0) * 262144 + (b1 - 0x80) * 4096 + (b2 - 0x80) * 64 + (b3 - 0x80).

(** The UTF-8 decoder with the [ignore] error handler: a byte that
    cannot start a sequence is dropped; a sequence that breaks off is
    dropped up to the offending byte, where decoding resumes; a
    sequence cut short by the end of the file is dropped. *)
Fixpoint decode_ignore (bs : list N) : str :=
  match bs with
  | [] => []
  | b0 :: r0 =>
    if b0 <? 0x80 then b0 :: decode_ignore r0
    else if b0 <? 0xC2 then decode_ignore r0
    else if b0 <? 0xE0 then
      match r0 with
      | [] => []
      | b1 :: r1 =>
        if is_cont b1 then cp2 b0 b1 :: decode_ignore r1
        else decode_ignore r0
      end
    else if b0 <? 0xF0 then
      match r0 with
      | [] => []
      | b1 :: r1 =>
        if second_ok3 b0 b1 then
          match r1 with
          | [] => []
          | b2 :: r2 =>
            if is_cont b2 then cp3 b0 b1 b2 :: decode_ignore r2
            else decode_ignore r1
          end
        else decode_ignore r0
      end
    else if b0 <? 0xF5 then
      match r0 with
      | [] => []
      | b1 :: r1 =>
        if second_ok4 b0 b1 then
          match r1 with
          | [] => []
          | b2 :: r2 =>
            if is_cont b2 then
              match r2 with
              | [] => []
              | b3 :: r3 =>
                if is_cont b3 then cp4 b0 b1 b2 b3 :: decode_ignore r3
                else decode_ignore r2
              end
            else decode_ignore r1
          end
        else decode_ignore r0
      end
    else decode_ignore r0
  end.

Definition decode (data : list byte) : str :=
  decode_ignore (map Byte.to_N data).

Definition LF : char := 10.
Definition CR : char := 13.

(** Universal newlines ([newline=None]): CR LF and a lone CR are read
    as LF. *)
Fixpoint translate_newlines (s : str) : str :=
  match s with
  | [] => []
  | c :: r =>
    if c =? CR then
      match r with
      | c' :: r' => if c' =? LF then LF :: translate_newlines r'
                    else LF :: translate_newlines r
      | [] => [LF]
      end
    else c :: translate_newlines r
  end.

(** [for line in f]: each line keeps its terminating LF; a last line
    without one is still a line; there is no line after a final LF. *)
Fixpoint lines_acc (cur : str) (s : str) : list str :=
  match s with
  | [] => match cur with [] => [] | _ => [rev cur] end
  | c :: r =>
    if c =? LF then rev (c :: cur) :: lines_acc [] r
    else lines_acc (c :: cur) r
  end.

Definition lines (s : str) : list str := lines_acc [] s.

(** The lines a file opened with
    [open(path, "r", encoding="utf-8", errors="ignore")] yields. *)
Definition readlines (data : list byte) : list str :=
  lines (translate_newlines (decode data)).

End TextIO.

(* ================================================================== *)
(** ** Exceptions, the world, and the command monad *)

Inductive exn :=
| OSError (path : str)         (* [open] failing: missing file, no permission, ... *)
| ValueError (msg : str)
| EngineError (msg : str)      (* whatever the data-frame engine raises *)
| OverflowError                (* an [int] outside the engine's unsigned 64 bits *)
| MarkupError                  (* [rich.errors.MarkupError]; the message is left out *)
| Exit (code : Z).             (* [typer.Exit(code)] *)

Inductive result (A : Type) :=
| Ok (a : A)
| Raise (e : exn).
Arguments Ok {A} a.
Arguments Raise {A} e.

Definition filesystem := str -> option (list byte).

(** Python values that occur as cells of a frame. *)
#[local] Unset Elimination Schemes.
Inductive pyval :=
| PyNone
| PyBool (b : bool)
| PyInt (z : Z)
| PyFloat (f : float)
| PyStr (s : str)
| PyList (xs : list pyval)
| PyTuple (xs : list pyval)
| PySet (xs : list pyval)
| PyDict (items : list (pyval * pyval))
| PyObject (cls : str) (text : str).   (* date, datetime, Decimal, bytes, ... *)
#[local] Set Elimination Schemes.

Inductive dtype :=
| Int8 | Int16 | Int32 | Int64
| UInt8 | UInt16 | UInt32 | UInt64
| Float32 | Float64
| Decimal (precision : option N) (scale : N)
| Utf8 | Boolean | Date | Datetime | Duration | Time | Binary
| Categorical | Null | Object
| List (inner : dtype)
| Struct (fields : list str).

(** A frame, as the commands read it: column names and types, and the
    rows in order. *)
Record DataFrame := {
  columns : list str;
  dtypes : list dtype;
  rows : list (list pyval)
}.

Definition height (df : DataFrame) : Z := Z.of_nat (length (rows df)).

(** [df.head(n)]: the first [n] rows; for a negative [n], all rows but
    the last [|n|]. The count goes to the engine as an unsigned 64-bit
    integer, and the conversion raises for a larger one. *)
Definition head (df : DataFrame) (n : Z) : result DataFrame :=
  let k := if (n <? 0)%Z then Z.max 0 (height df + n) else n in
  if (k <? 2 ^ 64)%Z then
    Ok {| columns := columns df; dtypes := dtypes df;
          rows := firstn (Z.to_nat k) (rows df) |}
  else Raise OverflowError.

(** A [rich] table: title, headers and the rows of display strings. *)
Record Table := {
  tbl_title : option str;
  tbl_columns : list str;
  tbl_rows : list (list str)
}.

(** What is printed on the console. *)
Inductive renderable :=
| RTable (t : Table) (width : option Z)
| RPanel (text : str) (border_style : str)
| RText (markup : str).

Record world := {
  fs : filesystem;
  console : list renderable;
  entropy : Z
}.

Definition M (A : Type) := world -> world * result A.

Definition ret {A} (a : A) : M A := fun w => (w, Ok a).
Definition raise {A} (e : exn) : M A := fun w => (w, Raise e).
Definition bind {A B} (c : M A) (k : A -> M B) : M B :=
  fun w => match c w with
           | (w', Ok a) => k a w'
           | (w', Raise e) => (w', Raise e)
           end.
Definition lift {A} (f : world -> result A) : M A := fun w => (w, f w).

Notation "x <- c ;; k" := (bind c (fun x => k))
  (at level 61, c at next level, right associativity).
Notation "c ;;; k" := (bind c (fun _ => k))
  (at level 61, right associativity).

(** The status the process ends with. *)
Definition exit_status {A} (r : result A) : Z :=
  match r with
  | Ok _ => 0
  | Raise (Exit code) => code
  | Raise _ => 1
  end.

(* ================================================================== *)
(** ** [utils.py] *)

(** [os.path.splitext(p)] (POSIX): the extension starts at the last dot
    of the last path component, unless that component has only dots
    before it. *)
Definition splitext (p : str) : str * str :=
  let sepIndex := rfind 47%N p in
  let dotIndex := rfind 46%N p in
  if (sepIndex <? dotIndex)%Z
     && existsb (fun c => negb (c =? 46)%N) (slice (sepIndex + 1) dotIndex p)
  then (slice_to dotIndex p, slice_from dotIndex p)
  else (p, []).

(** [os.path.basename(p)] (POSIX) *)
Definition basename (p : str) : str := slice_from (rfind 47%N p + 1) p.

(** A dict with string keys and integer values, in insertion order. *)
Definition dict := list (str * Z).

(** [max(d, key=d.get)] over a non-empty dict [kv :: d]: the first key
    whose value no later one exceeds. *)
Fixpoint max_key (best : str * Z) (d : dict) : str :=
  match d with
  | [] => fst best
  | kv :: r => if (snd best <? snd kv)%Z then max_key kv r else max_key best r
  end.

(** [max(d, key=d.get)]; Python raises on an empty dict, which the one
    below never is. *)
Definition dict_max_key (d : dict) : str :=
  match d with
  | [] => []
  | kv :: r => max_key kv r
  end.

(** [any(d.values())] *)
Definition any_values (d : dict) : bool :=
  existsb (fun kv => negb (snd kv =? 0)%Z) d.

Definition COMMA : char := 44%N.
Definition TAB : char := 9%N.
Definition SEMICOLON : char := 59%N.

Definition delimiter_counts (line : str) : dict :=
  [([COMMA], count COMMA line); ([TAB], count TAB line);
   ([SEMICOLON], count SEMICOLON line)].

(** What [sniff_delimiter] answers once it has a trimmed, non-empty
    line. *)
Definition sniff_line (line : str) : str :=
  let counts := delimiter_counts line in
  if any_values counts then dict_max_key counts else [COMMA].

(** The loop of [sniff_delimiter] and the [return] after it. *)
Fixpoint sniff_lines (ls : list str) : str :=
  match ls with
  | [] => [COMMA]
  | l :: rest =>
    let line := strip l in
    if negb (truthy line) then sniff_lines rest else sniff_line line
  end.

Definition sniff_delimiter (files : filesystem) (path : str) : result str :=
  match files path with
  | None => Raise (OSError path)
  | Some data => Ok (sniff_lines (TextIO.readlines data))
  end.

(** *** What the repository takes from outside

    The Unicode case tables, the string conversions of Python and the
    data-frame engine, as one interface. *)
Class Runtime := {
  (** [str.lower()] on a string that is not pure ASCII (the case mapping
      of the Unicode database). *)
  case_lower : str -> str;

  (** [str(v)] and [f"{x:.6g}"]. *)
  py_str : pyval -> str;
  format_6g : float -> str;

  (** [repr(dt)] of a column type. *)
  dtype_repr : dtype -> str;

  (** The engine's readers; [read_csv] is given separator and
      [infer_schema_length] (dates are always parsed). *)
  pl_read_csv : filesystem -> str -> str -> Z -> result DataFrame;
  pl_read_ndjson : filesystem -> str -> result DataFrame;
  pl_read_parquet : filesystem -> str -> result DataFrame;

  (** The engine's writers: the file system after the frame is written
      to the path. *)
  df_write_csv : DataFrame -> str -> str -> filesystem -> result filesystem;
  df_write_parquet : DataFrame -> str -> filesystem -> result filesystem;
  df_write_ndjson : DataFrame -> str -> filesystem -> result filesystem;

  (** [df.sample(n=n, seed=seed)], without replacement. *)
  df_sample : DataFrame -> Z -> Z -> result DataFrame;

  (** The aggregation of [stats]: row count, and mean, standard
      deviation, minimum and maximum of each of the given columns. *)
  df_numeric_summary : DataFrame -> list str -> result DataFrame;

  (** [group_by(c).len().sort("len", descending=True)] on the non-null
      cells of the column named [c]: the distinct values with their
      counts, or the engine's error. *)
  df_value_counts : str -> list pyval -> result (list (pyval * Z));

  (** [rich.style.Style.normalize]: the canonical form of a style
      name, by which closing tags find their opening tag. *)
  style_normalize : str -> str;

  (** Whether the parameters of an ["@"] tag fail to evaluate when the
      tag is closed. *)
  meta_params_fail : str -> bool
}.

(* ================================================================== *)
(** ** Console markup

    [rich] reads every string it is given to print (a line of text, the
    text of a panel, the title, headers and cells of a table) as
    markup, and the printing call raises [MarkupError], with nothing
    printed, on a closing tag that closes nothing. *)

Section Markup.

Context {R : Runtime}.

Definition BACKSLASH : char := 92%N.
Definition LBRACKET : char := 91%N.
Definition RBRACKET : char := 93%N.

(** The characters a tag may start with: [[a-z#/@]]. *)
Definition tag_start (c : char) : bool :=
  ((97 <=? c) && (c <=? 122) || (c =? 35) || (c =? 47) || (c =? 64))%N.

(** Where the scan for tags stands (a tag is an opening bracket, one
    of the characters above, then anything but an opening bracket up
    to the first closing bracket; the backslashes right before it
    belong to it): outside a tag, after so many backslashes in a row;
    just past an opening bracket that that many backslashes precede;
    or inside a tag, with its text so far (last character first) and
    the backslashes the text ends with. *)
Inductive scanning :=
| Outside (backslashes : nat)
| Bracket (escapes : nat)
| Inside (escapes : nat) (text : str) (backslashes : nat).

(** The texts of the tags of a markup string, in order. A bracket that
    an odd number of backslashes precede is escaped and no tag. *)
Fixpoint tags_from (st : scanning) (s : str) : list str :=
  match s with
  | [] => []
  | c :: r =>
    match st with
    | Outside n =>
      if (c =? BACKSLASH)%N then tags_from (Outside (S n)) r
      else if (c =? LBRACKET)%N then tags_from (Bracket n) r
      else tags_from (Outside 0) r
    | Bracket e =>
      if tag_start c then tags_from (Inside e [c] 0) r
      else if (c =? BACKSLASH)%N then tags_from (Outside 1) r
      else if (c =? LBRACKET)%N then tags_from (Bracket 0) r
      else tags_from (Outside 0) r
    | Inside e text n =>
      if (c =? RBRACKET)%N then
        (if Nat.even e then [rev text] else []) ++ tags_from (Outside 0) r
      else if (c =? LBRACKET)%N then tags_from (Bracket n) r
      else if (c =? BACKSLASH)%N then tags_from (Inside e (c :: text) (S n)) r
      else tags_from (Inside e (c :: text) 0) r
    end
  end.

Definition tags (markup : str) : list str := tags_from (Outside 0) markup.

(** [s.partition(sep)]: the text before the first [sep], and the text
    after it if there is one. *)
Fixpoint partition (sep : char) (s : str) : str * option str :=
  match s with
  | [] => ([], None)
  | c :: r => if (c =? sep)%N then ([], Some r)
              else let (a, b) := partition sep r in (c :: a, b)
  end.

(** An open tag: its normalized name and its parameters. *)
Definition open_tag := (str * option str)%type.

(** [pop_style]: the innermost open tag of that name, taken off the
    stack (innermost first). *)
Fixpoint pop_style (name : str) (stack : list open_tag)
    : option (open_tag * list open_tag) :=
  match stack with
  | [] => None
  | t :: r =>
    if str_eqb (fst t) name then Some (t, r)
    else match pop_style name r with
         | Some (x, r') => Some (x, t :: r')
         | None => None
         end
  end.

(** What closing the open tag [t] may still raise: the parameters of a
    handler tag are evaluated then. *)
Definition closes (t : open_tag) : bool :=
  if prefixb (U "@") (fst t) then
    match snd t with
    | Some p => negb (truthy p && meta_params_fail p)
    | None => true
    end
  else true.

(** The loop of [rich.markup.render] over the tags: [true] when it
    runs to its end, [false] when it raises [MarkupError]. *)
Fixpoint tags_close (ts : list str) (stack : list open_tag) : bool :=
  match ts with
  | [] => true
  | text :: r =>
    let (name, parameters) := partition 61%N text in
    if prefixb (U "/") name then
      let style_name := strip (slice_from 1 name) in
      match (if truthy style_name
             then pop_style (style_normalize style_name) stack
             else match stack with
                  | t :: st => Some (t, st)
                  | [] => None
                  end) with
      | Some (t, stack') => closes t && tags_close r stack'
      | None => false
      end
    else tags_close r ((style_normalize name, parameters) :: stack)
  end.

(** The string renders as markup. *)
Definition markup_ok (markup : str) : bool := tags_close (tags markup) [].

(** The strings [rich] renders for a table: header (if shown) and
    cells of each column, then the title if there is one; a table
    without columns renders as an empty line and nothing of it is
    read. A row longer than the headers adds columns with an empty
    header, a shorter one is filled with empty cells. *)
Definition table_texts (show_header : bool) (title : option str)
    (headers : list str) (cells : list (list str)) : list str :=
  let width := fold_left Nat.max (map (@length str) cells) (length headers) in
  if (width =? 0)%nat then []
  else
    flat_map (fun j => (if show_header then [nth j headers []] else [])
                       ++ map (fun row => nth j row []) cells)
             (seq 0 width)
    ++ match title with
       | Some t => if truthy t then [t] else []
       | None => []
       end.

(** The strings read as markup when [r] is printed. *)
Definition texts_of (r : renderable) : list str :=
  match r with
  | RTable t _ => table_texts true (tbl_title t) (tbl_columns t) (tbl_rows t)
  | RPanel text _ => [text]
  | RText markup => [markup]
  end.

Definition renders (r : renderable) : bool := forallb markup_ok (texts_of r).

(** [console.print(r)]: [r] is rendered in full before any of it is
    written. *)
Definition console_print (r : renderable) : M unit :=
  fun w =>
    if renders r then
      ({| fs := fs w; console := console w ++ [r]; entropy := entropy w |}, Ok tt)
    else (w, Raise MarkupError).

End Markup.

Section Peektab.

Context {R : Runtime}.

(** *** File loading *)

(** [s.lower()]: CPython maps a pure-ASCII string letter by letter and
    sends any other string through the Unicode case tables. *)
Definition lower (s : str) : str :=
  if forallb is_ascii s then map ascii_tolower s else case_lower s.

Definition in_strs (s : str) (l : list str) : bool :=
  existsb (str_eqb s) l.

(** The lines of [detect_format] after the test of the override. *)
Definition format_of_extension (path : str) : str :=
  let ext := lower (snd (splitext path)) in
  if in_strs ext [U ".csv"; U ".tsv"] then U "csv"
  else if in_strs ext [U ".jsonl"; U ".ndjson"] then U "ndjson"
  else if in_strs ext [U ".parquet"; U ".pq"] then U "parquet"
  else U "csv".

Definition detect_format (path : str) (fmt : option str) : str :=
  match fmt with
  | Some f => if truthy f then lower f else format_of_extension path
  | None => format_of_extension path
  end.

Definition read_frame (files : filesystem) (path : str) (fmt : option str)
    (delimiter : option str) (infer_schema_length : Z) : result DataFrame :=
  let fmt := detect_format path fmt in
  if str_eqb fmt (U "csv") then
    match delimiter with
    | None =>
      match sniff_delimiter files path with
      | Ok d => pl_read_csv files path d infer_schema_length
      | Raise e => Raise e
      end
    | Some d => pl_read_csv files path d infer_schema_length
    end
  else if str_eqb fmt (U "ndjson") then pl_read_ndjson files path
  else if str_eqb fmt (U "parquet") then pl_read_parquet files path
  else Raise (ValueError (U "Unsupported format: " ++ fmt)).

(** *** Rendering *)

(** The literal [repr_cell] returns for [None], as the source file has
    it: the three code points U+00E2 U+02C6 U+2026. *)
Definition NULL_MARKER : str := [0xE2; 0x2C6; 0x2026]%N.

(** The empty-set sign U+2205. *)
Definition EMPTY_SET_SIGN : str := [0x2205]%N.

Definition repr_cell (val : pyval) : str :=
  match val with
  | PyNone => NULL_MARKER
  | PyFloat f => format_6g f
  | PyList _ | PyTuple _ | PySet _ | PyDict _ =>
    let s := py_str val in
    if (Z.of_nat (length s) <=? 80)%Z then s else slice_to 77 s ++ U "..."
  | _ => py_str val
  end.

Definition render_table (df : DataFrame) (max_rows : Z) (max_width : Z)
    (title : option str) : M unit :=
  df <- (if (max_rows <? height df)%Z then lift (fun _ => head df max_rows)
         else ret df) ;;
  let tbl := {| tbl_title := title;
                tbl_columns := columns df;
                tbl_rows := map (map repr_cell) (rows df) |} in
  console_print (RTable tbl (Some max_width)).

Definition in_NUMERIC_DTYPES (dt : dtype) : bool :=
  match dt with
  | Int8 | Int16 | Int32 | Int64
  | UInt8 | UInt16 | UInt32 | UInt64
  | Float32 | Float64 => true
  | Decimal _ _ => true
  | _ => false
  end.

Definition is_numeric_dtype (dt : dtype) : bool :=
  in_NUMERIC_DTYPES dt || contains (U "Decimal") (dtype_repr dt).

Definition is_utf8_dtype (dt : dtype) : bool :=
  match dt with Utf8 => true | _ => false end.

(** *** [cli.py] *)

Definition BULLET : str := [0x2022]%N.

Fixpoint for_each {A} (xs : list A) (body : A -> M unit) : M unit :=
  match xs with
  | [] => ret tt
  | x :: r => body x ;;; for_each r body
  end.

(** [[c for c, dt in zip(df.columns, df.dtypes) if p(dt)]] *)
Definition columns_where (p : dtype -> bool) (df : DataFrame) : list str :=
  map fst (filter (fun cd => p (snd cd)) (combine (columns df) (dtypes df))).

Fixpoint index_of (c : str) (names : list str) : option nat :=
  match names with
  | [] => None
  | x :: r => if str_eqb x c then Some O
              else option_map S (index_of c r)
  end.

(** The cells of column [c], top to bottom. *)
Definition column_values (df : DataFrame) (c : str) : list pyval :=
  match index_of c (columns df) with
  | Some i => map (fun row => nth i row PyNone) (rows df)
  | None => []
  end.

Definition is_null (v : pyval) : bool :=
  match v with PyNone => true | _ => false end.

(** [df.select(pl.col(c)).drop_nulls().group_by(c).len()
       .sort("len", descending=True)] *)
Definition value_counts_frame (df : DataFrame) (c : str) : result DataFrame :=
  let cells := filter (fun v => negb (is_null v)) (column_values df c) in
  match df_value_counts c cells with
  | Ok groups =>
    Ok {| columns := [c; U "len"];
          dtypes := [Utf8; UInt32];
          rows := map (fun vn => [fst vn; PyInt (snd vn)]) groups |}
  | Raise e => Raise e
  end.

Definition numeric_summary_title : str := U "[bold]Numeric summary[/bold]".

Definition topk_title (topk : Z) (c : str) : str :=
  U "[bold]Top " ++ str_of_Z topk ++ U " values[/bold] " ++ BULLET ++ U " " ++ c.

Definition no_numeric_notice : renderable :=
  RPanel (U "No numeric columns detected.") (U "yellow").

(** The loop body of [stats] for one text column. *)
Definition stats_topk (df : DataFrame) (topk : Z) (c : str) : M unit :=
  freq <- lift (fun _ => match value_counts_frame df c with
                         | Ok counts => head counts topk
                         | Raise e => Raise e
                         end) ;;
  if negb (height freq =? 0)%Z
  then render_table freq 20 120 (Some (topk_title topk c))
  else ret tt.

Definition stats_frame (df : DataFrame) (topk : Z) : M unit :=
  let num_cols := columns_where is_numeric_dtype df in
  match num_cols with
  | _ :: _ =>
    summary <- lift (fun _ => df_numeric_summary df num_cols) ;;
    render_table summary 20 120 (Some numeric_summary_title)
  | [] => console_print no_numeric_notice
  end ;;;
  let str_cols := columns_where is_utf8_dtype df in
  for_each str_cols (stats_topk df topk).

Definition stats (path : str) (topk : Z) (fmt delimiter : option str) : M unit :=
  df <- lift (fun w => read_frame (fs w) path fmt delimiter 2048) ;;
  stats_frame df topk.

Definition empty_dataset_notice : renderable :=
  RPanel (U "Empty dataset.") (U "red").

Definition sample_title (n : Z) (path : str) : str :=
  U "[bold]Random sample (" ++ str_of_Z n ++ U ")[/bold] " ++ BULLET ++ U " "
    ++ basename path.

(** [min(n, df.height) if df.height else 0] *)
Definition sample_size (n : Z) (df : DataFrame) : Z :=
  if negb (height df =? 0)%Z then Z.min n (height df) else 0%Z.

(** [sample] once the frame is loaded. Without a seed the engine draws
    one from the process's entropy. *)
Definition sample_frame (df : DataFrame) (path : str) (n : Z)
    (seed : option Z) : M unit :=
  let n := sample_size n df in
  if (n =? 0)%Z then
    console_print empty_dataset_notice ;;; raise (Exit 1)
  else
    s <- lift (fun w => match seed with
                        | Some sd => df_sample df n sd
                        | None => df_sample df n (entropy w)
                        end) ;;
    render_table s n 120 (Some (sample_title n path)).

Definition sample (path : str) (n : Z) (seed : option Z)
    (fmt delimiter : option str) : M unit :=
  df <- lift (fun w => read_frame (fs w) path fmt delimiter 2048) ;;
  sample_frame df path n seed.

(** [a or b] for an optional string. *)
Definition py_or (a : option str) (b : str) : str :=
  match a with
  | Some s => if truthy s then s else b
  | None => b
  end.

(** [{"jsonl": "ndjson", "pq": "parquet"}.get(t, t)] *)
Definition dst_alias (t : str) : str :=
  if str_eqb t (U "jsonl") then U "ndjson"
  else if str_eqb t (U "pq") then U "parquet"
  else t.

(** The destination format [convert] settles on. *)
Definition out_format (dst : str) (fmt_dst : option str) : str :=
  dst_alias (py_or fmt_dst (lstrip (U ".") (lower (snd (splitext dst))))).

(** Running one of the engine's writers. *)
Definition write_with (wr : filesystem -> result filesystem) : M unit :=
  fun w => match wr (fs w) with
           | Ok files => ({| fs := files; console := console w;
                             entropy := entropy w |}, Ok tt)
           | Raise e => (w, Raise e)
           end.

Definition unsupported_destination (out_fmt : str) : renderable :=
  RText (U "[red]Unsupported destination format: " ++ out_fmt ++ U "[/red]").

Definition convert (src dst : str) (fmt_src fmt_dst delimiter : option str)
    : M unit :=
  df <- lift (fun w => read_frame (fs w) src fmt_src None 2048) ;;
  let out_fmt := out_format dst fmt_dst in
  (if str_eqb out_fmt (U "csv") then
     let sep := py_or delimiter (U ",") in
     write_with (df_write_csv df dst sep)
   else if str_eqb out_fmt (U "parquet") then
     write_with (df_write_parquet df dst)
   else if str_eqb out_fmt (U "ndjson") then
     write_with (df_write_ndjson df dst)
   else
     console_print (unsupported_destination out_fmt) ;;; raise (Exit 2)) ;;;
  console_print (RText (U "[green]Wrote[/green] " ++ dst)).

End Peektab.

(* ================================================================== *)
(** ** The rest of [utils.py] and [cli.py]: [scan_lazy], [print_kv],
       [show], [schema], [columns], [info] *)

(** What the lazy side of the engine and the remaining conversions of
    Python add to [Runtime]. *)
Class LazyEngine := {
  LazyFrame : Type;

  (** [pl.scan_csv(path, separator=..., try_parse_dates=True)] and its
      siblings. *)
  pl_scan_csv : filesystem -> str -> str -> result LazyFrame;
  pl_scan_ndjson : filesystem -> str -> result LazyFrame;
  pl_scan_parquet : filesystem -> str -> result LazyFrame;

  (** [lf.select(names)], [lf.fetch(n)] and
      [lf.select(pl.len()).collect().item()]. *)
  lf_select : LazyFrame -> list str -> result LazyFrame;
  lf_fetch : LazyFrame -> Z -> result DataFrame;
  lf_len : LazyFrame -> result Z;

  (** [[c.estimated_size() for c in df.iter_columns()]] *)
  df_estimated_sizes : DataFrame -> result (list Z);

  (** [str(dt)] of a column type. *)
  dtype_str : dtype -> str;

  (** [f"{a / b:.2f}"] for two ints. *)
  format_div_2f : Z -> Z -> str
}.

(** [s.split(sep)] for a one-character separator. *)
Fixpoint split_acc (sep : char) (cur : str) (s : str) : list str :=
  match s with
  | [] => [rev cur]
  | c :: r => if (c =? sep)%N then rev cur :: split_acc sep [] r
              else split_acc sep (c :: cur) r
  end.

Definition split (sep : char) (s : str) : list str := split_acc sep [] s.

(** [d[k] = v] on a dict in insertion order. *)
Fixpoint dict_set (d : dict) (k : str) (v : Z) : dict :=
  match d with
  | [] => [(k, v)]
  | (k', v') :: r => if str_eqb k' k then (k', v) :: r
                     else (k', v') :: dict_set r k v
  end.

(** [dict(pairs)] *)
Definition dict_of_pairs (pairs : list (str * Z)) : dict :=
  fold_left (fun d kv => dict_set d (fst kv) (snd kv)) pairs [].

(** [d.get(k, default)] *)
Fixpoint dict_get (d : dict) (k : str) (default : Z) : Z :=
  match d with
  | [] => default
  | (k', v) :: r => if str_eqb k' k then v else dict_get r k default
  end.

(** The cells of the column at position [i], top to bottom. *)
Definition column_at (df : DataFrame) (i : nat) : list pyval :=
  map (fun row => nth i row PyNone) (rows df).

Definition null_cells (cells : list pyval) : Z :=
  Z.of_nat (length (filter (fun v => match v with PyNone => true | _ => false end)
                           cells)).

(** [df.null_count().row(0)]: for each column, in order, the number of
    its null cells. The frame [df.null_count()] has the columns of
    [df]. *)
Definition null_count_row (df : DataFrame) : list Z :=
  map (fun i => null_cells (column_at df i)) (seq 0 (length (columns df))).

(** What [print_kv] prints: a rule with the title, then a table
    without header of one row per pair. *)
Inductive kv_renderable :=
| KVRule (markup : str)
| KVTable (kv_rows : list (list str)).

(** The strings read as markup when [r] is printed; the two columns
    of the table are declared as ["k"] and ["v"] and their headers are
    not shown. *)
Definition kv_texts (r : kv_renderable) : list str :=
  match r with
  | KVRule markup => [markup]
  | KVTable kv_rows => table_texts false None [U "k"; U "v"] kv_rows
  end.

(** [print_kv] returns what it printed when both prints succeed, and
    the error of the print that raised otherwise. *)
Definition print_kv {R : Runtime} (title : str) (pairs : list (str * str))
    : result (list kv_renderable) :=
  let rule := KVRule (U "[bold]" ++ title ++ U "[/bold]") in
  let t := KVTable (map (fun kv => [fst kv; snd kv]) pairs) in
  if forallb markup_ok (kv_texts rule) then
    if forallb markup_ok (kv_texts t) then Ok [rule; t]
    else Raise MarkupError
  else Raise MarkupError.

Definition MIDDLE_DOT : str := [0xB7]%N.
Definition EM_DASH : str := [0x2014]%N.

Section PeektabRest.

Context {R : Runtime} {L : LazyEngine}.

Definition scan_lazy (files : filesystem) (path : str) (fmt : option str)
    (delimiter : option str) : result LazyFrame :=
  let fmt := detect_format path fmt in
  if str_eqb fmt (U "csv") then
    match delimiter with
    | None =>
      match sniff_delimiter files path with
      | Ok d => pl_scan_csv files path d
      | Raise e => Raise e
      end
    | Some d => pl_scan_csv files path d
    end
  else if str_eqb fmt (U "ndjson") then pl_scan_ndjson files path
  else if str_eqb fmt (U "parquet") then pl_scan_parquet files path
  else Raise (ValueError (U "Unsupported format: " ++ fmt)).

(** [[c.strip() for c in cols.split(",") if c.strip()]] *)
Definition selected_columns (cols : str) : list str :=
  map strip (filter (fun c => truthy (strip c)) (split COMMA cols)).

Definition preview_title (path : str) : str :=
  U "[bold]Preview[/bold] " ++ BULLET ++ U " " ++ basename path.

Definition rows_shown_line (df : DataFrame) : renderable :=
  RText (U "[dim]rows shown: " ++ str_of_Z (height df)
         ++ U " (file preview) | columns: "
         ++ str_of_Z (Z.of_nat (length (columns df))) ++ U "[/dim]").

Definition show (path : str) (rows : Z) (cols fmt delimiter : option str)
    : M unit :=
  lf <- lift (fun w => scan_lazy (fs w) path fmt delimiter) ;;
  lf <- match cols with
        | Some c => if truthy c
                    then lift (fun _ => lf_select lf (selected_columns c))
                    else ret lf
        | None => ret lf
        end ;;
  df <- lift (fun _ => lf_fetch lf rows) ;;
  render_table df rows 120 (Some (preview_title path)) ;;;
  console_print (rows_shown_line df).

(** The commands below print through [print_kv] only and write
    nothing: they are given the file system and return what they
    print, or the error they end with. *)

Definition schema_title (path : str) : str :=
  U "Schema " ++ BULLET ++ U " " ++ basename path.

(** The list [meta] of [schema]. *)
Definition schema_meta (df : DataFrame) : list (str * str) :=
  let null_counts := dict_of_pairs (combine (columns df) (null_count_row df)) in
  map (fun nd => (fst nd,
                  dtype_str (snd nd) ++ U " " ++ MIDDLE_DOT ++ U " nulls="
                  ++ str_of_Z (dict_get null_counts (fst nd) 0)))
      (combine (columns df) (dtypes df)).

Definition schema (files : filesystem) (path : str) (fmt delimiter : option str)
    : result (list kv_renderable) :=
  match read_frame files path fmt delimiter 10000 with
  | Ok df => print_kv (schema_title path) (schema_meta df)
  | Raise e => Raise e
  end.

Definition columns_title (path : str) : str :=
  U "Columns " ++ BULLET ++ U " " ++ basename path.

(** The list [pairs] of the command [columns]. *)
Definition columns_pairs (df : DataFrame) : list (str * str) :=
  map (fun cd => (fst cd, dtype_str (snd cd))) (combine (columns df) (dtypes df)).

(** The command [columns] (the name is taken by the field of
    [DataFrame]). *)
Definition columns_cmd (files : filesystem) (path : str)
    (fmt delimiter : option str) : result (list kv_renderable) :=
  match read_frame files path fmt delimiter 10000 with
  | Ok df => print_kv (columns_title path) (columns_pairs df)
  | Raise e => Raise e
  end.

(** The [try] block of [info]: any failure leaves the placeholder. *)
Definition mem_estimate (df : DataFrame) : str :=
  match df_estimated_sizes df with
  | Ok sizes =>
    format_div_2f (fold_left Z.add sizes 0%Z) (1024 ^ 2) ++ U " MiB (columns only)"
  | Raise _ => U "--"
  end.

(** The delimiter [info] settles on before it scans. *)
Definition info_delimiter (files : filesystem) (path : str)
    (fmt delimiter : option str) : result (option str) :=
  if str_eqb (detect_format path fmt) (U "csv") then
    match delimiter with
    | None =>
      match sniff_delimiter files path with
      | Ok d => Ok (Some d)
      | Raise e => Raise e
      end
    | Some d => Ok (Some d)
    end
  else Ok delimiter.

Definition info (files : filesystem) (path : str) (fmt delimiter : option str)
    : result (list kv_renderable) :=
  let actual_fmt := detect_format path fmt in
  match info_delimiter files path fmt delimiter with
  | Raise e => Raise e
  | Ok used_delim =>
    match scan_lazy files path fmt used_delim with
    | Raise e => Raise e
    | Ok lf =>
      match lf_fetch lf 0 with
      | Raise e => Raise e
      | Ok df =>
        match lf_len lf with
        | Raise e => Raise e
        | Ok n =>
          print_kv (U "Info")
            [(U "file", basename path);
             (U "format", actual_fmt);
             (U "delimiter", py_or used_delim EM_DASH);
             (U "rows", str_of_Z n);
             (U "columns", str_of_Z (Z.of_nat (length (columns df))));
             (U "mem_est", mem_estimate df)]
        end
      end
    end
  end.

End PeektabRest.

(* ================================================================== *)
(** ** Vocabulary of the statements below *)

(** The three delimiters [sniff_delimiter] chooses among. *)
Definition candidates : list str := [[COMMA]; [TAB]; [SEMICOLON]].

(** A line that [strip] empties. *)
Definition blank (l : str) : Prop := strip l = [].

(** The bytes of a file whose text is the ASCII string [s]. *)
Definition byte_of (c : char) : byte :=
  match Byte.of_N c with Some b => b | None => x00 end.
Definition file_of (s : str) : list byte := map byte_of s.

(** A file system holding one file's bytes under every name, and one
    holding nothing. *)
Definition only_file (data : list byte) : filesystem := fun _ => Some data.
Definition no_files : filesystem := fun _ => None.

(** Scenario B: an empty first line, then [x;y;z]. *)
Definition scenario_B : list byte :=
  file_of ([TextIO.LF] ++ U "x;y;z" ++ [TextIO.LF]).

(** A line whose only delimiter characters are a leading and a trailing
    tab. *)
Definition edge_tabs_line : str := [TAB] ++ U "x" ++ [TAB; TextIO.LF].

(** A byte that is no part of any UTF-8 sequence. *)
Definition never_valid (b : N) : bool :=
  ((b =? 0xC0) || (b =? 0xC1) || (0xF5 <=? b))%N.

(** A byte that cannot start a UTF-8 sequence. *)
Definition not_a_start (b : N) : bool :=
  ((0x80 <=? b) && (b <? 0xC2) || (0xF5 <=? b))%N.

(** The well-formed UTF-8 byte sequences, as the Unicode standard
    lists them: one byte 00..7F; C2..DF and a trailing byte; E0 with
    A0..BF, E1..EC or EE..EF with any trailing byte, ED with 80..9F,
    and one more trailing byte; F0 with 90..BF, F1..F3 with any
    trailing byte, F4 with 80..8F, and two more trailing bytes. *)
Definition in_range (lo hi b : N) : bool := ((lo <=? b) && (b <=? hi))%N.

Definition well_formed (s : list N) : bool :=
  match s with
  | [a] => (a <=? 0x7F)%N
  | [a; b] => in_range 0xC2 0xDF a && in_range 0x80 0xBF b
  | [a; b; c] =>
    ((a =? 0xE0)%N && in_range 0xA0 0xBF b
     || in_range 0xE1 0xEC a && in_range 0x80 0xBF b
     || (a =? 0xED)%N && in_range 0x80 0x9F b
     || in_range 0xEE 0xEF a && in_range 0x80 0xBF b)
    && in_range 0x80 0xBF c
  | [a; b; c; d] =>
    ((a =? 0xF0)%N && in_range 0x90 0xBF b
     || in_range 0xF1 0xF3 a && in_range 0x80 0xBF b
     || (a =? 0xF4)%N && in_range 0x80 0x8F b)
    && in_range 0x80 0xBF c && in_range 0x80 0xBF d
  | _ => false
  end.

(** The character a well-formed sequence stands for. *)
Definition code_point (s : list N) : char :=
  match s with
  | [a] => a
  | [a; b] => TextIO.cp2 a b
  | [a; b; c] => TextIO.cp3 a b c
  | [a; b; c; d] => TextIO.cp4 a b c d
  | _ => 0%N
  end.

(** The bytes begin with a well-formed sequence. *)
Definition starts_char (bs : list N) : bool :=
  well_formed (firstn 1 bs) || well_formed (firstn 2 bs)
  || well_formed (firstn 3 bs) || well_formed (firstn 4 bs).

(** The text [sniff_delimiter] works on once it holds the decoded
    characters of a file. *)
Definition sniff_text (text : str) : str :=
  sniff_lines (TextIO.lines (TextIO.translate_newlines text)).

(** The character Windows-1252 assigns to a byte: it differs from
    Latin-1 on 80..9F only. *)
Definition windows_1252 (b : N) : char :=
  match b with
  | 0x80 => 0x20AC | 0x82 => 0x201A | 0x83 => 0x0192 | 0x84 => 0x201E
  | 0x85 => 0x2026 | 0x86 => 0x2020 | 0x87 => 0x2021 | 0x88 => 0x02C6
  | 0x89 => 0x2030 | 0x8A => 0x0160 | 0x8B => 0x2039 | 0x8C => 0x0152
  | 0x8E => 0x017D | 0x91 => 0x2018 | 0x92 => 0x2019 | 0x93 => 0x201C
  | 0x94 => 0x201D | 0x95 => 0x2022 | 0x96 => 0x2013 | 0x97 => 0x2014
  | 0x98 => 0x02DC | 0x99 => 0x2122 | 0x9A => 0x0161 | 0x9B => 0x203A
  | 0x9C => 0x0153 | 0x9E => 0x017E | 0x9F => 0x0178
  | _ => b
  end%N.

(** The tags the loader and [convert] know. *)
Definition supported_formats : list str := [U "csv"; U "ndjson"; U "parquet"].

(** The console and the file system a command leaves, and its result. *)
Definition run {A} (c : M A) (w : world) : world * result A := c w.

Definition printed {A} (c : M A) (w : world) : list renderable :=
  console (fst (c w)).

Definition outcome {A} (c : M A) (w : world) : result A := snd (c w).

Definition fresh_world (files : filesystem) (e : Z) : world :=
  {| fs := files; console := []; entropy := e |}.

Definition with_console (w : world) (extra : list renderable) : world :=
  {| fs := fs w; console := console w ++ extra; entropy := entropy w |}.

(** The last line [convert] prints. *)
Definition wrote_notice (dst : str) : renderable :=
  RText (U "[green]Wrote[/green] " ++ dst).

(** A seed the engine takes: an unsigned 64-bit integer. *)
Definition seed_ok (seed : Z) : Prop := (0 <= seed < 2 ^ 64)%Z.

(** The seed a run of [sample] hands to the engine's sampler, or leaves
    the engine to draw. *)
Definition seed_used (seed : option Z) (w : world) : Z :=
  match seed with
  | Some sd => sd
  | None => entropy w
  end.

(** What the engine promises of [df.sample]: asked, with a seed it
    takes, for [k] rows of a frame that has at least [k], it returns a
    frame of [k] rows. *)
Definition sample_contract {R : Runtime} : Prop :=
  forall df k seed,
    (1 <= k <= height df)%Z -> seed_ok seed ->
    exists s, df_sample df k seed = Ok s /\ height s = k.

(** What the engine promises of grouping when it succeeds: there is a
    group exactly when there is a row. *)
Definition counts_contract {R : Runtime} : Prop :=
  forall c cells groups,
    df_value_counts c cells = Ok groups -> (groups = [] <-> cells = []).

(** The cells of column [c] that are not null. *)
Definition values_of (df : DataFrame) (c : str) : list pyval :=
  filter (fun v => negb (is_null v)) (column_values df c).

(** The rows the engine counts for column [c], most frequent value
    first; none where it raises. *)
Definition counted_rows {R : Runtime} (df : DataFrame) (c : str)
    : list (list pyval) :=
  match df_value_counts c (values_of df c) with
  | Ok groups => map (fun vn => [fst vn; PyInt (snd vn)]) groups
  | Raise _ => []
  end.

(** Column [c] has a cell that is not null. *)
Definition has_value (df : DataFrame) (c : str) : bool :=
  existsb (fun v => negb (is_null v)) (column_values df c).

(** The table [stats] prints for text column [c]. *)
Definition topk_table {R : Runtime} (df : DataFrame) (topk : Z) (c : str)
    : renderable :=
  RTable {| tbl_title := Some (topk_title topk c);
            tbl_columns := [c; U "len"];
            tbl_rows := map (map repr_cell)
                          (firstn (Z.to_nat (Z.min topk 20))
                                  (counted_rows df c)) |}
         (Some 120%Z).

(** Text column [c] gets through its turn in the loop of [stats]: the
    engine counts its values, the cut to [topk] rows is one the engine
    takes, and the table, if the column has a value, renders. *)
Definition topk_passes {R : Runtime} (df : DataFrame) (topk : Z) (c : str)
    : bool :=
  match df_value_counts c (values_of df c) with
  | Ok _ => (topk <? 2 ^ 64)%Z
            && (negb (has_value df c) || renders (topk_table df topk c))
  | Raise _ => false
  end.

(** The longest initial part of a list whose members all pass. *)
Fixpoint take_while {A} (p : A -> bool) (l : list A) : list A :=
  match l with
  | [] => []
  | x :: r => if p x then x :: take_while p r else []
  end.

Definition table_title (r : renderable) : option str :=
  match r with
  | RTable t _ => tbl_title t
  | _ => None
  end.

(** The table [sample] prints for the sample [s] of size [k]. *)
Definition sample_table {R : Runtime} (s : DataFrame) (k : Z) (path : str)
    : renderable :=
  RTable {| tbl_title := Some (sample_title k path);
            tbl_columns := columns s;
            tbl_rows := map (map repr_cell) (rows s) |}
         (Some 120%Z).

(** *** A small runtime to evaluate the commands on examples

    Text cells only, a deterministic stand-in for the sampler, writers
    that store a readable rendering, and style names taken as they
    stand. It plays no part in the theorems, which hold for every
    [Runtime]; the examples are evaluated on it. *)
Module Demo.

Fixpoint split_on (sep : char) (cur : str) (s : str) : list str :=
  match s with
  | [] => [rev cur]
  | c :: r => if (c =? sep)%N then rev cur :: split_on sep [] r
              else split_on sep (c :: cur) r
  end.

Definition fields (sep : str) (line : str) : list str :=
  match sep with
  | [c] => split_on c [] (strip line)
  | _ => [strip line]
  end.

Definition read_csv (files : filesystem) (path sep : str) (_ : Z)
    : result DataFrame :=
  match files path with
  | None => Raise (OSError path)
  | Some data =>
    match TextIO.readlines data with
    | [] => Raise (EngineError (U "empty CSV"))
    | header :: body =>
      Ok {| columns := fields sep header;
            dtypes := map (fun _ => Utf8) (fields sep header);
            rows := map (fun l => map (fun f => match f with
                                               | [] => PyNone
                                               | _ => PyStr f
                                               end) (fields sep l)) body |}
    end
  end.

Definition unavailable (_ : filesystem) (_ : str) : result DataFrame :=
  Raise (EngineError (U "reader not available")).

Definition cell_text (v : pyval) : str :=
  match v with
  | PyNone => U "None"
  | PyBool true => U "True"
  | PyBool false => U "False"
  | PyInt z => str_of_Z z
  | PyStr s => s
  | PyFloat _ => U "<float>"
  | PyList xs => U "[" ++ concat (map (fun _ => U "?, ") xs) ++ U "]"
  | PyTuple xs => U "(" ++ concat (map (fun _ => U "?, ") xs) ++ U ")"
  | PySet xs => U "{" ++ concat (map (fun _ => U "?, ") xs) ++ U "}"
  | PyDict kv => U "{" ++ concat (map (fun _ => U "?: ?, ") kv) ++ U "}"
  | PyObject _ text => text
  end.

Fixpoint join (sep : str) (parts : list str) : str :=
  match parts with
  | [] => []
  | [x] => x
  | x :: r => x ++ sep ++ join sep r
  end.

Definition put (path : str) (data : list byte) (files : filesystem)
    : filesystem :=
  fun p => if str_eqb p path then Some data else files p.

Definition write_csv (df : DataFrame) (path sep : str) (files : filesystem)
    : result filesystem :=
  let line := fun cells => join sep cells ++ [TextIO.LF] in
  Ok (put path
        (file_of (line (columns df)
                  ++ concat (map (fun r => line (map cell_text r)) (rows df))))
        files).

Definition write_tagged (tag : str) (df : DataFrame) (path : str)
    (files : filesystem) : result filesystem :=
  Ok (put path (file_of tag) files).

(** Takes [n] rows starting at row [seed mod height], wrapping round;
    size and seed are unsigned 64-bit integers. *)
Definition sample_rows (df : DataFrame) (n seed : Z) : result DataFrame :=
  if ((n <? 0) || (seed <? 0) || (2 ^ 64 <=? seed))%Z then Raise OverflowError
  else if (height df <? n)%Z then
    Raise (EngineError (U "cannot take a larger sample than the total population"))
  else
    let k := Z.to_nat (seed mod height df) in
    Ok {| columns := columns df; dtypes := dtypes df;
          rows := firstn (Z.to_nat n) (skipn k (rows df) ++ firstn k (rows df)) |}.

Definition summary (df : DataFrame) (_ : list str) : result DataFrame :=
  Ok {| columns := [U "count"]; dtypes := [UInt32];
        rows := [[PyInt (height df)]] |}.

Definition same_text (a b : pyval) : bool :=
  match a, b with
  | PyStr x, PyStr y => str_eqb x y
  | _, _ => false
  end.

Fixpoint bump (v : pyval) (acc : list (pyval * Z)) : list (pyval * Z) :=
  match acc with
  | [] => [(v, 1%Z)]
  | (x, n) :: r => if same_text x v then (x, (n + 1)%Z) :: r
                   else (x, n) :: bump v r
  end.

Fixpoint insert_desc (e : pyval * Z) (l : list (pyval * Z)) : list (pyval * Z) :=
  match l with
  | [] => [e]
  | x :: r => if (snd x <? snd e)%Z then e :: l else x :: insert_desc e r
  end.

(** The count column is named [len]: a key column of that name is a
    duplicate. *)
Definition value_counts (c : str) (cells : list pyval)
    : result (list (pyval * Z)) :=
  if str_eqb c (U "len") then Raise (EngineError (U "duplicate column name"))
  else Ok (fold_right insert_desc [] (fold_left (fun acc v => bump v acc) cells [])).

(** Style names as they stand, trimmed and in lower case. *)
Definition normalize (style : str) : str := map ascii_tolower (strip style).

(** A two-column file with one data row, and the frame [read_csv]
    makes of it. *)
Definition csv_file : list byte :=
  file_of (U "a,b" ++ [TextIO.LF] ++ U "1,2" ++ [TextIO.LF]).

Definition csv_frame : DataFrame :=
  {| columns := [U "a"; U "b"]; dtypes := [Utf8; Utf8];
     rows := [[PyStr (U "1"); PyStr (U "2")]] |}.

(** One column, three rows. *)
Definition three_rows_file : list byte :=
  file_of (U "a" ++ [TextIO.LF] ++ U "1" ++ [TextIO.LF] ++ U "2" ++ [TextIO.LF]
           ++ U "3" ++ [TextIO.LF]).

Definition three_rows : DataFrame :=
  {| columns := [U "a"]; dtypes := [Utf8];
     rows := [[PyStr (U "1")]; [PyStr (U "2")]; [PyStr (U "3")]] |}.

(** Two text columns, the second one empty throughout. *)
Definition names_file : list byte :=
  file_of (U "name,city" ++ [TextIO.LF] ++ U "ann," ++ [TextIO.LF]
           ++ U "bob," ++ [TextIO.LF] ++ U "ann," ++ [TextIO.LF]).

Definition names : DataFrame :=
  {| columns := [U "name"; U "city"]; dtypes := [Utf8; Utf8];
     rows := [[PyStr (U "ann"); PyNone]; [PyStr (U "bob"); PyNone];
              [PyStr (U "ann"); PyNone]] |}.

Definition runtime : Runtime := {|
  case_lower := map ascii_tolower;
  py_str := cell_text;
  format_6g := fun _ => U "<float>";
  dtype_repr := fun _ => U "<dtype>";
  pl_read_csv := read_csv;
  pl_read_ndjson := unavailable;
  pl_read_parquet := unavailable;
  df_write_csv := write_csv;
  df_write_parquet := write_tagged (U "PAR1");
  df_write_ndjson := write_tagged (U "{}");
  df_sample := sample_rows;
  df_numeric_summary := summary;
  df_value_counts := value_counts;
  style_normalize := normalize;
  meta_params_fail := fun _ => false
|}.

End Demo.

(** *** Vocabulary for the rest of the code *)

(** The text of a file whose lines [ls] all end in the terminator
    [t]. *)
Definition join_lines (t : str) (ls : list str) : str :=
  concat (map (fun l => l ++ t) ls).

(** An ASCII character that is not part of a line terminator. *)
Definition clean_char (c : char) : bool :=
  ((c <? 128) && negb (c =? TextIO.CR) && negb (c =? TextIO.LF))%N.

(** The three line terminators. *)
Definition terminators : list str :=
  [[TextIO.LF]; [TextIO.CR; TextIO.LF]; [TextIO.CR]].

(** The separator the loaders hand to the engine's csv reader: the one
    given, else the sniffed one. *)
Definition csv_separator (files : filesystem) (path : str)
    (delimiter : option str) : result str :=
  match delimiter with
  | Some d => Ok d
  | None => sniff_delimiter files path
  end.

Definition unsupported_format (tag : str) : exn :=
  ValueError (U "Unsupported format: " ++ tag).

(** *** A small lazy engine for the examples

    A lazy frame is the frame itself; [fetch] gives its first rows;
    the size of a column is eight bytes a cell. Like [Demo.runtime] it
    plays no part in the theorems. *)
Module DemoLazy.

Definition position (c : str) (names : list str) : nat :=
  match index_of c names with Some i => i | None => length names end.

Definition project (df : DataFrame) (names : list str) : result DataFrame :=
  if forallb (fun n => existsb (str_eqb n) (columns df)) names then
    Ok {| columns := names;
          dtypes := map (fun n => nth (position n (columns df)) (dtypes df) Null) names;
          rows := map (fun row =>
                         map (fun n => nth (position n (columns df)) row PyNone) names)
                      (rows df) |}
  else Raise (EngineError (U "column not found")).

Definition scan_csv (files : filesystem) (path sep : str) : result DataFrame :=
  Demo.read_csv files path sep 0.

Definition fetch (df : DataFrame) (n : Z) : result DataFrame :=
  if (n <? 0)%Z then Raise OverflowError
  else head df n.

Definition type_name (dt : dtype) : str :=
  match dt with
  | Utf8 => U "String"
  | Int64 => U "Int64"
  | Float64 => U "Float64"
  | Boolean => U "Boolean"
  | _ => U "Other"
  end.

(** Two decimals, cut off. *)
Definition div_2f (a b : Z) : str :=
  let cents := (a * 100 / b)%Z in
  let frac := (cents mod 100)%Z in
  str_of_Z (cents / 100) ++ U "."
    ++ (if (frac <? 10)%Z then U "0" else []) ++ str_of_Z frac.

Definition engine : LazyEngine := {|
  LazyFrame := DataFrame;
  pl_scan_csv := scan_csv;
  pl_scan_ndjson := Demo.unavailable;
  pl_scan_parquet := Demo.unavailable;
  lf_select := project;
  lf_fetch := fetch;
  lf_len := fun df => Ok (height df);
  df_estimated_sizes := fun df => Ok (map (fun _ => (8 * height df)%Z) (columns df));
  dtype_str := type_name;
  format_div_2f := div_2f
|}.

(** The same engine, unable to estimate sizes. *)
Definition engine_without_sizes : LazyEngine := {|
  LazyFrame := DataFrame;
  pl_scan_csv := scan_csv;
  pl_scan_ndjson := Demo.unavailable;
  pl_scan_parquet := Demo.unavailable;
  lf_select := project;
  lf_fetch := fetch;
  lf_len := fun df => Ok (height df);
  df_estimated_sizes := fun _ => Raise (EngineError (U "no estimate"));
  dtype_str := type_name;
  format_div_2f := div_2f
|}.

End DemoLazy.

(** The numeric-summary table [stats] prints for the aggregate [s]. *)
Definition summary_table {R : Runtime} (s : DataFrame) : renderable :=
  RTable {| tbl_title := Some numeric_summary_title;
            tbl_columns := columns s;
            tbl_rows := map (map repr_cell) (firstn 20 (rows s)) |}
         (Some 120%Z).

(** The top-k tables of [stats], one for each text column that has a
    value. *)
Definition topk_tables {R : Runtime} (df : DataFrame) (topk : Z)
    : list renderable :=
  map (topk_table df topk)
      (filter (has_value df) (columns_where is_utf8_dtype df)).

(** A printed table has at most [n] rows. *)
Definition rows_at_most (n : nat) (r : renderable) : Prop :=
  match r with
  | RTable t _ => (length (tbl_rows t) <= n)%nat
  | _ => True
  end.

(** *** A runtime whose csv reader yields a typed frame *)
Module DemoTyped.

Definition scores : DataFrame :=
  {| columns := [U "name"; U "score"]; dtypes := [Utf8; Int64];
     rows := [[PyStr (U "ann"); PyInt 3]; [PyStr (U "bob"); PyNone];
              [PyStr (U "ann"); PyInt 5]] |}.

Definition read_scores (files : filesystem) (path : str) (_ : str) (_ : Z)
    : result DataFrame :=
  match files path with
  | Some _ => Ok scores
  | None => Raise (OSError path)
  end.

Definition runtime : Runtime := {|
  case_lower := map ascii_tolower;
  py_str := Demo.cell_text;
  format_6g := fun _ => U "<float>";
  dtype_repr := fun _ => U "<dtype>";
  pl_read_csv := read_scores;
  pl_read_ndjson := Demo.unavailable;
  pl_read_parquet := Demo.unavailable;
  df_write_csv := Demo.write_csv;
  df_write_parquet := Demo.write_tagged (U "PAR1");
  df_write_ndjson := Demo.write_tagged (U "{}");
  df_sample := Demo.sample_rows;
  df_numeric_summary := Demo.summary;
  df_value_counts := Demo.value_counts;
  style_normalize := Demo.normalize;
  meta_params_fail := fun _ => false
|}.

End DemoTyped.

(** [sep.join(parts)] *)
Fixpoint str_join (sep : str) (parts : list str) : str :=
  match parts with
  | [] => []
  | [x] => x
  | x :: r => x ++ sep ++ str_join sep r
  end.

(** A column name as one may type it in [--cols]: not empty, without
    comma, without whitespace at either end. *)
Definition column_token (n : str) : Prop :=
  n <> [] /\ strip n = n /\ ~ In COMMA n.

(** A name with whitespace typed around it. *)
Definition padded (t : str * str * str) : str :=
  fst (fst t) ++ snd (fst t) ++ snd t.

Definition padding_ok (t : str * str * str) : Prop :=
  forallb isspace (fst (fst t)) = true /\ forallb isspace (snd t) = true /\
  column_token (snd (fst t)).

(** The rows [render_table] keeps of a frame: the first [max_rows],
    or all but the last [|max_rows|] for a negative [max_rows]. *)
Definition rows_kept (df : DataFrame) (max_rows : Z) : list (list pyval) :=
  firstn (Z.to_nat (if (max_rows <? 0)%Z then Z.max 0 (height df + max_rows)
                    else max_rows))
         (rows df).

(** The table [render_table] builds. *)
Definition table_of {R : Runtime} (df : DataFrame) (max_rows : Z)
    (title : option str) : Table :=
  {| tbl_title := title;
     tbl_columns := columns df;
     tbl_rows := map (map repr_cell) (rows_kept df max_rows) |}.

(** The table [show] prints for the fetched frame [df]. *)
Definition preview_table {R : Runtime} (df : DataFrame) (n : Z) (path : str)
    : renderable :=
  RTable (table_of df n (Some (preview_title path))) (Some 120%Z).

(** The rows of the key-value tables in what a command printed. *)
Definition kv_rows_of (out : list kv_renderable) : list (list str) :=
  flat_map (fun r => match r with KVTable rs => rs | KVRule _ => [] end) out.

(** The text [schema] shows beside a column of type [dt] with [k] null
    cells. *)
Definition schema_entry {L : LazyEngine} (dt : dtype) (k : Z) : str :=
  dtype_str dt ++ U " " ++ MIDDLE_DOT ++ U " nulls=" ++ str_of_Z k.

(** A frame with a null in its first and two in its second column. *)
Definition nulls_frame : DataFrame :=
  {| columns := [U "id"; U "city"]; dtypes := [Int64; Utf8];
     rows := [[PyInt 1; PyNone]; [PyNone; PyStr (U "rome")]; [PyInt 3; PyNone]] |}.

(** A one-column file whose only cell reads as a closing tag. *)
Definition closing_tag_file : list byte :=
  file_of (U "a" ++ [TextIO.LF] ++ U "[/x]" ++ [TextIO.LF]).

Definition closing_tag_frame : DataFrame :=
  {| columns := [U "a"]; dtypes := [Utf8]; rows := [[PyStr (U "[/x]")]] |}.

(** Boolean tests on bytes, read as propositions. *)
Ltac bool_props :=
  repeat (rewrite ?andb_true_iff, ?orb_true_iff, ?negb_true_iff,
            ?andb_false_iff, ?orb_false_iff, ?negb_false_iff,
            ?N.leb_le, ?N.ltb_lt, ?N.eqb_eq, ?N.leb_gt, ?N.ltb_ge, ?N.eqb_neq in *).

(* ================================================================== *)
(** * Properties *)

(** ** The model at work *)

Example decode_euro_sign : TextIO.decode [xe2; x82; xac] = [0x20AC]%N.
Proof. reflexivity. Qed.

(** A lead byte without its continuation, an encoded surrogate and a
    sequence cut off by the end of the file all vanish. *)
Example decode_drops_malformed :
  TextIO.decode [x41; xc3; x28; xed; xa0; x80; x42; xc3] = [0x41; 0x28; 0x42]%N.
Proof. reflexivity. Qed.

Example lines_universal_newlines :
  TextIO.lines (TextIO.translate_newlines
                  (U "a" ++ [TextIO.CR; TextIO.LF] ++ U "b" ++ [TextIO.CR] ++ U "c"))
  = [U "a" ++ [TextIO.LF]; U "b" ++ [TextIO.LF]; U "c"].
Proof. reflexivity. Qed.

Example splitext_examples :
  snd (splitext (U "archive.tar.gz")) = U ".gz" /\
  snd (splitext (U ".bashrc")) = [] /\
  snd (splitext (U "dir.d/file")) = [].
Proof. repeat split. Qed.

(** On a tie the first key of the dict wins. *)
Example sniff_line_tie : sniff_line (U "a,b;c") = [COMMA].
Proof. reflexivity. Qed.

(** ** Trimming *)

Lemma dropwhile_all (p : char -> bool) (s : str) :
  forallb p s = true -> dropwhile p s = [].
Proof.
  induction s as [|c r IH]; simpl; [reflexivity|].
  intros H. apply andb_true_iff in H as [Hc Hr]. rewrite Hc. auto.
Qed.

Lemma dropwhile_app (p : char -> bool) (a b : str) :
  dropwhile p (a ++ b) =
  match dropwhile p a with
  | [] => dropwhile p b
  | _ :: _ => dropwhile p a ++ b
  end.
Proof.
  induction a as [|c r IH]; simpl.
  - destruct (dropwhile p b); reflexivity.
  - destruct (p c); [exact IH | reflexivity].
Qed.

Lemma dropwhile_nil_all (p : char -> bool) (s : str) :
  dropwhile p s = [] -> forallb p s = true.
Proof.
  induction s as [|c r IH]; simpl; [reflexivity|].
  destruct (p c); [auto | discriminate].
Qed.

Lemma strip_all_space (s : str) :
  forallb isspace s = true -> strip s = [].
Proof.
  intros H. unfold strip, lstrip_ws. rewrite (dropwhile_all _ _ H). reflexivity.
Qed.

Lemma rstrip_ws_app_space (s post : str) :
  forallb isspace post = true -> rstrip_ws (s ++ post) = rstrip_ws s.
Proof.
  intros H. unfold rstrip_ws. rewrite rev_app_distr, dropwhile_app.
  rewrite dropwhile_all; [reflexivity|].
  rewrite forallb_forall in *. intros x Hx. apply H. now apply in_rev.
Qed.

Lemma rstrip_ws_all_space (s : str) :
  forallb isspace s = true -> rstrip_ws s = [].
Proof.
  intros H. rewrite <- (app_nil_l s). rewrite rstrip_ws_app_space; auto.
Qed.

(** Whitespace around a line does not survive [strip]. *)
Lemma strip_padding (pre core post : str) :
  forallb isspace pre = true -> forallb isspace post = true ->
  strip (pre ++ core ++ post) = strip core.
Proof.
  intros Hpre Hpost. unfold strip, lstrip_ws.
  rewrite dropwhile_app, (dropwhile_all _ _ Hpre).
  rewrite dropwhile_app.
  destruct (dropwhile isspace core) as [|c r] eqn:E.
  - rewrite (dropwhile_all _ _ Hpost). reflexivity.
  - rewrite <- E. apply rstrip_ws_app_space; assumption.
Qed.

(** ** The choice among the three candidates *)

Lemma count_nonneg (c : char) (s : str) : (0 <= count c s)%Z.
Proof. unfold count. lia. Qed.

Lemma sniff_lines_cons (l : str) (rest : list str) :
  sniff_lines (l :: rest) =
  match strip l with
  | [] => sniff_lines rest
  | _ :: _ => sniff_line (strip l)
  end.
Proof. simpl. destruct (strip l); reflexivity. Qed.

Lemma sniff_lines_skip_blank (blanks : list str) (tail : list str) :
  Forall (fun b => strip b = []) blanks ->
  sniff_lines (blanks ++ tail) = sniff_lines tail.
Proof.
  induction 1 as [|b bs Hb _ IH]; [reflexivity|].
  rewrite <- app_comm_cons, sniff_lines_cons, Hb. exact IH.
Qed.

Lemma sniff_line_cases (line : str) :
  let c := fun d => count d line in
  sniff_line line =
    if ((c COMMA =? 0) && (c TAB =? 0) && (c SEMICOLON =? 0))%Z then [COMMA]
    else if (c COMMA <? c TAB)%Z
         then if (c TAB <? c SEMICOLON)%Z then [SEMICOLON] else [TAB]
         else if (c COMMA <? c SEMICOLON)%Z then [SEMICOLON] else [COMMA].
Proof.
  intros c. unfold sniff_line, delimiter_counts, any_values, dict_max_key.
  simpl. fold (c COMMA) (c TAB) (c SEMICOLON).
  destruct (c COMMA =? 0)%Z, (c TAB =? 0)%Z, (c SEMICOLON =? 0)%Z; simpl;
  destruct (c COMMA <? c TAB)%Z, (c TAB <? c SEMICOLON)%Z,
           (c COMMA <? c SEMICOLON)%Z; reflexivity.
Qed.

Lemma sniff_line_candidate (line : str) : In (sniff_line line) candidates.
Proof.
  rewrite sniff_line_cases. unfold candidates. simpl.
  repeat match goal with |- context [if ?b then _ else _] => destruct b end;
    auto.
Qed.

Lemma sniff_lines_candidate (ls : list str) : In (sniff_lines ls) candidates.
Proof.
  induction ls as [|l rest IH].
  - simpl. auto.
  - rewrite sniff_lines_cons. destruct (strip l); [exact IH|].
    apply sniff_line_candidate.
Qed.

(** ** The delimiter sniffer *)

Lemma sniff_lines_all_blank (ls : list str) :
  Forall blank ls -> sniff_lines ls = [COMMA].
Proof.
  intros H. rewrite <- (app_nil_r ls). now rewrite sniff_lines_skip_blank.
Qed.

Lemma sniff_lines_first_nonblank (blanks : list str) (L : str) (rest : list str) :
  Forall blank blanks -> ~ blank L ->
  sniff_lines (blanks ++ L :: rest) = sniff_line (strip L).
Proof.
  intros Hb HL. rewrite sniff_lines_skip_blank by exact Hb.
  rewrite sniff_lines_cons. unfold blank in HL.
  destruct (strip L); [contradiction | reflexivity].
Qed.

(** C1 (as amended). For a file that opens, [sniff_delimiter] returns
    the candidate whose count is strictly the highest in the first
    non-blank line *after that line's surrounding whitespace has been
    trimmed* (lines that trim to nothing are skipped); it returns comma
    if the three counts are zero or if no line is non-blank. A file with
    an empty first line followed by [x;y;z] gives semicolon. *)
Theorem sniff_delimiter_highest_count_trimmed :
  forall (files : filesystem) (path : str) (data : list byte),
    files path = Some data ->
    (forall blanks L rest,
        TextIO.readlines data = blanks ++ L :: rest ->
        Forall blank blanks -> ~ blank L ->
        let c := fun d => count d (strip L) in
        ((c TAB < c COMMA /\ c SEMICOLON < c COMMA)%Z ->
           sniff_delimiter files path = Ok [COMMA]) /\
        ((c COMMA < c TAB /\ c SEMICOLON < c TAB)%Z ->
           sniff_delimiter files path = Ok [TAB]) /\
        ((c COMMA < c SEMICOLON /\ c TAB < c SEMICOLON)%Z ->
           sniff_delimiter files path = Ok [SEMICOLON]) /\
        ((c COMMA = 0 /\ c TAB = 0 /\ c SEMICOLON = 0)%Z ->
           sniff_delimiter files path = Ok [COMMA])) /\
    (Forall blank (TextIO.readlines data) ->
       sniff_delimiter files path = Ok [COMMA]) /\
    (data = scenario_B -> sniff_delimiter files path = Ok [SEMICOLON]).
Proof.
  intros files path data Hopen. unfold sniff_delimiter. rewrite Hopen.
  split; [|split].
  - intros blanks L rest Hlines Hblanks HL.
    rewrite Hlines, sniff_lines_first_nonblank by assumption.
    rewrite sniff_line_cases. cbv zeta.
    generalize (count_nonneg COMMA (strip L)) (count_nonneg TAB (strip L))
               (count_nonneg SEMICOLON (strip L)).
    generalize (count COMMA (strip L)) (count TAB (strip L))
               (count SEMICOLON (strip L)).
    intros a b c Ha Hb Hc.
    repeat split; intros Hcmp;
      destruct (a =? 0)%Z eqn:E1, (b =? 0)%Z eqn:E2, (c =? 0)%Z eqn:E3; simpl;
      destruct (a <? b)%Z eqn:E4, (b <? c)%Z eqn:E5, (a <? c)%Z eqn:E6;
      try reflexivity; exfalso; lia.
  - intros Hall. now rewrite sniff_lines_all_blank.
  - intros ->. reflexivity.
Qed.

(** Scenario B, obtained from the general statement: the first line is
    blank, the second is the first non-blank one, and semicolon has the
    highest count in it. *)
Lemma sniff_delimiter_highest_count_trimmed_witness :
  sniff_delimiter (only_file scenario_B) (U "b.csv") = Ok [SEMICOLON].
Proof.
  refine (proj1 (proj2 (proj2 (proj1
    (@sniff_delimiter_highest_count_trimmed (only_file scenario_B) (U "b.csv")
       scenario_B eq_refl)
    [[TextIO.LF]] (U "x;y;z" ++ [TextIO.LF]) [] eq_refl _ _))) _).
  - repeat constructor.
  - unfold blank. vm_compute. discriminate.
  - vm_compute. split; reflexivity.
Defined.

(** C1 as stated fails when the counts are taken in the line as the
    file has it: in the line TAB [x] TAB the tab has the strictly
    highest count, and [sniff_delimiter] answers comma. *)
Lemma sniff_delimiter_raw_line_counterexample :
  let data := file_of edge_tabs_line in
  TextIO.readlines data = [edge_tabs_line] /\
  ~ blank edge_tabs_line /\
  (count COMMA edge_tabs_line < count TAB edge_tabs_line)%Z /\
  (count SEMICOLON edge_tabs_line < count TAB edge_tabs_line)%Z /\
  sniff_delimiter (only_file data) (U "t.tsv") = Ok [COMMA] /\
  sniff_delimiter (only_file data) (U "t.tsv") <> Ok [TAB].
Proof.
  repeat split; try reflexivity.
  - unfold blank. vm_compute. discriminate.
  - vm_compute. discriminate.
Qed.

(** C10. [sniff_delimiter] counts in the trimmed line: a line is
    replaced by its [strip] before anything is counted, so whitespace
    (tabs included) at either end of a line is never counted, a line of
    whitespace only is skipped, and there is a tab-delimited input, with
    its tabs at the line's edges, for which the answer is comma. *)
Theorem sniff_delimiter_counts_trimmed_line :
  (forall l rest,
      sniff_lines (l :: rest) =
      match strip l with
      | [] => sniff_lines rest
      | _ :: _ => sniff_line (strip l)
      end) /\
  isspace TAB = true /\
  (forall pre core post rest,
      forallb isspace pre = true -> forallb isspace post = true ->
      count TAB (strip (pre ++ core ++ post)) = count TAB (strip core) /\
      sniff_lines ((pre ++ core ++ post) :: rest) = sniff_lines (core :: rest)) /\
  (forall l rest,
      forallb isspace l = true -> sniff_lines (l :: rest) = sniff_lines rest) /\
  (exists data L,
      TextIO.readlines data = [L] /\
      (0 < count TAB L)%Z /\ count COMMA L = 0%Z /\ count SEMICOLON L = 0%Z /\
      count TAB (strip L) = 0%Z /\
      forall path, sniff_delimiter (only_file data) path = Ok [COMMA]).
Proof.
  split; [exact sniff_lines_cons|].
  split; [reflexivity|].
  split; [|split].
  - intros pre core post rest Hpre Hpost.
    rewrite !sniff_lines_cons, strip_padding by assumption. split; reflexivity.
  - intros l rest Hl. now rewrite sniff_lines_cons, strip_all_space.
  - exists (file_of edge_tabs_line), edge_tabs_line.
    repeat split; try reflexivity.
Qed.

Lemma sniff_delimiter_counts_trimmed_line_witness :
  sniff_lines [edge_tabs_line] = sniff_lines [U "x"] /\
  sniff_lines [[TAB; TAB; TextIO.LF]; U "a;b"] = sniff_lines [U "a;b"].
Proof.
  destruct sniff_delimiter_counts_trimmed_line as (_ & _ & Hpad & Hskip & _).
  split.
  - exact (proj2 (Hpad [TAB] (U "x") [TAB; TextIO.LF] [] eq_refl eq_refl)).
  - exact (Hskip [TAB; TAB; TextIO.LF] [U "a;b"] eq_refl).
Defined.

(** ** Decoding with [errors="ignore"] *)

Lemma decode_ignore_cons (b0 : N) (r0 : list N) :
  TextIO.decode_ignore (b0 :: r0) =
  (if b0 <? 0x80 then b0 :: TextIO.decode_ignore r0
   else if b0 <? 0xC2 then TextIO.decode_ignore r0
   else if b0 <? 0xE0 then
     match r0 with
     | [] => []
     | b1 :: r1 =>
       if TextIO.is_cont b1 then TextIO.cp2 b0 b1 :: TextIO.decode_ignore r1
       else TextIO.decode_ignore r0
     end
   else if b0 <? 0xF0 then
     match r0 with
     | [] => []
     | b1 :: r1 =>
       if TextIO.second_ok3 b0 b1 then
         match r1 with
         | [] => []
         | b2 :: r2 =>
           if TextIO.is_cont b2
           then TextIO.cp3 b0 b1 b2 :: TextIO.decode_ignore r2
           else TextIO.decode_ignore r1
         end
       else TextIO.decode_ignore r0
     end
   else if b0 <? 0xF5 then
     match r0 with
     | [] => []
     | b1 :: r1 =>
       if TextIO.second_ok4 b0 b1 then
         match r1 with
         | [] => []
         | b2 :: r2 =>
           if TextIO.is_cont b2 then
             match r2 with
             | [] => []
             | b3 :: r3 =>
               if TextIO.is_cont b3
               then TextIO.cp4 b0 b1 b2 b3 :: TextIO.decode_ignore r3
               else TextIO.decode_ignore r2
             end
           else TextIO.decode_ignore r1
         end
       else TextIO.decode_ignore r0
     end
   else TextIO.decode_ignore r0)%N.
Proof. reflexivity. Qed.

Lemma never_valid_not_cont (b : N) :
  never_valid b = true -> TextIO.is_cont b = false.
Proof.
  unfold never_valid, TextIO.is_cont. intros H.
  apply orb_true_iff in H as [H|H]; [apply orb_true_iff in H as [H|H]|];
    [apply N.eqb_eq in H | apply N.eqb_eq in H | apply N.leb_le in H];
    apply andb_false_iff; right; apply N.leb_gt; lia.
Qed.

Lemma never_valid_not_second3 (b0 b : N) :
  never_valid b = true -> TextIO.second_ok3 b0 b = false.
Proof.
  intros H. unfold TextIO.second_ok3. now rewrite (never_valid_not_cont _ H).
Qed.

Lemma never_valid_not_second4 (b0 b : N) :
  never_valid b = true -> TextIO.second_ok4 b0 b = false.
Proof.
  intros H. unfold TextIO.second_ok4. now rewrite (never_valid_not_cont _ H).
Qed.

Lemma not_a_start_dropped (b : N) (post : list N) :
  not_a_start b = true ->
  TextIO.decode_ignore (b :: post) = TextIO.decode_ignore post.
Proof.
  unfold not_a_start. intros H.
  assert (Hb : (0x80 <= b < 0xC2 \/ 0xF5 <= b)%N).
  { apply orb_true_iff in H as [H|H].
    - apply andb_true_iff in H as [Hlo Hhi].
      apply N.leb_le in Hlo. apply N.ltb_lt in Hhi. lia.
    - apply N.leb_le in H. lia. }
  clear H. rewrite decode_ignore_cons.
  destruct (N.ltb_spec b 0x80), (N.ltb_spec b 0xC2), (N.ltb_spec b 0xE0),
           (N.ltb_spec b 0xF0), (N.ltb_spec b 0xF5); try reflexivity;
  exfalso; lia.
Qed.

Lemma never_valid_not_a_start (b : N) :
  never_valid b = true -> not_a_start b = true.
Proof.
  unfold never_valid, not_a_start. intros H.
  apply orb_true_iff in H as [H|H]; [apply orb_true_iff in H as [H|H]|];
    [apply N.eqb_eq in H; subst; reflexivity
    | apply N.eqb_eq in H; subst; reflexivity
    | rewrite H; apply orb_true_r].
Qed.

(** A byte that belongs to no UTF-8 sequence is dropped wherever it
    stands, together with the sequence it cuts short, and the text on
    both sides is decoded as if it were not there. *)
Lemma decode_ignore_skips (b : N) (post : list N) :
  never_valid b = true ->
  forall n pre, (length pre <= n)%nat ->
    TextIO.decode_ignore (pre ++ b :: post) =
    TextIO.decode_ignore pre ++ TextIO.decode_ignore post.
Proof.
  intros Hb.
  pose proof (not_a_start_dropped b post (never_valid_not_a_start _ Hb)) as Hhead.
  pose proof (never_valid_not_cont _ Hb) as Hcont.
  induction n as [|n IH]; intros pre Hlen.
  - destruct pre; [exact Hhead | simpl in Hlen; lia].
  - destruct pre as [|b0 r0]; [exact Hhead|].
    assert (IH0 : TextIO.decode_ignore (r0 ++ b :: post) =
                  TextIO.decode_ignore r0 ++ TextIO.decode_ignore post)
      by (apply IH; simpl in Hlen; lia).
    rewrite <- app_comm_cons.
    rewrite (decode_ignore_cons b0 (r0 ++ b :: post)), (decode_ignore_cons b0 r0).
    destruct (b0 <? 0x80)%N; [rewrite IH0; reflexivity|].
    destruct (b0 <? 0xC2)%N; [exact IH0|].
    destruct r0 as [|b1 r1]; cbn [app].
    { rewrite Hcont, (never_valid_not_second3 b0 b Hb),
        (never_valid_not_second4 b0 b Hb), Hhead.
      repeat match goal with |- context [if ?c then _ else _] => destruct c end;
        reflexivity. }
    assert (IH1 : TextIO.decode_ignore (r1 ++ b :: post) =
                  TextIO.decode_ignore r1 ++ TextIO.decode_ignore post)
      by (apply IH; simpl in Hlen; lia).
    rewrite <- app_comm_cons in IH0.
    destruct (b0 <? 0xE0)%N.
    { destruct (TextIO.is_cont b1); [rewrite IH1; reflexivity | exact IH0]. }
    destruct r1 as [|b2 r2]; cbn [app].
    { rewrite Hcont, Hhead.
      repeat match goal with |- context [if ?c then _ else _] => destruct c end;
        try reflexivity; exact IH0. }
    assert (IH2 : TextIO.decode_ignore (r2 ++ b :: post) =
                  TextIO.decode_ignore r2 ++ TextIO.decode_ignore post)
      by (apply IH; simpl in Hlen; lia).
    rewrite <- app_comm_cons in IH1.
    destruct (b0 <? 0xF0)%N.
    { destruct (TextIO.second_ok3 b0 b1); [|exact IH0].
      destruct (TextIO.is_cont b2); [rewrite IH2; reflexivity | exact IH1]. }
    destruct (b0 <? 0xF5)%N; [|exact IH0].
    destruct (TextIO.second_ok4 b0 b1); [|exact IH0].
    destruct (TextIO.is_cont b2); [|exact IH1].
    destruct r2 as [|b3 r3]; cbn [app].
    { rewrite Hcont. exact Hhead. }
    destruct (TextIO.is_cont b3); [|exact IH2].
    rewrite (IH r3) by (simpl in Hlen; lia). reflexivity.
Qed.

Lemma decode_ignore_no_start (bs : list N) :
  forallb not_a_start bs = true -> TextIO.decode_ignore bs = [].
Proof.
  induction bs as [|b r IH]; [reflexivity|].
  intros H. simpl in H. apply andb_true_iff in H as [Hb Hr].
  rewrite (not_a_start_dropped b r Hb). auto.
Qed.

(** Where a well-formed sequence stands, its character is read. *)
Lemma decode_ignore_char (s rest : list N) :
  well_formed s = true ->
  TextIO.decode_ignore (s ++ rest) = code_point s :: TextIO.decode_ignore rest.
Proof.
  intros H.
  destruct s as [|a [|b [|c [|d [|e s']]]]]; try discriminate H;
    cbn [app code_point]; rewrite decode_ignore_cons;
    unfold well_formed, in_range in H.
  - assert (E : (a <? 0x80)%N = true) by (bool_props; lia). now rewrite E.
  - assert (E1 : (a <? 0x80)%N = false) by (bool_props; lia).
    assert (E2 : (a <? 0xC2)%N = false) by (bool_props; lia).
    assert (E3 : (a <? 0xE0)%N = true) by (bool_props; lia).
    assert (E4 : TextIO.is_cont b = true)
      by (unfold TextIO.is_cont; bool_props; lia).
    now rewrite E1, E2, E3, E4.
  - assert (E1 : (a <? 0x80)%N = false) by (bool_props; lia).
    assert (E2 : (a <? 0xC2)%N = false) by (bool_props; lia).
    assert (E3 : (a <? 0xE0)%N = false) by (bool_props; lia).
    assert (E4 : (a <? 0xF0)%N = true) by (bool_props; lia).
    assert (E5 : TextIO.second_ok3 a b = true)
      by (unfold TextIO.second_ok3, TextIO.is_cont; bool_props; lia).
    assert (E6 : TextIO.is_cont c = true)
      by (unfold TextIO.is_cont; bool_props; lia).
    now rewrite E1, E2, E3, E4, E5, E6.
  - assert (E1 : (a <? 0x80)%N = false) by (bool_props; lia).
    assert (E2 : (a <? 0xC2)%N = false) by (bool_props; lia).
    assert (E3 : (a <? 0xE0)%N = false) by (bool_props; lia).
    assert (E4 : (a <? 0xF0)%N = false) by (bool_props; lia).
    assert (E4' : (a <? 0xF5)%N = true) by (bool_props; lia).
    assert (E5 : TextIO.second_ok4 a b = true)
      by (unfold TextIO.second_ok4, TextIO.is_cont; bool_props; lia).
    assert (E6 : TextIO.is_cont c = true)
      by (unfold TextIO.is_cont; bool_props; lia).
    assert (E7 : TextIO.is_cont d = true)
      by (unfold TextIO.is_cont; bool_props; lia).
    now rewrite E1, E2, E3, E4, E4', E5, E6, E7.
Qed.

Lemma is_cont_dropped (b : N) (r : list N) :
  TextIO.is_cont b = true -> TextIO.decode_ignore (b :: r) = TextIO.decode_ignore r.
Proof.
  intros H. rewrite decode_ignore_cons. unfold TextIO.is_cont in H.
  assert (E1 : (b <? 0x80)%N = false) by (bool_props; lia).
  assert (E2 : (b <? 0xC2)%N = true) by (bool_props; lia).
  now rewrite E1, E2.
Qed.

Lemma second_ok3_cont (a b : N) :
  TextIO.second_ok3 a b = true -> TextIO.is_cont b = true.
Proof.
  unfold TextIO.second_ok3. intros H.
  apply andb_true_iff in H as [H _]. now apply andb_true_iff in H as [H _].
Qed.

Lemma second_ok4_cont (a b : N) :
  TextIO.second_ok4 a b = true -> TextIO.is_cont b = true.
Proof.
  unfold TextIO.second_ok4. intros H.
  apply andb_true_iff in H as [H _]. now apply andb_true_iff in H as [H _].
Qed.

(** Where no well-formed sequence stands, one byte is dropped. *)
Lemma decode_ignore_skip (b : N) (rest : list N) :
  starts_char (b :: rest) = false ->
  TextIO.decode_ignore (b :: rest) = TextIO.decode_ignore rest.
Proof.
  intros H. unfold starts_char in H.
  apply orb_false_iff in H as [H H4]. apply orb_false_iff in H as [H H3].
  apply orb_false_iff in H as [H1 H2].
  cbn [firstn] in H1. unfold well_formed in H1.
  rewrite decode_ignore_cons.
  destruct (b <? 0x80)%N eqn:E1; [exfalso; bool_props; lia|].
  destruct (b <? 0xC2)%N eqn:E2; [reflexivity|].
  destruct (b <? 0xE0)%N eqn:E3.
  { destruct rest as [|b1 r1]; [reflexivity|].
    destruct (TextIO.is_cont b1) eqn:C1; [|reflexivity].
    exfalso. cbn [firstn] in H2. unfold well_formed, in_range in H2.
    unfold TextIO.is_cont in C1. bool_props. lia. }
  destruct (b <? 0xF0)%N eqn:E4.
  { destruct rest as [|b1 r1]; [reflexivity|].
    destruct (TextIO.second_ok3 b b1) eqn:S1; [|reflexivity].
    pose proof (second_ok3_cont _ _ S1) as C1.
    destruct r1 as [|b2 r2]; [now rewrite (is_cont_dropped b1)|].
    destruct (TextIO.is_cont b2) eqn:C2; [|now rewrite (is_cont_dropped b1)].
    exfalso. cbn [firstn] in H3. unfold well_formed, in_range in H3.
    unfold TextIO.second_ok3, TextIO.is_cont in *. clear H4 H2 C1.
    bool_props. lia. }
  destruct (b <? 0xF5)%N eqn:E5; [|reflexivity].
  destruct rest as [|b1 r1]; [reflexivity|].
  destruct (TextIO.second_ok4 b b1) eqn:S1; [|reflexivity].
  pose proof (second_ok4_cont _ _ S1) as C1.
  destruct r1 as [|b2 r2]; [now rewrite (is_cont_dropped b1)|].
  destruct (TextIO.is_cont b2) eqn:C2; [|now rewrite (is_cont_dropped b1)].
  destruct r2 as [|b3 r3];
    [now rewrite (is_cont_dropped b1), (is_cont_dropped b2)|].
  destruct (TextIO.is_cont b3) eqn:C3;
    [|now rewrite (is_cont_dropped b1), (is_cont_dropped b2)].
  exfalso. cbn [firstn] in H4. unfold well_formed, in_range in H4.
  unfold TextIO.second_ok4, TextIO.is_cont in *. clear H3 H2 C1.
  bool_props. lia.
Qed.

(** Bytes in which no well-formed sequence stands anywhere decode to
    nothing. *)
Lemma decode_ignore_nothing (bs : list N) :
  (forall i, (i < length bs)%nat -> starts_char (skipn i bs) = false) ->
  TextIO.decode_ignore bs = [].
Proof.
  induction bs as [|b r IH]; intros H; [reflexivity|].
  rewrite decode_ignore_skip by (apply (H 0%nat); simpl; lia).
  apply IH. intros i Hi. apply (H (S i)). simpl. lia.
Qed.

(** The characters of well-formed sequences in a row are read one
    after the other. *)
Lemma decode_ignore_chars (seqs : list (list N)) (rest : list N) :
  forallb well_formed seqs = true ->
  TextIO.decode_ignore (concat seqs ++ rest) =
  map code_point seqs ++ TextIO.decode_ignore rest.
Proof.
  induction seqs as [|s seqs IH]; intros H; [reflexivity|].
  cbn [forallb] in H. apply andb_true_iff in H as [Hs Hr].
  cbn [concat map]. rewrite <- !app_assoc, decode_ignore_char by exact Hs.
  cbn [app]. now rewrite IH.
Qed.

(** C5 (as amended). For a file that can be opened, [sniff_delimiter]
    never fails, whatever the bytes: it answers one of the three
    candidates, computed from the text the permissive decoder reads.
    That decoder reads the character of a well-formed UTF-8 sequence
    wherever one stands and drops one byte wherever none does, and so
    goes through any bytes to the end. Hence a byte that follows
    well-formed text and starts no well-formed sequence is dropped and
    the answer is computed from the text on both sides of it; so is a
    byte that is part of no UTF-8 sequence at all, wherever it stands;
    and a file in which no well-formed sequence stands anywhere gives
    comma. A file that cannot be opened makes [sniff_delimiter] raise
    the error of [open]. *)
Theorem sniff_delimiter_permissive_once_open :
  forall (files : filesystem) (path : str),
    (files path = None -> sniff_delimiter files path = Raise (OSError path)) /\
    (forall data, files path = Some data ->
       (exists d, sniff_delimiter files path = Ok d /\ In d candidates) /\
       sniff_delimiter files path =
         Ok (sniff_text (TextIO.decode_ignore (map Byte.to_N data))) /\
       (forall seqs b post,
           map Byte.to_N data = concat seqs ++ b :: post ->
           forallb well_formed seqs = true ->
           starts_char (b :: post) = false ->
           sniff_delimiter files path =
           Ok (sniff_text (map code_point seqs ++ TextIO.decode_ignore post))) /\
       (forall pre b post,
           data = pre ++ b :: post -> never_valid (Byte.to_N b) = true ->
           sniff_delimiter files path =
           Ok (sniff_text (TextIO.decode pre ++ TextIO.decode post))) /\
       ((forall i, (i < length data)%nat ->
                   starts_char (skipn i (map Byte.to_N data)) = false) ->
           sniff_delimiter files path = Ok [COMMA]) /\
       (forallb not_a_start (map Byte.to_N data) = true ->
           sniff_delimiter files path = Ok [COMMA])) /\
    (forall s rest,
       well_formed s = true ->
       TextIO.decode_ignore (s ++ rest) = code_point s :: TextIO.decode_ignore rest) /\
    (forall b rest,
       starts_char (b :: rest) = false ->
       TextIO.decode_ignore (b :: rest) = TextIO.decode_ignore rest).
Proof.
  intros files path. unfold sniff_delimiter. split; [|split; [|split]].
  - intros ->. reflexivity.
  - intros data ->. split; [|split; [|split; [|split; [|split]]]].
    + eexists. split; [reflexivity | apply sniff_lines_candidate].
    + reflexivity.
    + intros seqs b post Hdata Hseqs Hb.
      unfold TextIO.readlines, TextIO.decode, sniff_text.
      rewrite Hdata, decode_ignore_chars by exact Hseqs.
      now rewrite decode_ignore_skip by exact Hb.
    + intros pre b post -> Hb. unfold TextIO.readlines, TextIO.decode, sniff_text.
      rewrite map_app. cbn [map].
      rewrite (decode_ignore_skips _ _ Hb (length (map Byte.to_N pre)))
        by apply le_n.
      reflexivity.
    + intros Hall. unfold TextIO.readlines, TextIO.decode.
      rewrite decode_ignore_nothing; [reflexivity|].
      intros i Hi. apply Hall. now rewrite length_map in Hi.
    + intros Hall. unfold TextIO.readlines, TextIO.decode.
      rewrite decode_ignore_no_start by exact Hall. reflexivity.
  - apply decode_ignore_char.
  - apply decode_ignore_skip.
Qed.

(** The bytes [a ; FF b ; c]: the stray FF is dropped and the line
    [a;b;c] decides. The Latin-1 bytes [E9 ; a]: E9 opens a sequence
    that [;] does not continue, so it is dropped and [;a] decides. The
    bytes [E2 82], a sequence cut short: nothing is read and the answer
    is comma. *)
Lemma sniff_delimiter_permissive_once_open_witness :
  sniff_delimiter (only_file [x61; x3b; xff; x62; x3b; x63]) (U "d.csv")
    = Ok [SEMICOLON] /\
  sniff_delimiter (only_file [xe9; x3b; x61]) (U "d.csv") = Ok [SEMICOLON] /\
  sniff_delimiter (only_file [xe2; x82]) (U "d.csv") = Ok [COMMA].
Proof.
  split; [|split].
  - exact (proj1 (proj2 (proj2 (proj2 (proj1 (proj2
      (sniff_delimiter_permissive_once_open
         (only_file [x61; x3b; xff; x62; x3b; x63]) (U "d.csv")))
      [x61; x3b; xff; x62; x3b; x63] eq_refl))))
      [x61; x3b] xff [x62; x3b; x63] eq_refl eq_refl).
  - exact (proj1 (proj2 (proj2 (proj1 (proj2
      (sniff_delimiter_permissive_once_open
         (only_file [xe9; x3b; x61]) (U "d.csv")))
      [xe9; x3b; x61] eq_refl)))
      [] 0xE9%N [0x3B; 0x61]%N eq_refl eq_refl eq_refl).
  - refine (proj1 (proj2 (proj2 (proj2 (proj2 (proj1 (proj2
      (sniff_delimiter_permissive_once_open
         (only_file [xe2; x82]) (U "d.csv")))
      [xe2; x82] eq_refl))))) _).
    intros [|[|i]] Hi; [reflexivity | reflexivity | simpl in Hi; lia].
Defined.

(** C5 as stated fails for a file that cannot be opened: the error of
    [open] comes out of [sniff_delimiter], no delimiter does. *)
Lemma sniff_delimiter_missing_file_counterexample :
  sniff_delimiter no_files (U "missing.csv") = Raise (OSError (U "missing.csv")) /\
  forall d, sniff_delimiter no_files (U "missing.csv") <> Ok d.
Proof.
  split; [reflexivity | intros d; discriminate].
Qed.

(** ** Strings and paths *)

Lemma str_eqb_eq (a b : str) : str_eqb a b = true <-> a = b.
Proof.
  unfold str_eqb. destruct (list_eq_dec N.eq_dec a b); split; congruence.
Qed.

Lemma str_eqb_neq (a b : str) : str_eqb a b = false <-> a <> b.
Proof.
  unfold str_eqb. destruct (list_eq_dec N.eq_dec a b); split; congruence.
Qed.

Lemma in_strs_In (s : str) (l : list str) : in_strs s l = true <-> In s l.
Proof.
  unfold in_strs. rewrite existsb_exists. split.
  - intros (x & Hx & E). apply str_eqb_eq in E. now subst.
  - intros H. exists s. split; [exact H | now apply str_eqb_eq].
Qed.

Lemma in_strs_not_In (s : str) (l : list str) : in_strs s l = false <-> ~ In s l.
Proof.
  rewrite <- in_strs_In. destruct (in_strs s l); split; congruence.
Qed.

Lemma truthy_nonempty (s : str) : truthy s = true <-> s <> [].
Proof. destruct s; simpl; split; congruence. Qed.

(** [rfind] finds the last occurrence. *)
Lemma rfind_from_spec (c : char) (s : str) :
  forall i last,
    (exists pre t, s = pre ++ c :: t /\ ~ In c t /\
                   rfind_from c s i last = (i + Z.of_nat (length pre))%Z)
    \/ (~ In c s /\ rfind_from c s i last = last).
Proof.
  induction s as [|x r IH]; intros i last.
  - right. split; [intros [] | reflexivity].
  - simpl. destruct (IH (i + 1)%Z (if (x =? c)%N then i else last))
      as [(pre & t & -> & Ht & E) | (Hr & E)].
    + left. exists (x :: pre), t. repeat split; auto.
      rewrite E. simpl length. lia.
    + destruct (N.eqb_spec x c) as [->|Hx].
      * left. exists [], r. repeat split; auto. rewrite E. simpl. lia.
      * right. split; [|exact E]. intros [H|H]; [congruence | auto].
Qed.

(** The extension [splitext] returns is empty, or a dot followed by
    characters that are not dots. *)
Lemma splitext_ext_shape (p : str) :
  snd (splitext p) = [] \/
  exists t, snd (splitext p) = 46%N :: t /\ ~ In 46%N t.
Proof.
  unfold splitext.
  destruct ((rfind 47%N p <? rfind 46%N p)%Z
            && existsb (fun c => negb (c =? 46)%N)
                 (slice (rfind 47%N p + 1) (rfind 46%N p) p)) eqn:E;
    [|left; reflexivity].
  right. simpl. unfold rfind in *.
  destruct (rfind_from_spec 46%N p 0 (-1)) as [(pre & t & Hp & Ht & Ei) | (_ & Ei)].
  - exists t. split; [|exact Ht]. rewrite Ei. unfold slice_from.
    rewrite Z.add_0_l, Nat2Z.id. rewrite Hp at 1.
    rewrite skipn_app, skipn_all, Nat.sub_diag. reflexivity.
  - exfalso. rewrite Ei in E. apply andb_true_iff in E as [E _].
    apply Z.ltb_lt in E.
    destruct (rfind_from_spec 47%N p 0 (-1)) as [(pre & t & _ & _ & Es) | (_ & Es)];
      rewrite Es in E; lia.
Qed.

Lemma ascii_tolower_dot (c : char) : ascii_tolower c = 46%N <-> c = 46%N.
Proof.
  unfold ascii_tolower.
  destruct (N.leb_spec 0x41 c), (N.leb_spec c 0x5A); simpl; split; lia.
Qed.

Lemma lstrip_dot_one (t : str) :
  ~ In 46%N t ->
  lstrip (U ".") (map ascii_tolower (46%N :: t)) = map ascii_tolower t.
Proof.
  intros Ht. unfold lstrip. simpl.
  destruct t as [|x r]; [reflexivity|]. simpl.
  destruct (N.eqb_spec (ascii_tolower x) 46) as [E|E]; [|reflexivity].
  apply (proj1 (ascii_tolower_dot x)) in E. exfalso. apply Ht. now left.
Qed.

(** ** Format detection and the loader *)

Section Formats.

Context {R : Runtime}.

Lemma read_frame_unsupported (files : filesystem) (path : str)
    (fmt delimiter : option str) (infer : Z) :
  ~ In (detect_format path fmt) supported_formats ->
  read_frame files path fmt delimiter infer =
  Raise (ValueError (U "Unsupported format: " ++ detect_format path fmt)).
Proof.
  intros H. unfold read_frame.
  destruct (str_eqb (detect_format path fmt) (U "csv")) eqn:E1;
    [apply str_eqb_eq in E1; exfalso; apply H; rewrite E1; simpl; auto|].
  destruct (str_eqb (detect_format path fmt) (U "ndjson")) eqn:E2;
    [apply str_eqb_eq in E2; exfalso; apply H; rewrite E2; simpl; auto|].
  destruct (str_eqb (detect_format path fmt) (U "parquet")) eqn:E3;
    [apply str_eqb_eq in E3; exfalso; apply H; rewrite E3; simpl; auto|].
  reflexivity.
Qed.

Lemma format_of_extension_cases (path : str) :
  let ext := lower (snd (splitext path)) in
  (ext = U ".csv" \/ ext = U ".tsv" -> format_of_extension path = U "csv") /\
  (ext = U ".jsonl" \/ ext = U ".ndjson" -> format_of_extension path = U "ndjson") /\
  (ext = U ".parquet" \/ ext = U ".pq" -> format_of_extension path = U "parquet") /\
  (~ In ext [U ".csv"; U ".tsv"; U ".jsonl"; U ".ndjson"; U ".parquet"; U ".pq"] ->
     format_of_extension path = U "csv").
Proof.
  intros ext. unfold format_of_extension. fold ext.
  repeat split.
  - intros [-> | ->]; reflexivity.
  - intros [-> | ->]; reflexivity.
  - intros [-> | ->]; reflexivity.
  - intros H.
    destruct (in_strs ext [U ".csv"; U ".tsv"]) eqn:E1;
      [apply in_strs_In in E1; exfalso; apply H; simpl in *; tauto|].
    destruct (in_strs ext [U ".jsonl"; U ".ndjson"]) eqn:E2;
      [apply in_strs_In in E2; exfalso; apply H; simpl in *; tauto|].
    destruct (in_strs ext [U ".parquet"; U ".pq"]) eqn:E3;
      [apply in_strs_In in E3; exfalso; apply H; simpl in *; tauto|].
    reflexivity.
Qed.

(** C4. [detect_format] is a function of the path and the override
    alone. A non-empty override is returned lowercased, whatever it is
    and whatever the path (so it wins over the extension), and a tag
    that is none of the supported three makes the loader raise
    [ValueError]. Without an override the lowercased extension decides:
    [.csv]/[.tsv] give csv, [.jsonl]/[.ndjson] give ndjson,
    [.parquet]/[.pq] give parquet, anything else csv. *)
Theorem detect_format_override_else_extension :
  forall path : str,
    (forall f, f <> [] ->
       detect_format path (Some f) = lower f /\
       (forall path', detect_format path' (Some f) = detect_format path (Some f)) /\
       (~ In (lower f) supported_formats ->
          forall files delimiter infer,
            read_frame files path (Some f) delimiter infer =
            Raise (ValueError (U "Unsupported format: " ++ lower f)))) /\
    (forall fmt, fmt = None \/ fmt = Some [] ->
       let ext := lower (snd (splitext path)) in
       (ext = U ".csv" \/ ext = U ".tsv" -> detect_format path fmt = U "csv") /\
       (ext = U ".jsonl" \/ ext = U ".ndjson" ->
          detect_format path fmt = U "ndjson") /\
       (ext = U ".parquet" \/ ext = U ".pq" ->
          detect_format path fmt = U "parquet") /\
       (~ In ext [U ".csv"; U ".tsv"; U ".jsonl"; U ".ndjson";
                  U ".parquet"; U ".pq"] ->
          detect_format path fmt = U "csv")) /\
    (forall s, forallb is_ascii s = true -> lower s = map ascii_tolower s).
Proof.
  intros path. split; [|split].
  - intros f Hf.
    assert (E : forall p, detect_format p (Some f) = lower f).
    { intros p. unfold detect_format.
      destruct f; [contradiction | reflexivity]. }
    split; [apply E|]. split; [intros; now rewrite !E|].
    intros Hun files delimiter infer. rewrite <- (E path) in *.
    now apply read_frame_unsupported.
  - intros fmt Hfmt.
    assert (E : detect_format path fmt = format_of_extension path)
      by (destruct Hfmt as [-> | ->]; reflexivity).
    rewrite E. apply format_of_extension_cases.
  - intros s Hs. unfold lower. now rewrite Hs.
Qed.

End Formats.

(** On the demo runtime: the override [XML] is returned as [xml]
    although the path ends in [.csv], and the loader then raises; the
    extension [.TSV] gives csv. *)
Lemma detect_format_override_else_extension_witness :
  detect_format (R := Demo.runtime) (U "a.csv") (Some (U "XML")) = U "xml" /\
  read_frame (R := Demo.runtime) no_files (U "a.csv") (Some (U "XML")) None 2048
    = Raise (ValueError (U "Unsupported format: xml")) /\
  detect_format (R := Demo.runtime) (U "DATA.TSV") None = U "csv".
Proof.
  pose proof (detect_format_override_else_extension (R := Demo.runtime)) as T.
  split; [|split].
  - refine (proj1 (proj1 (T (U "a.csv")) (U "XML") _)). discriminate.
  - refine (proj2 (proj2 (proj1 (T (U "a.csv")) (U "XML") _)) _ no_files None 2048%Z).
    + discriminate.
    + vm_compute. intuition discriminate.
  - refine (proj1 (proj1 (proj2 (T (U "DATA.TSV"))) None _) _).
    + left. reflexivity.
    + right. reflexivity.
Defined.

(** ** Console markup *)

Section MarkupFacts.

Context {R : Runtime}.

Lemma str_eqb_refl (a : str) : str_eqb a a = true.
Proof. now apply str_eqb_eq. Qed.

Lemma console_print_renders (r : renderable) (w : world) :
  renders r = true -> console_print r w = (with_console w [r], Ok tt).
Proof. intros H. unfold console_print. now rewrite H. Qed.

Lemma console_print_fails (r : renderable) (w : world) :
  renders r = false -> console_print r w = (w, Raise MarkupError).
Proof. intros H. unfold console_print. now rewrite H. Qed.

(** Text without an opening bracket holds no tag; it only leaves the
    scan with the backslashes it ends in. *)
Lemma tags_from_plain (data : str) :
  ~ In LBRACKET data ->
  forall n, exists m, forall tail,
    tags_from (Outside n) (data ++ tail) = tags_from (Outside m) tail.
Proof.
  induction data as [|c data IH]; intros Hno n.
  - exists n. reflexivity.
  - assert (Hc : (c =? LBRACKET)%N = false)
      by (apply N.eqb_neq; intros ->; apply Hno; now left).
    assert (Hd : ~ In LBRACKET data) by (intros H; apply Hno; now right).
    destruct (c =? BACKSLASH)%N eqn:Eb.
    + destruct (IH Hd (S n)) as [m Hm]. exists m. intros tail.
      cbn [app tags_from]. rewrite Eb. apply Hm.
    + destruct (IH Hd 0%nat) as [m Hm]. exists m. intros tail.
      cbn [app tags_from]. rewrite Eb, Hc. apply Hm.
Qed.

Lemma tags_from_plain_nil (data : str) (n : nat) :
  ~ In LBRACKET data -> tags_from (Outside n) data = [].
Proof.
  intros Hno. destruct (tags_from_plain data Hno n) as [m Hm].
  specialize (Hm []). rewrite app_nil_r in Hm. rewrite Hm. reflexivity.
Qed.

(** A tag without parameters closes without more ado. *)
Lemma closes_plain (name : str) : closes (name, None) = true.
Proof. unfold closes. cbn [fst snd]. now destruct (prefixb (U "@") name). Qed.

(** An opening tag without parameters directly followed by its
    closing tag leaves the stack as it was. *)
Lemma tags_close_pair (name : str) (rest : list str) (stack : list open_tag) :
  partition 61%N name = (name, None) ->
  prefixb (U "/") name = false ->
  strip name = name ->
  name <> [] ->
  tags_close (name :: (47%N :: name) :: rest) stack = tags_close rest stack.
Proof.
  intros Hp Hs Hstrip Hne.
  assert (Hp' : partition 61%N (47%N :: name) = (47%N :: name, None)).
  { cbn [partition]. change (47 =? 61)%N with false. cbv iota.
    now rewrite Hp. }
  cbn [tags_close]. rewrite Hp, Hs. cbn [tags_close]. rewrite Hp'.
  change (prefixb (U "/") (47%N :: name)) with true. cbv iota.
  change (slice_from 1 (47%N :: name)) with name. rewrite Hstrip. cbv zeta.
  destruct name as [|c name']; [contradiction|]. cbn [truthy pop_style fst].
  rewrite str_eqb_refl. now rewrite closes_plain.
Qed.

Lemma tags_close_last (name : str) (stack : list open_tag) :
  partition 61%N name = (name, None) ->
  prefixb (U "/") name = false ->
  tags_close [name] stack = true.
Proof. intros Hp Hs. cbn [tags_close]. now rewrite Hp, Hs. Qed.

(** The notice of an unsupported destination renders when the format
    it names has no opening bracket. *)
Lemma unsupported_destination_renders (out_fmt : str) :
  ~ In LBRACKET out_fmt -> renders (unsupported_destination out_fmt) = true.
Proof.
  intros Hno. unfold renders, unsupported_destination, texts_of.
  cbn [forallb]. rewrite andb_true_r. unfold markup_ok, tags.
  destruct (tags_from_plain out_fmt Hno 0%nat) as [m Hm].
  change (tags_from (Outside 0)
            (U "[red]Unsupported destination format: " ++ out_fmt ++ U "[/red]"))
    with ([U "red"] ++ tags_from (Outside 0) (out_fmt ++ U "[/red]")).
  rewrite Hm.
  change (tags_from (Outside m) (U "[/red]"))
    with ((if Nat.even m then [U "/red"] else []) ++ @nil str).
  destruct (Nat.even m).
  - exact (tags_close_pair (U "red") [] [] eq_refl eq_refl eq_refl
             ltac:(discriminate)).
  - exact (tags_close_last (U "red") [] eq_refl eq_refl).
Qed.

(** The last line of [convert] renders when the path has no opening
    bracket. *)
Lemma wrote_notice_renders (dst : str) :
  ~ In LBRACKET dst -> renders (wrote_notice dst) = true.
Proof.
  intros Hno. unfold renders, wrote_notice, texts_of.
  cbn [forallb]. rewrite andb_true_r. unfold markup_ok, tags.
  change (tags_from (Outside 0) (U "[green]Wrote[/green] " ++ dst))
    with ([U "green"] ++ [U "/green"] ++ tags_from (Outside 0) dst).
  rewrite (tags_from_plain_nil dst 0 Hno).
  exact (tags_close_pair (U "green") [] [] eq_refl eq_refl eq_refl
           ltac:(discriminate)).
Qed.

Lemma uint_digits_no_bracket (d : Decimal.uint) :
  ~ In LBRACKET (U (NilEmpty.string_of_uint d)).
Proof.
  induction d; intros H; [exact H | ..];
    (destruct H as [H | H]; [discriminate H | now apply IHd]).
Qed.

Lemma uint_no_bracket (d : Decimal.uint) :
  ~ In LBRACKET (U (NilZero.string_of_uint d)).
Proof.
  destruct d; try apply uint_digits_no_bracket.
  vm_compute. intuition discriminate.
Qed.

(** The decimal form of an integer holds no bracket. *)
Lemma str_of_Z_no_bracket (z : Z) : ~ In LBRACKET (str_of_Z z).
Proof.
  unfold str_of_Z, NilZero.string_of_int. destruct (Z.to_int z) as [d|d].
  - apply uint_no_bracket.
  - cbn. intros [H | H]; [discriminate H | now apply uint_no_bracket in H].
Qed.

(** The count line of [show] always renders. *)
Lemma rows_shown_line_renders (df : DataFrame) :
  renders (rows_shown_line df) = true.
Proof.
  unfold renders, rows_shown_line, texts_of.
  cbn [forallb]. rewrite andb_true_r. unfold markup_ok, tags.
  set (a := str_of_Z (height df)).
  set (b := str_of_Z (Z.of_nat (length (columns df)))).
  assert (Hno : ~ In LBRACKET (a ++ U " (file preview) | columns: " ++ b)).
  { intros H. apply in_app_or in H as [H | H];
      [now apply str_of_Z_no_bracket in H|].
    apply in_app_or in H as [H | H]; [|now apply str_of_Z_no_bracket in H].
    vm_compute in H. intuition discriminate. }
  destruct (tags_from_plain _ Hno 0%nat) as [m Hm].
  change (tags_from (Outside 0)
            (U "[dim]rows shown: " ++ a ++ U " (file preview) | columns: "
               ++ b ++ U "[/dim]"))
    with ([U "dim"] ++ tags_from (Outside 0)
            (a ++ U " (file preview) | columns: " ++ b ++ U "[/dim]")).
  replace (a ++ U " (file preview) | columns: " ++ b ++ U "[/dim]")
    with ((a ++ U " (file preview) | columns: " ++ b) ++ U "[/dim]")
    by (now rewrite <- !app_assoc).
  rewrite Hm.
  change (tags_from (Outside m) (U "[/dim]"))
    with ((if Nat.even m then [U "/dim"] else []) ++ @nil str).
  destruct (Nat.even m).
  - exact (tags_close_pair (U "dim") [] [] eq_refl eq_refl eq_refl
             ltac:(discriminate)).
  - exact (tags_close_last (U "dim") [] eq_refl eq_refl).
Qed.

(** The two fixed panels hold no bracket at all. *)
Lemma no_numeric_notice_renders : renders no_numeric_notice = true.
Proof. reflexivity. Qed.

Lemma empty_dataset_notice_renders : renders empty_dataset_notice = true.
Proof. reflexivity. Qed.

End MarkupFacts.

(** ** [convert] *)

Section Convert.

Context {R : Runtime}.

Lemma out_format_override (dst f : str) :
  f <> [] -> out_format dst (Some f) = dst_alias f.
Proof.
  intros Hf. unfold out_format, py_or. destruct f; [contradiction | reflexivity].
Qed.

Lemma out_format_extension (dst : str) (fmt_dst : option str) :
  fmt_dst = None \/ fmt_dst = Some [] ->
  out_format dst fmt_dst =
  dst_alias (lstrip (U ".") (lower (snd (splitext dst)))).
Proof. intros [-> | ->]; reflexivity. Qed.

Lemma extension_token_ascii (dst : str) :
  forallb is_ascii (snd (splitext dst)) = true ->
  lstrip (U ".") (lower (snd (splitext dst))) =
  map ascii_tolower (tl (snd (splitext dst))).
Proof.
  intros Hascii. unfold lower. rewrite Hascii.
  destruct (splitext_ext_shape dst) as [-> | (t & -> & Ht)]; [reflexivity|].
  now apply lstrip_dot_one.
Qed.

Lemma convert_unsupported_run (src dst : str)
    (fmt_src fmt_dst delimiter : option str) (w : world) (df : DataFrame) :
  read_frame (fs w) src fmt_src None 2048 = Ok df ->
  ~ In (out_format dst fmt_dst) supported_formats ->
  convert src dst fmt_src fmt_dst delimiter w =
  if renders (unsupported_destination (out_format dst fmt_dst))
  then (with_console w [unsupported_destination (out_format dst fmt_dst)],
        Raise (Exit 2))
  else (w, Raise MarkupError).
Proof.
  intros Hload Hun. unfold convert, bind, lift. rewrite Hload.
  destruct (str_eqb (out_format dst fmt_dst) (U "csv")) eqn:E1;
    [apply str_eqb_eq in E1; exfalso; apply Hun; rewrite E1; simpl; auto|].
  destruct (str_eqb (out_format dst fmt_dst) (U "ndjson")) eqn:E2;
    [apply str_eqb_eq in E2; exfalso; apply Hun; rewrite E2; simpl; auto|].
  destruct (str_eqb (out_format dst fmt_dst) (U "parquet")) eqn:E3;
    [apply str_eqb_eq in E3; exfalso; apply Hun; rewrite E3; simpl; auto|].
  unfold console_print.
  destruct (renders (unsupported_destination (out_format dst fmt_dst)));
    reflexivity.
Qed.

Lemma convert_unsupported (src dst : str) (fmt_src fmt_dst delimiter : option str)
    (w : world) (df : DataFrame) :
  read_frame (fs w) src fmt_src None 2048 = Ok df ->
  ~ In (out_format dst fmt_dst) supported_formats ->
  renders (unsupported_destination (out_format dst fmt_dst)) = true ->
  convert src dst fmt_src fmt_dst delimiter w =
  (with_console w [unsupported_destination (out_format dst fmt_dst)],
   Raise (Exit 2)).
Proof.
  intros Hload Hun Hr.
  rewrite (convert_unsupported_run src dst fmt_src fmt_dst delimiter w df Hload Hun).
  now rewrite Hr.
Qed.

Lemma convert_load_fails (src dst : str) (fmt_src fmt_dst delimiter : option str)
    (w : world) (e : exn) :
  read_frame (fs w) src fmt_src None 2048 = Raise e ->
  convert src dst fmt_src fmt_dst delimiter w = (w, Raise e).
Proof. intros Hload. unfold convert, bind, lift. now rewrite Hload. Qed.

Lemma convert_csv (src dst : str) (fmt_src fmt_dst delimiter : option str)
    (w : world) (df : DataFrame) (files' : filesystem) :
  read_frame (fs w) src fmt_src None 2048 = Ok df ->
  out_format dst fmt_dst = U "csv" ->
  df_write_csv df dst (py_or delimiter (U ",")) (fs w) = Ok files' ->
  renders (wrote_notice dst) = true ->
  convert src dst fmt_src fmt_dst delimiter w =
  ({| fs := files'; console := console w ++ [wrote_notice dst];
      entropy := entropy w |}, Ok tt).
Proof.
  intros Hload Hfmt Hwrite Hr. unfold convert, bind, lift, write_with.
  rewrite Hload, Hfmt. simpl. rewrite Hwrite.
  change (RText _) with (wrote_notice dst).
  unfold console_print. now rewrite Hr.
Qed.

(** C3. The destination format of [convert] is the [--to-format]
    override when one is given (a non-empty string), else the extension
    of the destination path, lowercased and without its leading dot;
    [jsonl] then becomes [ndjson] and [pq] becomes [parquet]. A source
    that does not load ends the command with the loader's error and
    nothing else happens. Once the source is loaded and the format is
    none of csv, parquet, ndjson, the file system stays as it was; the
    notice is printed and the command exits with status 2 when the
    notice renders as console markup, which it does whenever the
    format has no opening bracket; when it does not render, nothing is
    printed and the command ends with [MarkupError], status 1. *)
Theorem convert_destination_format :
  forall (src dst : str) (fmt_src fmt_dst delimiter : option str) (w : world),
    (forall f, fmt_dst = Some f -> f <> [] ->
       out_format dst fmt_dst = dst_alias f) /\
    (fmt_dst = None \/ fmt_dst = Some [] ->
       out_format dst fmt_dst =
         dst_alias (lstrip (U ".") (lower (snd (splitext dst)))) /\
       (forallb is_ascii (snd (splitext dst)) = true ->
          out_format dst fmt_dst =
            dst_alias (map ascii_tolower (tl (snd (splitext dst)))))) /\
    (dst_alias (U "jsonl") = U "ndjson" /\
     dst_alias (U "pq") = U "parquet" /\
     forall t, t <> U "jsonl" -> t <> U "pq" -> dst_alias t = t) /\
    (forall e, read_frame (fs w) src fmt_src None 2048 = Raise e ->
       convert src dst fmt_src fmt_dst delimiter w = (w, Raise e)) /\
    (forall df, read_frame (fs w) src fmt_src None 2048 = Ok df ->
       ~ In (out_format dst fmt_dst) supported_formats ->
       let notice := unsupported_destination (out_format dst fmt_dst) in
       fs (fst (convert src dst fmt_src fmt_dst delimiter w)) = fs w /\
       (renders notice = true ->
          convert src dst fmt_src fmt_dst delimiter w =
            (with_console w [notice], Raise (Exit 2)) /\
          exit_status (outcome (convert src dst fmt_src fmt_dst delimiter) w)
            = 2%Z) /\
       (renders notice = false ->
          convert src dst fmt_src fmt_dst delimiter w = (w, Raise MarkupError) /\
          exit_status (outcome (convert src dst fmt_src fmt_dst delimiter) w)
            = 1%Z) /\
       (~ In LBRACKET (out_format dst fmt_dst) -> renders notice = true)).
Proof.
  intros src dst fmt_src fmt_dst delimiter w.
  split; [|split; [|split; [|split]]].
  - intros f -> Hf. now apply out_format_override.
  - intros Hno. split; [now apply out_format_extension|].
    intros Hascii. rewrite out_format_extension by exact Hno.
    now rewrite extension_token_ascii.
  - repeat split.
    intros t H1 H2. unfold dst_alias.
    apply str_eqb_neq in H1, H2. now rewrite H1, H2.
  - intros e Hload. now apply convert_load_fails.
  - intros df Hload Hun notice. unfold outcome.
    rewrite (convert_unsupported_run src dst fmt_src fmt_dst delimiter w df
               Hload Hun).
    fold notice. split; [|split; [|split]].
    + destruct (renders notice); reflexivity.
    + intros ->. split; reflexivity.
    + intros ->. split; reflexivity.
    + apply unsupported_destination_renders.
Qed.

(** C9. [convert] uses the [--to-format] override as it is given, not
    lowercased: with [CSV] as the destination override the format is
    unsupported and the command exits with status 2, while [CSV] as the
    source override is read as csv and a destination path ending in
    [.CSV] is written as csv. *)
Theorem convert_to_format_not_lowercased :
  forall (src dst : str) (fmt_src delimiter : option str)
         (w : world) (df : DataFrame),
    read_frame (fs w) src fmt_src None 2048 = Ok df ->
    (forall f, f <> [] -> out_format dst (Some f) = dst_alias f) /\
    (out_format dst (Some (U "CSV")) = U "CSV" /\
     convert src dst fmt_src (Some (U "CSV")) delimiter w =
       (with_console w [unsupported_destination (U "CSV")], Raise (Exit 2)) /\
     exit_status
       (outcome (convert src dst fmt_src (Some (U "CSV")) delimiter) w) = 2%Z) /\
    (detect_format src (Some (U "CSV")) = U "csv" /\
     forall files delim infer,
       read_frame files src (Some (U "CSV")) delim infer =
       read_frame files src (Some (U "csv")) delim infer) /\
    (out_format (U "out.CSV") None = U "csv" /\
     forall files',
       df_write_csv df (U "out.CSV") (py_or delimiter (U ",")) (fs w) = Ok files' ->
       convert src (U "out.CSV") fmt_src None delimiter w =
         ({| fs := files'; console := console w ++ [wrote_notice (U "out.CSV")];
             entropy := entropy w |}, Ok tt)).
Proof.
  intros src dst fmt_src delimiter w df Hload.
  assert (Hun : ~ In (out_format dst (Some (U "CSV"))) supported_formats)
    by (vm_compute; intuition discriminate).
  assert (Hr : renders (unsupported_destination (out_format dst (Some (U "CSV"))))
               = true).
  { apply unsupported_destination_renders. vm_compute. intuition discriminate. }
  split; [|split; [|split]].
  - intros f Hf. now apply out_format_override.
  - split; [reflexivity|]. unfold outcome.
    rewrite (convert_unsupported src dst fmt_src (Some (U "CSV")) delimiter w df
               Hload Hun Hr).
    split; reflexivity.
  - split; reflexivity.
  - split; [reflexivity|]. intros files' Hwrite.
    apply (convert_csv src (U "out.CSV") fmt_src None delimiter w df files');
      try assumption; try reflexivity.
    apply wrote_notice_renders. vm_compute. intuition discriminate.
Qed.

End Convert.

(** On the demo runtime: a destination [out.xlsx] without override is
    refused with status 2 and nothing is written; a source that is not
    there ends the command with the error of opening it. *)
Lemma convert_destination_format_witness :
  let w := fresh_world (only_file Demo.csv_file) 7 in
  convert (R := Demo.runtime) (U "in.csv") (U "out.xlsx") None None None w =
    (with_console w [unsupported_destination (U "xlsx")], Raise (Exit 2)) /\
  out_format (R := Demo.runtime) (U "out.JSONL") None = U "ndjson" /\
  convert (R := Demo.runtime) (U "in.csv") (U "out.xlsx") None None None
      (fresh_world no_files 7) =
    (fresh_world no_files 7, Raise (OSError (U "in.csv"))).
Proof.
  intros w.
  pose proof (convert_destination_format (R := Demo.runtime)
                (U "in.csv") (U "out.xlsx") None None None w)
    as (_ & _ & _ & _ & Hun).
  pose proof (convert_destination_format (R := Demo.runtime)
                (U "in.csv") (U "out.JSONL") None None None w)
    as (_ & Hext & _ & _ & _).
  pose proof (convert_destination_format (R := Demo.runtime)
                (U "in.csv") (U "out.xlsx") None None None (fresh_world no_files 7))
    as (_ & _ & _ & Hload & _).
  split; [|split].
  - assert (Hx : ~ In (out_format (R := Demo.runtime) (U "out.xlsx") None)
                      supported_formats)
      by (vm_compute; intuition discriminate).
    exact (proj1 (proj1 (proj2 (Hun Demo.csv_frame eq_refl Hx)) eq_refl)).
  - exact (proj2 (Hext (or_introl eq_refl)) eq_refl).
  - exact (Hload _ eq_refl).
Defined.

(** C3 as stated fails on the demo runtime: the override
    [[/x]] is no supported format, and the notice that would name it
    does not render, so nothing is printed and the status is 1, not 2;
    and with a source that is not there no notice is printed either
    and the status is 1. *)
Lemma convert_unprintable_format_counterexample :
  let w := fresh_world (only_file Demo.csv_file) 7 in
  ~ In (out_format (R := Demo.runtime) (U "out.dat") (Some (U "[/x]")))
       supported_formats /\
  convert (R := Demo.runtime) (U "in.csv") (U "out.dat") None (Some (U "[/x]"))
      None w = (w, Raise MarkupError) /\
  exit_status (outcome (convert (R := Demo.runtime) (U "in.csv") (U "out.dat")
                          None (Some (U "[/x]")) None) w) = 1%Z /\
  ~ In (out_format (R := Demo.runtime) (U "out.xlsx") None) supported_formats /\
  printed (convert (R := Demo.runtime) (U "in.csv") (U "out.xlsx") None None None)
      (fresh_world no_files 7) = [] /\
  exit_status (outcome (convert (R := Demo.runtime) (U "in.csv") (U "out.xlsx")
                          None None None) (fresh_world no_files 7)) = 1%Z.
Proof.
  intros w. split; [|split; [|split; [|split; [|split]]]];
    try reflexivity; vm_compute; intuition discriminate.
Qed.

(** On the demo runtime: [--to-format CSV] is refused with status 2;
    [--from-format CSV] loads the same file. *)
Lemma convert_to_format_not_lowercased_witness :
  let w := fresh_world (only_file Demo.csv_file) 7 in
  convert (R := Demo.runtime) (U "in.dat") (U "out.dat")
      (Some (U "CSV")) (Some (U "CSV")) None w =
    (with_console w [unsupported_destination (U "CSV")], Raise (Exit 2)) /\
  exit_status (outcome (convert (R := Demo.runtime) (U "in.dat") (U "out.CSV")
                          (Some (U "CSV")) None None) w) = 0%Z.
Proof.
  intros w.
  pose proof (convert_to_format_not_lowercased (R := Demo.runtime)
                (U "in.dat") (U "out.dat") (Some (U "CSV")) None w Demo.csv_frame
                eq_refl) as (_ & (_ & Hun & _) & _ & (_ & Hext)).
  split; [exact Hun|].
  unfold outcome. rewrite (Hext _ eq_refl). reflexivity.
Defined.

(** ** Rendering *)

Section Rendering.

Context {R : Runtime}.

(** The cut of [render_table], for a frame small enough for the
    engine to count its rows. *)
Lemma render_table_cut (df : DataFrame) (max_rows : Z) :
  (height df <= 2 ^ 64)%Z ->
  (if (max_rows <? height df)%Z then head df max_rows else Ok df) =
  Ok {| columns := columns df; dtypes := dtypes df;
        rows := rows_kept df max_rows |}.
Proof.
  intros Hh. unfold rows_kept, head.
  assert (Hlen : height df = Z.of_nat (length (rows df))) by reflexivity.
  destruct (Z.ltb_spec max_rows (height df)) as [Hlt|Hge].
  - destruct (Z.ltb_spec max_rows 0) as [Hneg|Hpos].
    + destruct (Z.ltb_spec (Z.max 0 (height df + max_rows)) (2 ^ 64)); [reflexivity|lia].
    + destruct (Z.ltb_spec max_rows (2 ^ 64)); [reflexivity|lia].
  - destruct (Z.ltb_spec max_rows 0) as [Hneg|Hpos]; [lia|].
    rewrite firstn_all2 by lia. now destruct df.
Qed.

(** The cut, whatever the size: it raises or keeps a prefix. *)
Lemma render_table_cut_cases (df : DataFrame) (max_rows : Z) :
  (if (max_rows <? height df)%Z then head df max_rows else Ok df) =
    Raise OverflowError \/
  (if (max_rows <? height df)%Z then head df max_rows else Ok df) =
  Ok {| columns := columns df; dtypes := dtypes df;
        rows := rows_kept df max_rows |}.
Proof.
  unfold rows_kept, head.
  assert (Hlen : height df = Z.of_nat (length (rows df))) by reflexivity.
  destruct (Z.ltb_spec max_rows (height df)) as [Hlt|Hge].
  - destruct (_ <? 2 ^ 64)%Z; [right; reflexivity | left; reflexivity].
  - right. destruct (Z.ltb_spec max_rows 0) as [Hneg|Hpos]; [lia|].
    rewrite firstn_all2 by lia. now destruct df.
Qed.

Lemma render_table_unfold (df : DataFrame) (max_rows max_width : Z)
    (title : option str) (w : world) :
  render_table df max_rows max_width title w =
  match (if (max_rows <? height df)%Z then head df max_rows else Ok df) with
  | Ok df' =>
    console_print
      (RTable {| tbl_title := title; tbl_columns := columns df';
                 tbl_rows := map (map repr_cell) (rows df') |}
              (Some max_width)) w
  | Raise e => (w, Raise e)
  end.
Proof.
  unfold render_table, bind, lift, ret.
  destruct (max_rows <? height df)%Z; [|reflexivity].
  destruct (head df max_rows); reflexivity.
Qed.

(** What [render_table] does with a frame the engine can count: it
    prints the table of the rows kept if that table renders, and else
    raises and prints nothing. *)
Lemma render_table_run (df : DataFrame) (max_rows max_width : Z)
    (title : option str) (w : world) :
  (height df <= 2 ^ 64)%Z ->
  render_table df max_rows max_width title w =
  if renders (RTable (table_of df max_rows title) (Some max_width))
  then (with_console w [RTable (table_of df max_rows title) (Some max_width)],
        Ok tt)
  else (w, Raise MarkupError).
Proof.
  intros Hh. rewrite render_table_unfold, (render_table_cut df max_rows Hh).
  reflexivity.
Qed.

(** Whatever the frame, [render_table] raises and prints nothing, or
    prints the table of the rows kept. *)
Lemma render_table_cases (df : DataFrame) (max_rows max_width : Z)
    (title : option str) (w : world) :
  (exists e, render_table df max_rows max_width title w = (w, Raise e)) \/
  (renders (RTable (table_of df max_rows title) (Some max_width)) = true /\
   render_table df max_rows max_width title w =
   (with_console w [RTable (table_of df max_rows title) (Some max_width)],
    Ok tt)).
Proof.
  rewrite render_table_unfold.
  destruct (render_table_cut_cases df max_rows) as [-> | ->].
  - left. now exists OverflowError.
  - cbn [columns rows]. fold (table_of df max_rows title).
    unfold console_print.
    destruct (renders (RTable (table_of df max_rows title) (Some max_width)))
      eqn:E.
    + right. split; reflexivity.
    + left. now exists MarkupError.
Qed.

Lemma rows_kept_nonneg (df : DataFrame) (max_rows : Z) :
  (0 <= max_rows)%Z ->
  rows_kept df max_rows = firstn (Z.to_nat max_rows) (rows df).
Proof.
  intros Hm. unfold rows_kept.
  destruct (Z.ltb_spec max_rows 0); [lia | reflexivity].
Qed.

(** C6. Whenever [render_table] prints, it prints one table whose data
    rows are the cells, displayed by [repr_cell], of a prefix of the
    frame's rows in their order; for a row bound [max_rows] that is
    not negative they are the first [max_rows] rows, hence at most
    [max_rows] of them however many rows the frame has. It prints (and
    else raises, with nothing printed) when the table renders as
    console markup and the frame has no more rows than the engine can
    count. *)
Theorem render_table_first_max_rows :
  forall (df : DataFrame) (max_rows max_width : Z) (title : option str)
         (w : world),
    ((exists e, render_table df max_rows max_width title w = (w, Raise e)) \/
     exists tbl,
       render_table df max_rows max_width title w =
         (with_console w [RTable tbl (Some max_width)], Ok tt) /\
       (exists k, tbl_rows tbl = map (map repr_cell) (firstn k (rows df))) /\
       ((0 <= max_rows)%Z ->
          tbl_rows tbl =
            map (map repr_cell) (firstn (Z.to_nat max_rows) (rows df)) /\
          (Z.of_nat (length (tbl_rows tbl)) <= max_rows)%Z)) /\
    ((height df <= 2 ^ 64)%Z ->
     renders (RTable (table_of df max_rows title) (Some max_width)) = true ->
     render_table df max_rows max_width title w =
       (with_console w [RTable (table_of df max_rows title) (Some max_width)],
        Ok tt)).
Proof.
  intros df max_rows max_width title w. split.
  - destruct (render_table_cases df max_rows max_width title w)
      as [He | [_ Hrun]]; [now left|].
    right. exists (table_of df max_rows title). split; [exact Hrun|].
    cbn [table_of tbl_rows]. split.
    + unfold rows_kept. eexists. reflexivity.
    + intros Hm. rewrite rows_kept_nonneg by exact Hm. split; [reflexivity|].
      rewrite length_map, length_firstn. lia.
  - intros Hh Hr. rewrite render_table_run by exact Hh. now rewrite Hr.
Qed.

(** C7 (what the code does). [repr_cell] shows a float in [.6g] form, a
    list, tuple, set or dict by its [str] when that has at most 80
    characters and else by its first 77 characters and three dots (80
    characters in all), and any other value but [None] by its [str].
    For [None] it returns the literal of the source: the three
    characters U+00E2 U+02C6 U+2026, which is not the empty-set sign
    U+2205 but the bytes E2 88 85 of its UTF-8 form, each read as a
    Windows-1252 character. *)
Theorem repr_cell_display :
  (repr_cell PyNone = [0xE2; 0x2C6; 0x2026]%N /\
   repr_cell PyNone <> EMPTY_SET_SIGN /\
   TextIO.decode [xe2; x88; x85] = EMPTY_SET_SIGN /\
   repr_cell PyNone = map windows_1252 (map Byte.to_N [xe2; x88; x85])) /\
  (forall f, repr_cell (PyFloat f) = format_6g f) /\
  (forall v,
     (exists xs, v = PyList xs \/ v = PyTuple xs \/ v = PySet xs) \/
     (exists items, v = PyDict items) ->
     ((length (py_str v) <= 80)%nat -> repr_cell v = py_str v) /\
     ((80 < length (py_str v))%nat ->
        repr_cell v = firstn 77 (py_str v) ++ U "..." /\
        length (repr_cell v) = 80%nat) /\
     (length (repr_cell v) <= 80)%nat) /\
  (forall v,
     match v with
     | PyBool _ | PyInt _ | PyStr _ | PyObject _ _ => repr_cell v = py_str v
     | _ => True
     end).
Proof.
  split; [|split; [|split]].
  - split; [reflexivity|]. split; [|split; reflexivity].
    unfold repr_cell, NULL_MARKER, EMPTY_SET_SIGN. intros H. inversion H.
  - reflexivity.
  - intros v Hv.
    assert (E : repr_cell v =
                if (Z.of_nat (length (py_str v)) <=? 80)%Z then py_str v
                else slice_to 77 (py_str v) ++ U "...").
    { destruct Hv as [(xs & [-> | [-> | ->]]) | (items & ->)]; reflexivity. }
    rewrite E. unfold slice_to.
    destruct (Z.leb_spec (Z.of_nat (length (py_str v))) 80) as [Hle|Hgt].
    + split; [reflexivity|]. split; [lia | lia].
    + assert (L : length (firstn (Z.to_nat 77) (py_str v) ++ U "...") = 80%nat).
      { rewrite length_app, length_firstn. simpl length.
        change (Z.to_nat 77) with 77%nat. lia. }
      split; [lia|]. split; [|lia].
      intros _. split; [reflexivity | exact L].
  - intros v. destruct v; try exact I; reflexivity.
Qed.

End Rendering.

(** On the demo runtime: three rows, a bound of two. *)
Lemma render_table_first_max_rows_witness :
  render_table (R := Demo.runtime) Demo.three_rows 2 120 None
    (fresh_world no_files 0)
  = (with_console (fresh_world no_files 0)
       [RTable {| tbl_title := None; tbl_columns := [U "a"];
                  tbl_rows := [[U "1"]; [U "2"]] |} (Some 120%Z)], Ok tt).
Proof.
  refine (proj2 (render_table_first_max_rows (R := Demo.runtime) Demo.three_rows
                   2 120 None (fresh_world no_files 0)) _ eq_refl).
  vm_compute. discriminate.
Defined.

(** C6 as stated fails on the demo runtime: with a bound
    of -1 the three-row frame is shown with two data rows, which is
    more than -1. *)
Lemma render_table_negative_bound_counterexample :
  printed (render_table (R := Demo.runtime) Demo.three_rows (-1) 120 None)
    (fresh_world no_files 0)
  = [RTable {| tbl_title := None; tbl_columns := [U "a"];
               tbl_rows := [[U "1"]; [U "2"]] |} (Some 120%Z)] /\
  (-1 < Z.of_nat (length [[U "1"]; [U "2"]]))%Z.
Proof. split; [reflexivity | vm_compute; reflexivity]. Qed.

(** ** [sample] *)

Section Sample.

Context {R : Runtime}.

Lemma sample_size_clamp (n : Z) (df : DataFrame) :
  (0 <= n)%Z -> sample_size n df = Z.min n (height df).
Proof.
  intros Hn. unfold sample_size.
  destruct (Z.eqb_spec (height df) 0) as [E|E]; simpl; [rewrite E; lia | reflexivity].
Qed.

Lemma sample_frame_empty (df : DataFrame) (path : str) (n : Z)
    (seed : option Z) (w : world) :
  sample_size n df = 0%Z ->
  sample_frame df path n seed w =
  (with_console w [empty_dataset_notice], Raise (Exit 1)).
Proof.
  intros E. unfold sample_frame. rewrite E. reflexivity.
Qed.

Lemma sample_frame_unfold (df : DataFrame) (path : str) (n : Z)
    (seed : option Z) (w : world) :
  sample_size n df <> 0%Z ->
  sample_frame df path n seed w =
  match df_sample df (sample_size n df) (seed_used seed w) with
  | Ok s => render_table s (sample_size n df) 120
              (Some (sample_title (sample_size n df) path)) w
  | Raise e => (w, Raise e)
  end.
Proof.
  intros Hk. unfold sample_frame.
  apply Z.eqb_neq in Hk. rewrite Hk. unfold bind, lift, seed_used.
  destruct seed; destruct (df_sample df (sample_size n df) _); reflexivity.
Qed.

(** A sample of the size asked for is printed whole. *)
Lemma render_sample (s : DataFrame) (k : Z) (path : str) (w : world) :
  height s = k ->
  render_table s k 120 (Some (sample_title k path)) w =
  if renders (sample_table s k path)
  then (with_console w [sample_table s k path], Ok tt)
  else (w, Raise MarkupError).
Proof.
  intros Hh. rewrite render_table_unfold, Hh, Z.ltb_irrefl. reflexivity.
Qed.

(** With a seed, [sample] looks at the file system only. *)
Lemma sample_seeded_same_file (path : str) (n sd : Z)
    (fmt delimiter : option str) (w w' : world) :
  fs w' = fs w -> console w' = console w ->
  outcome (sample path n (Some sd) fmt delimiter) w' =
    outcome (sample path n (Some sd) fmt delimiter) w /\
  printed (sample path n (Some sd) fmt delimiter) w' =
    printed (sample path n (Some sd) fmt delimiter) w.
Proof.
  intros Hfs Hcon. unfold outcome, printed, sample, bind, lift.
  rewrite Hfs. destruct (read_frame (fs w) path fmt delimiter 2048) as [df|e];
    [|simpl; auto].
  unfold sample_frame. destruct (sample_size n df =? 0)%Z.
  - simpl. rewrite Hcon. auto.
  - unfold bind, lift. destruct (df_sample df (sample_size n df) sd) as [s|e].
    + rewrite !render_table_unfold.
      destruct (if (sample_size n df <? height s)%Z
                then head s (sample_size n df) else Ok s) as [s'|e].
      * unfold console_print. destruct (renders _); simpl; rewrite ?Hcon; auto.
      * simpl. auto.
    + simpl. auto.
Qed.

Lemma sample_size_le_height (n : Z) (df : DataFrame) :
  (sample_size n df <= height df)%Z.
Proof.
  unfold sample_size, height.
  destruct (Z.of_nat (length (rows df)) =? 0)%Z; simpl; lia.
Qed.

(** C2. [sample] clamps the size asked for to the number of rows: the
    effective size never exceeds it and is [min n height] for a size
    [n >= 0], 10 for [n = 100] on ten rows. If the effective size is
    zero, [sample] prints the error notice and exits with status 1. If
    it is not, then for a size [n >= 0] and a seed the engine takes,
    the engine is asked for a sample it can deliver; the sample is
    printed and the status is 0 when its table renders as console
    markup, and else nothing is printed and the command ends with
    [MarkupError]. In any case a failure past the size test is one the
    engine's sampler raised or one of printing the sample. Two runs
    with the same seed on the same file print the same rows in the
    same order, whatever else differs between the runs. *)
Theorem sample_clamps_or_exits :
  forall (path : str) (n : Z) (seed : option Z) (fmt delimiter : option str)
         (w : world) (df : DataFrame),
    sample_contract ->
    read_frame (fs w) path fmt delimiter 2048 = Ok df ->
    let k := sample_size n df in
    ((k <= height df)%Z /\
     ((0 <= n)%Z -> k = Z.min n (height df)) /\
     (n = 100%Z -> height df = 10%Z -> k = 10%Z)) /\
    (k = 0%Z ->
       sample path n seed fmt delimiter w =
         (with_console w [empty_dataset_notice], Raise (Exit 1)) /\
       exit_status (outcome (sample path n seed fmt delimiter) w) = 1%Z) /\
    (k <> 0%Z -> (0 <= n)%Z -> seed_ok (seed_used seed w) ->
       exists s,
         height s = k /\
         df_sample df k (seed_used seed w) = Ok s /\
         (renders (sample_table s k path) = true ->
            sample path n seed fmt delimiter w =
              (with_console w [sample_table s k path], Ok tt) /\
            exit_status (outcome (sample path n seed fmt delimiter) w) = 0%Z) /\
         (renders (sample_table s k path) = false ->
            sample path n seed fmt delimiter w = (w, Raise MarkupError))) /\
    (k <> 0%Z ->
       forall e,
         outcome (sample path n seed fmt delimiter) w = Raise e ->
         df_sample df k (seed_used seed w) = Raise e \/
         exists s,
           df_sample df k (seed_used seed w) = Ok s /\
           render_table s k 120 (Some (sample_title k path)) w = (w, Raise e)) /\
    (forall sd w',
       fs w' = fs w -> console w' = console w ->
       outcome (sample path n (Some sd) fmt delimiter) w' =
         outcome (sample path n (Some sd) fmt delimiter) w /\
       printed (sample path n (Some sd) fmt delimiter) w' =
         printed (sample path n (Some sd) fmt delimiter) w).
Proof.
  intros path n seed fmt delimiter w df Hengine Hload k.
  assert (Hrun : sample path n seed fmt delimiter w = sample_frame df path n seed w).
  { unfold sample, bind, lift. now rewrite Hload. }
  split; [|split; [|split; [|split]]].
  - split; [apply sample_size_le_height|].
    split; [apply sample_size_clamp|].
    intros -> E. unfold k. rewrite sample_size_clamp, E by lia. reflexivity.
  - intros E. unfold outcome. rewrite Hrun, sample_frame_empty by exact E.
    split; reflexivity.
  - intros E Hn Hseed.
    assert (Hk : k = Z.min n (height df)) by (now apply sample_size_clamp).
    assert (Hrange : (1 <= k <= height df)%Z).
    { unfold height in *. lia. }
    destruct (Hengine df k (seed_used seed w) Hrange Hseed) as (s & Hs & Hh).
    exists s. split; [exact Hh|]. split; [exact Hs|]. unfold outcome.
    rewrite Hrun, (sample_frame_unfold df path n seed w E). fold k.
    rewrite Hs, (render_sample s k path w Hh).
    split; intros ->; [split|]; reflexivity.
  - intros E e He. unfold outcome in He.
    rewrite Hrun, (sample_frame_unfold df path n seed w E) in He. fold k in He.
    destruct (df_sample df k (seed_used seed w)) as [s|e'].
    + right. exists s. split; [reflexivity|].
      destruct (render_table_cases s k 120 (Some (sample_title k path)) w)
        as [[e' He'] | [_ Hok]].
      * rewrite He' in He. simpl in He. congruence.
      * rewrite Hok in He. discriminate.
    + left. simpl in He. congruence.
  - intros sd w' Hfs Hcon. now apply sample_seeded_same_file.
Qed.

End Sample.

(** ** [stats] *)

Section Stats.

Context {R : Runtime}.

Lemma with_console_nil (w : world) : with_console w [] = w.
Proof. destruct w. unfold with_console. simpl. now rewrite app_nil_r. Qed.

Lemma with_console_app (w : world) (a b : list renderable) :
  with_console (with_console w a) b = with_console w (a ++ b).
Proof. unfold with_console. simpl. now rewrite app_assoc. Qed.

Lemma has_value_cells (df : DataFrame) (c : str) :
  has_value df c = false <-> values_of df c = [].
Proof.
  unfold has_value, values_of. induction (column_values df c) as [|v r IH]; simpl.
  - tauto.
  - destruct (negb (is_null v)); simpl; [split; discriminate | exact IH].
Qed.

(** The frame of counts, once the engine has counted. *)
Lemma value_counts_frame_counted (df : DataFrame) (c : str)
    (groups : list (pyval * Z)) :
  df_value_counts c (values_of df c) = Ok groups ->
  value_counts_frame df c =
    Ok {| columns := [c; U "len"]; dtypes := [Utf8; UInt32];
          rows := counted_rows df c |} /\
  counted_rows df c = map (fun vn => [fst vn; PyInt (snd vn)]) groups.
Proof.
  intros H. unfold value_counts_frame, counted_rows.
  fold (values_of df c). rewrite H. split; reflexivity.
Qed.

Lemma counted_rows_nil (df : DataFrame) (c : str) (groups : list (pyval * Z)) :
  counts_contract ->
  df_value_counts c (values_of df c) = Ok groups ->
  (counted_rows df c = [] <-> has_value df c = false).
Proof.
  intros Hc H. rewrite has_value_cells, <- (Hc c _ groups H).
  rewrite (proj2 (value_counts_frame_counted df c groups H)).
  destruct groups; simpl; split; congruence.
Qed.

(** The turn of one text column, for a [topk] of at least one. *)
Lemma stats_topk_run (df : DataFrame) (topk : Z) (c : str) (w : world) :
  counts_contract -> (1 <= topk)%Z ->
  (topk_passes df topk c = true ->
   stats_topk df topk c w =
   (with_console w (if has_value df c then [topk_table df topk c] else []),
    Ok tt)) /\
  (topk_passes df topk c = false ->
   exists e, stats_topk df topk c w = (w, Raise e)).
Proof.
  intros Hc Hk. unfold stats_topk, topk_passes, bind, lift.
  destruct (df_value_counts c (values_of df c)) as [groups|e] eqn:Hg.
  2:{ split; [discriminate|]. intros _. exists e.
      unfold value_counts_frame. fold (values_of df c). now rewrite Hg. }
  destruct (value_counts_frame_counted df c groups Hg) as [-> Hrows].
  pose proof (counted_rows_nil df c groups Hc Hg) as Hnil.
  unfold head. cbn [height rows columns dtypes].
  destruct (Z.ltb_spec topk 0) as [Hneg|_]; [lia|].
  destruct (Z.ltb_spec topk (2 ^ 64)) as [Hsmall|Hbig].
  2:{ split; [discriminate|]. intros _. now exists OverflowError. }
  rewrite andb_true_l.
  set (freq := {| columns := [c; U "len"]; dtypes := [Utf8; UInt32];
                  rows := firstn (Z.to_nat topk) (counted_rows df c) |}).
  assert (Hfh : (height freq <= 2 ^ 64)%Z).
  { unfold height, freq. cbn [rows]. rewrite length_firstn. lia. }
  assert (Htable : RTable (table_of freq 20 (Some (topk_title topk c)))
                          (Some 120%Z) = topk_table df topk c).
  { unfold table_of, topk_table, rows_kept, freq. cbn [rows columns].
    change (20 <? 0)%Z with false. cbv iota.
    rewrite firstn_firstn.
    replace (Nat.min (Z.to_nat 20) (Z.to_nat topk))
      with (Z.to_nat (Z.min topk 20)) by lia.
    reflexivity. }
  destruct (has_value df c) eqn:Hv.
  - assert (Hne : counted_rows df c <> []).
    { intros E. apply Hnil in E. discriminate. }
    assert (Hh : (height freq =? 0)%Z = false).
    { apply Z.eqb_neq. unfold height, freq. cbn [rows].
      destruct (counted_rows df c); [contradiction|].
      destruct (Z.to_nat topk) eqn:E; [lia | simpl; lia]. }
    rewrite Hh. change (negb false) with true. cbv iota.
    rewrite (render_table_run freq 20 120 (Some (topk_title topk c)) w Hfh).
    rewrite Htable. cbn [negb orb].
    destruct (renders (topk_table df topk c)).
    + split; [reflexivity | discriminate].
    + split; [discriminate|]. intros _. now exists MarkupError.
  - assert (Hh : (height freq =? 0)%Z = true).
    { apply Z.eqb_eq. unfold height, freq. cbn [rows].
      rewrite (proj2 Hnil eq_refl). now rewrite firstn_nil. }
    rewrite Hh. cbn [negb orb]. unfold ret. rewrite with_console_nil.
    split; [reflexivity | discriminate].
Qed.

(** The loop over the text columns stops at the first one that does
    not get through. *)
Lemma stats_topk_loop (df : DataFrame) (topk : Z) (cols : list str) :
  counts_contract -> (1 <= topk)%Z ->
  forall w,
    exists r,
      for_each cols (stats_topk df topk) w =
      (with_console w
         (map (topk_table df topk)
              (filter (has_value df) (take_while (topk_passes df topk) cols))),
       r) /\
      (forallb (topk_passes df topk) cols = true -> r = Ok tt) /\
      (forallb (topk_passes df topk) cols = false -> exists e, r = Raise e).
Proof.
  intros Hc Hk. induction cols as [|c cols IH]; intros w.
  - exists (Ok tt). cbn. unfold ret. rewrite with_console_nil.
    split; [reflexivity|]. split; [reflexivity | discriminate].
  - cbn [for_each take_while forallb]. unfold bind.
    destruct (stats_topk_run df topk c w Hc Hk) as [Hpass Hfail].
    destruct (topk_passes df topk c) eqn:Hp.
    + rewrite (Hpass eq_refl).
      destruct (IH (with_console w
                      (if has_value df c then [topk_table df topk c] else [])))
        as (r & Hrun & Hok & Hbad).
      exists r. rewrite Hrun, with_console_app. cbn [filter andb].
      split; [|split; assumption].
      destruct (has_value df c); reflexivity.
    + destruct (Hfail eq_refl) as [e He]. rewrite He.
      exists (Raise e). cbn [filter map andb]. rewrite with_console_nil.
      split; [reflexivity|]. split; [discriminate|]. intros _. now exists e.
Qed.

Lemma take_while_all {A} (p : A -> bool) (l : list A) :
  forallb p l = true -> take_while p l = l.
Proof.
  induction l as [|x r IH]; [reflexivity|]. cbn. 
  destruct (p x); [|discriminate]. cbn. intros H. now rewrite IH.
Qed.

Lemma take_while_In {A} (p : A -> bool) (l : list A) (x : A) :
  In x (take_while p l) -> In x l /\ p x = true.
Proof.
  induction l as [|y r IH]; [contradiction|]. cbn.
  destruct (p y) eqn:E; [|contradiction].
  intros [<- | H]; [split; [now left | exact E]|].
  destruct (IH H). split; [now right | assumption].
Qed.

Lemma topk_title_inj (topk : Z) (c c' : str) :
  topk_title topk c = topk_title topk c' -> c = c'.
Proof.
  unfold topk_title. intros H.
  repeat apply app_inv_head in H. exact H.
Qed.

Lemma topk_title_not_summary (topk : Z) (c : str) :
  topk_title topk c <> numeric_summary_title.
Proof.
  unfold topk_title, numeric_summary_title. intros H.
  apply (f_equal (fun s => nth 6 s 0%N)) in H. vm_compute in H. discriminate.
Qed.

(** C8. On a frame without numeric columns and for a [--topk] of at
    least one, [stats] prints the warning notice and then goes through
    the text columns in their order as far as every column gets
    through its turn (the engine counts its values and takes the cut,
    and the table renders): it prints exactly one top-k table for each
    text column reached that has a non-null cell, no table for one
    whose cells are all null, and no numeric-summary table. When every
    text column gets through, that is all of them and the command
    ends normally; otherwise it ends with the error of the first
    column that does not. *)
Theorem stats_without_numeric_columns :
  forall (path : str) (topk : Z) (fmt delimiter : option str)
         (w : world) (df : DataFrame),
    counts_contract ->
    read_frame (fs w) path fmt delimiter 2048 = Ok df ->
    columns_where is_numeric_dtype df = [] ->
    (1 <= topk)%Z ->
    let text := columns_where is_utf8_dtype df in
    let reached := take_while (topk_passes df topk) text in
    let tables := map (topk_table df topk) (filter (has_value df) reached) in
    fst (stats path topk fmt delimiter w) =
      with_console w (no_numeric_notice :: tables) /\
    (forallb (topk_passes df topk) text = true ->
       reached = text /\
       stats path topk fmt delimiter w =
         (with_console w (no_numeric_notice :: tables), Ok tt)) /\
    (forallb (topk_passes df topk) text = false ->
       exists e, outcome (stats path topk fmt delimiter) w = Raise e) /\
    Forall (fun r => table_title r <> Some numeric_summary_title)
           (no_numeric_notice :: tables) /\
    (forall c, In c reached ->
               has_value df c = true -> In (topk_table df topk c) tables) /\
    (forall c, has_value df c = false ->
               ~ In (Some (topk_title topk c)) (map table_title tables)).
Proof.
  intros path topk fmt delimiter w df Hc Hload Hnum Hk text reached tables.
  assert (Hrun : exists r,
             stats path topk fmt delimiter w =
               (with_console w (no_numeric_notice :: tables), r) /\
             (forallb (topk_passes df topk) text = true -> r = Ok tt) /\
             (forallb (topk_passes df topk) text = false -> exists e, r = Raise e)).
  { unfold stats, bind, lift. rewrite Hload. unfold stats_frame. rewrite Hnum.
    unfold bind. rewrite (console_print_renders _ w no_numeric_notice_renders).
    destruct (stats_topk_loop df topk text Hc Hk
                (with_console w [no_numeric_notice])) as (r & Hloop & Hok & Hbad).
    fold text. rewrite Hloop, with_console_app.
    exists r. split; [reflexivity|]. split; assumption. }
  destruct Hrun as (r & Hrun & Hok & Hbad).
  split; [|split; [|split; [|split; [|split]]]].
  - now rewrite Hrun.
  - intros Hall. split; [now apply take_while_all|].
    rewrite Hrun. now rewrite (Hok Hall).
  - intros Hsome. unfold outcome. rewrite Hrun. exact (Hbad Hsome).
  - constructor; [discriminate|].
    apply Forall_forall. intros t Ht. apply in_map_iff in Ht as (c & <- & _).
    cbn [topk_table table_title tbl_title]. intros E.
    apply (topk_title_not_summary topk c). congruence.
  - intros c Hin Hv. apply in_map. apply filter_In. now split.
  - intros c Hv Hin. apply in_map_iff in Hin as (t & Et & Ht).
    apply in_map_iff in Ht as (c' & <- & Hc').
    apply filter_In in Hc' as [_ Hv']. cbn [topk_table table_title tbl_title] in Et.
    assert (Et' : topk_title topk c' = topk_title topk c) by congruence.
    apply topk_title_inj in Et'. subst c'. congruence.
Qed.

End Stats.

(** ** The demo runtime keeps the engine's promises *)

Lemma demo_sample_contract : sample_contract (R := Demo.runtime).
Proof.
  intros df k seed Hk [Hs0 Hs1]. simpl. unfold Demo.sample_rows.
  destruct (Z.ltb_spec k 0); [lia|].
  destruct (Z.ltb_spec seed 0); [lia|].
  destruct (Z.leb_spec (2 ^ 64) seed); [lia|].
  destruct (Z.ltb_spec (height df) k); [lia|]. simpl.
  eexists. split; [reflexivity|].
  unfold height in *. simpl.
  rewrite length_firstn, length_app, length_skipn, length_firstn. lia.
Qed.

Lemma demo_bump_nonempty (v : pyval) (acc : list (pyval * Z)) :
  Demo.bump v acc <> [].
Proof.
  destruct acc as [|[x n] r]; simpl; [discriminate|].
  destruct (Demo.same_text x v); discriminate.
Qed.

Lemma demo_groups_nonempty (cells : list pyval) :
  forall acc, acc <> [] \/ cells <> [] ->
    fold_left (fun a v => Demo.bump v a) cells acc <> [].
Proof.
  induction cells as [|v r IH]; intros acc H; simpl.
  - destruct H as [H|H]; [exact H | contradiction].
  - apply IH. left. apply demo_bump_nonempty.
Qed.

Lemma demo_insert_desc_nonempty (e : pyval * Z) (l : list (pyval * Z)) :
  Demo.insert_desc e l <> [].
Proof.
  destruct l as [|x r]; simpl; [discriminate|].
  destruct (snd x <? snd e)%Z; discriminate.
Qed.

Lemma demo_counts_contract : counts_contract (R := Demo.runtime).
Proof.
  intros c cells groups. simpl. unfold Demo.value_counts.
  destruct (str_eqb c (U "len")); [discriminate|].
  intros H. injection H as <-. split.
  - intros H. destruct cells as [|v r]; [reflexivity|]. exfalso.
    assert (Hg : fold_left (fun a v0 => Demo.bump v0 a) (v :: r) [] <> [])
      by (apply demo_groups_nonempty; right; discriminate).
    destruct (fold_left (fun a v0 => Demo.bump v0 a) (v :: r) []) as [|g gs];
      [contradiction|].
    simpl in H. exact (demo_insert_desc_nonempty _ _ H).
  - intros ->. reflexivity.
Qed.

(** On the demo runtime: a hundred rows asked of a file with three. *)
Lemma sample_clamps_or_exits_witness :
  let w := fresh_world (only_file Demo.three_rows_file) 0 in
  sample_size 100 Demo.three_rows = 3%Z /\
  exit_status (outcome (sample (R := Demo.runtime) (U "d.csv") 100 (Some 42%Z)
                          None None) w) = 0%Z /\
  exit_status (outcome (sample (R := Demo.runtime) (U "d.csv") 0 (Some 42%Z)
                          None None) w) = 1%Z.
Proof.
  intros w.
  pose proof (sample_clamps_or_exits (R := Demo.runtime) (U "d.csv") 100
                (Some 42%Z) None None w Demo.three_rows demo_sample_contract
                eq_refl) as ((_ & Hk & _) & _ & Hdraw & _).
  pose proof (sample_clamps_or_exits (R := Demo.runtime) (U "d.csv") 0
                (Some 42%Z) None None w Demo.three_rows demo_sample_contract
                eq_refl) as (_ & Hzero & _).
  split; [exact (Hk ltac:(lia))|]. split.
  - assert (Hne : sample_size 100 Demo.three_rows <> 0%Z) by discriminate.
    assert (Hn : (0 <= 100)%Z) by lia.
    assert (Hseed : seed_ok (seed_used (Some 42%Z) w))
      by (unfold seed_ok; simpl; lia).
    destruct (Hdraw Hne Hn Hseed) as (s & _ & Hs & Hprint & _).
    injection Hs as <-. exact (proj2 (Hprint eq_refl)).
  - exact (proj2 (Hzero eq_refl)).
Defined.

(** C2 as stated fails on the demo runtime: one row is
    asked of a file with one row, so the clamped size is 1 and not
    zero, yet the command ends with an error and status 1, because the
    cell of that row does not render as console markup; a size of -1
    is not clamped to a row count; and with the seed -1, which the
    engine does not take, two rows asked of three end with an error as
    well. *)
Lemma sample_unprintable_cell_counterexample :
  let w := fresh_world (only_file closing_tag_file) 0 in
  read_frame (R := Demo.runtime) (fs w) (U "d.csv") None None 2048
    = Ok closing_tag_frame /\
  sample_size 1 closing_tag_frame = 1%Z /\
  sample (R := Demo.runtime) (U "d.csv") 1 (Some 42%Z) None None w
    = (w, Raise MarkupError) /\
  exit_status (outcome (sample (R := Demo.runtime) (U "d.csv") 1 (Some 42%Z)
                          None None) w) = 1%Z /\
  sample_size (-1) Demo.three_rows = (-1)%Z /\
  sample_size 2 Demo.three_rows = 2%Z /\
  outcome (sample (R := Demo.runtime) (U "d.csv") 2 (Some (-1)%Z) None None)
    (fresh_world (only_file Demo.three_rows_file) 0) = Raise OverflowError.
Proof. intros w. repeat split. Qed.

(** On the demo runtime: two text columns, one of them all null. *)
Lemma stats_without_numeric_columns_witness :
  let w := fresh_world (only_file Demo.names_file) 0 in
  stats (R := Demo.runtime) (U "n.csv") 5 None None w =
  (with_console w
     [no_numeric_notice; topk_table (R := Demo.runtime) Demo.names 5 (U "name")],
   Ok tt).
Proof.
  intros w.
  pose proof (stats_without_numeric_columns (R := Demo.runtime) (U "n.csv") 5
                None None w Demo.names demo_counts_contract eq_refl eq_refl
                ltac:(lia)) as (_ & Hall & _).
  exact (proj2 (Hall eq_refl)).
Defined.

(** C8 as stated fails on the demo runtime: with
    [--topk 0] the column [name], which has values, gets no table; the
    warning is all that is printed. *)
Lemma stats_topk_zero_counterexample :
  let w := fresh_world (only_file Demo.names_file) 0 in
  read_frame (R := Demo.runtime) (fs w) (U "n.csv") None None 2048
    = Ok Demo.names /\
  columns_where (is_numeric_dtype (R := Demo.runtime)) Demo.names = [] /\
  In (U "name") (columns_where is_utf8_dtype Demo.names) /\
  has_value Demo.names (U "name") = true /\
  stats (R := Demo.runtime) (U "n.csv") 0 None None w =
    (with_console w [no_numeric_notice], Ok tt).
Proof.
  intros w. split; [reflexivity|]. split; [reflexivity|].
  split; [now left|]. split; reflexivity.
Qed.

(** On the demo runtime: a list whose [str] has 92 characters is shown
    in 80. *)
Lemma repr_cell_display_witness :
  length (repr_cell (R := Demo.runtime) (PyList (repeat PyNone 30))) = 80%nat.
Proof.
  pose proof (repr_cell_display (R := Demo.runtime)) as (_ & _ & Hcompound & _).
  destruct (Hcompound (PyList (repeat PyNone 30))
              (or_introl (ex_intro _ (repeat PyNone 30) (or_introl eq_refl))))
    as (_ & Hlong & _).
  refine (proj2 (Hlong _)). vm_compute. lia.
Defined.

(* ================================================================== *)
(** * Further properties of the code *)

(** ** The sniffer: ties, later lines, line terminators *)

(** X1. On a tie the order of the dict decides: comma is the answer
    whenever no candidate has more occurrences than it, tab when it has
    more than comma and at least as many as semicolon, semicolon only
    with strictly the most. *)
Theorem sniff_line_tie_break :
  forall line : str,
    let c := fun d => count d line in
    (sniff_line line = [COMMA] <->
       (c TAB <= c COMMA /\ c SEMICOLON <= c COMMA)%Z) /\
    (sniff_line line = [TAB] <->
       (c COMMA < c TAB /\ c SEMICOLON <= c TAB)%Z) /\
    (sniff_line line = [SEMICOLON] <->
       (c COMMA < c SEMICOLON /\ c TAB < c SEMICOLON)%Z).
Proof.
  intros line. cbv zeta. rewrite sniff_line_cases. cbv zeta.
  generalize (count_nonneg COMMA line) (count_nonneg TAB line)
             (count_nonneg SEMICOLON line).
  generalize (count COMMA line) (count TAB line) (count SEMICOLON line).
  intros a b c Ha Hb Hc.
  destruct (Z.eqb_spec a 0), (Z.eqb_spec b 0), (Z.eqb_spec c 0); simpl;
    destruct (Z.ltb_spec a b), (Z.ltb_spec b c), (Z.ltb_spec a c);
    (split; [|split]); (split; intros Hx);
    try discriminate Hx; try lia; try reflexivity.
Qed.

(** X2. Nothing after the first non-blank line is looked at: two files
    whose first non-blank lines are equal get the same answer. *)
Theorem sniff_delimiter_first_line_only :
  forall (files : filesystem) (p1 p2 : str) (d1 d2 : list byte)
         (blanks1 blanks2 : list str) (L : str) (rest1 rest2 : list str),
    files p1 = Some d1 -> files p2 = Some d2 ->
    TextIO.readlines d1 = blanks1 ++ L :: rest1 ->
    TextIO.readlines d2 = blanks2 ++ L :: rest2 ->
    Forall blank blanks1 -> Forall blank blanks2 -> ~ blank L ->
    sniff_delimiter files p1 = sniff_delimiter files p2 /\
    sniff_delimiter files p1 = Ok (sniff_line (strip L)).
Proof.
  intros files p1 p2 d1 d2 b1 b2 L r1 r2 H1 H2 E1 E2 Hb1 Hb2 HL.
  unfold sniff_delimiter. rewrite H1, H2, E1, E2.
  rewrite !sniff_lines_first_nonblank by assumption. split; reflexivity.
Qed.

Lemma sniff_delimiter_first_line_only_witness :
  let fa := file_of (U "x;y" ++ [TextIO.LF] ++ U "1,2,3") in
  let fb := file_of ([TextIO.LF] ++ U "x;y" ++ [TextIO.LF]
                     ++ U "1" ++ [TAB; TAB] ++ U "2") in
  let files : filesystem :=
    fun p => if str_eqb p (U "a") then Some fa else Some fb in
  sniff_delimiter files (U "a") = sniff_delimiter files (U "b") /\
  sniff_delimiter files (U "a") = Ok [SEMICOLON].
Proof.
  intros fa fb files.
  refine (sniff_delimiter_first_line_only files (U "a") (U "b") fa fb
            [] [[TextIO.LF]] (U "x;y" ++ [TextIO.LF])
            [U "1,2,3"] [U "1" ++ [TAB; TAB] ++ U "2"]
            eq_refl eq_refl eq_refl eq_refl _ _ _).
  - constructor.
  - repeat constructor.
  - unfold blank. vm_compute. discriminate.
Defined.

Lemma byte_of_to_N (c : char) : (c < 256)%N -> Byte.to_N (byte_of c) = c.
Proof.
  intros Hc. unfold byte_of. destruct (Byte.of_N c) as [b|] eqn:E.
  - now apply Byte.to_of_N.
  - apply Byte.of_N_None_iff in E. lia.
Qed.

Lemma decode_ignore_ascii (s : list N) :
  forallb is_ascii s = true -> TextIO.decode_ignore s = s.
Proof.
  induction s as [|c r IH]; [reflexivity|].
  intros H. simpl in H. apply andb_true_iff in H as [Hc Hr].
  rewrite decode_ignore_cons. unfold is_ascii in Hc. rewrite Hc.
  now rewrite IH.
Qed.

(** An ASCII text comes back from its bytes unchanged. *)
Lemma decode_file_of_ascii (s : str) :
  forallb is_ascii s = true -> TextIO.decode (file_of s) = s.
Proof.
  intros H. unfold TextIO.decode, file_of. rewrite map_map.
  assert (E : map (fun c => Byte.to_N (byte_of c)) s = s).
  { induction s as [|c r IH]; [reflexivity|].
    simpl in H. apply andb_true_iff in H as [Hc Hr]. simpl.
    rewrite byte_of_to_N, IH; auto.
    unfold is_ascii in Hc. apply N.ltb_lt in Hc. lia. }
  rewrite E. now apply decode_ignore_ascii.
Qed.

Lemma clean_char_facts (c : char) :
  clean_char c = true ->
  is_ascii c = true /\ (c =? TextIO.CR)%N = false /\ (c =? TextIO.LF)%N = false.
Proof.
  unfold clean_char, is_ascii. intros H.
  apply andb_true_iff in H as [H H3]. apply andb_true_iff in H as [H1 H2].
  repeat split; auto; now apply negb_true_iff.
Qed.

Lemma translate_newlines_clean (l rest : str) :
  forallb clean_char l = true ->
  TextIO.translate_newlines (l ++ rest) = l ++ TextIO.translate_newlines rest.
Proof.
  induction l as [|c r IH]; [reflexivity|].
  intros H. simpl in H. apply andb_true_iff in H as [Hc Hr].
  destruct (clean_char_facts c Hc) as (_ & Hcr & _).
  simpl. rewrite Hcr. now rewrite IH.
Qed.

Lemma lines_acc_clean (l rest cur : str) :
  forallb clean_char l = true ->
  TextIO.lines_acc cur (l ++ TextIO.LF :: rest) =
  (rev cur ++ l ++ [TextIO.LF]) :: TextIO.lines_acc [] rest.
Proof.
  revert cur. induction l as [|c r IH]; intros cur H.
  - reflexivity.
  - simpl in H. apply andb_true_iff in H as [Hc Hr].
    destruct (clean_char_facts c Hc) as (_ & _ & Hlf).
    simpl. rewrite Hlf, IH by exact Hr. simpl. now rewrite <- app_assoc.
Qed.

Lemma lines_of_lf_lines (ls : list str) :
  Forall (fun l => forallb clean_char l = true) ls ->
  TextIO.lines (join_lines [TextIO.LF] ls) = map (fun l => l ++ [TextIO.LF]) ls.
Proof.
  unfold TextIO.lines. induction 1 as [|l r Hl _ IH]; [reflexivity|].
  unfold join_lines in *. simpl. rewrite <- app_assoc. simpl.
  rewrite lines_acc_clean by exact Hl. simpl. now rewrite IH.
Qed.

(** Whatever the terminator, the text is read as if its lines ended in
    LF. *)
Lemma translate_join_lines (t : str) (ls : list str) :
  In t terminators ->
  Forall (fun l => forallb clean_char l = true) ls ->
  TextIO.translate_newlines (join_lines t ls) = join_lines [TextIO.LF] ls.
Proof.
  intros Ht. induction 1 as [|l r Hl Hr IH]; [reflexivity|].
  unfold join_lines in *. simpl. rewrite <- !app_assoc.
  rewrite translate_newlines_clean by exact Hl. f_equal.
  destruct Ht as [<- | [<- | [<- | []]]]; simpl.
  - now rewrite IH.
  - now rewrite IH.
  - rewrite <- IH.
    destruct r as [|l' r']; [reflexivity|]. simpl.
    inversion Hr as [|? ? Hl' _]; subst.
    destruct l' as [|c l'']; simpl.
    + reflexivity.
    + simpl in Hl'. apply andb_true_iff in Hl' as [Hc _].
      destruct (clean_char_facts c Hc) as (_ & _ & Hlf). now rewrite Hlf.
Qed.

Lemma join_lines_ascii (t : str) (ls : list str) :
  In t terminators ->
  Forall (fun l => forallb clean_char l = true) ls ->
  forallb is_ascii (join_lines t ls) = true.
Proof.
  intros Ht. induction 1 as [|l r Hl _ IH]; [reflexivity|].
  unfold join_lines in *. simpl. rewrite !forallb_app, IH.
  rewrite !andb_true_iff. repeat split.
  - rewrite forallb_forall in *. intros c Hc.
    now destruct (clean_char_facts c (Hl c Hc)).
  - destruct Ht as [<- | [<- | [<- | []]]]; reflexivity.
Qed.

Lemma sniff_lines_terminated (ls : list str) :
  sniff_lines (map (fun l => l ++ [TextIO.LF]) ls) = sniff_lines ls.
Proof.
  induction ls as [|l r IH]; [reflexivity|].
  simpl map. rewrite !sniff_lines_cons.
  rewrite (strip_padding [] l [TextIO.LF] eq_refl eq_refl : strip (l ++ [TextIO.LF]) = strip l).
  now rewrite IH.
Qed.

(** X3. The line terminator makes no difference: a file of ASCII lines
    that all end in LF, all in CR LF or all in CR is read as those
    lines, and [sniff_delimiter] answers what the lines alone
    decide. *)
Theorem sniff_delimiter_any_terminator :
  forall (files : filesystem) (path : str) (t : str) (ls : list str),
    In t terminators ->
    Forall (fun l => forallb clean_char l = true) ls ->
    files path = Some (file_of (join_lines t ls)) ->
    TextIO.readlines (file_of (join_lines t ls)) =
      map (fun l => l ++ [TextIO.LF]) ls /\
    sniff_delimiter files path = Ok (sniff_lines ls).
Proof.
  intros files path t ls Ht Hls Hfile.
  assert (E : TextIO.readlines (file_of (join_lines t ls)) =
              map (fun l => l ++ [TextIO.LF]) ls).
  { unfold TextIO.readlines.
    rewrite decode_file_of_ascii by now apply join_lines_ascii.
    rewrite translate_join_lines by assumption.
    now apply lines_of_lf_lines. }
  split; [exact E|].
  unfold sniff_delimiter. rewrite Hfile, E. now rewrite sniff_lines_terminated.
Qed.

Lemma sniff_delimiter_any_terminator_witness :
  sniff_delimiter
    (only_file (file_of (join_lines [TextIO.CR; TextIO.LF] [[]; U "a;b;c"; U "1;2;3"])))
    (U "w.csv") = Ok [SEMICOLON].
Proof.
  refine (proj2 (sniff_delimiter_any_terminator _ (U "w.csv")
                   [TextIO.CR; TextIO.LF] [[]; U "a;b;c"; U "1;2;3"] _ _ eq_refl)).
  - right. left. reflexivity.
  - repeat constructor.
Defined.

(** ** The loaders *)

Section Loaders.

Context {R : Runtime} {L : LazyEngine}.

Lemma format_of_extension_supported (path : str) :
  In (format_of_extension path) supported_formats.
Proof.
  unfold format_of_extension, supported_formats.
  repeat match goal with |- context [if ?b then _ else _] => destruct b end;
    simpl; auto.
Qed.

Lemma read_frame_csv (files : filesystem) (path : str) (fmt delimiter : option str)
    (infer : Z) :
  detect_format path fmt = U "csv" ->
  read_frame files path fmt delimiter infer =
  match csv_separator files path delimiter with
  | Ok d => pl_read_csv files path d infer
  | Raise e => Raise e
  end.
Proof.
  intros E. unfold read_frame, csv_separator. rewrite E. simpl.
  destruct delimiter; reflexivity.
Qed.

Lemma scan_lazy_csv (files : filesystem) (path : str) (fmt delimiter : option str) :
  detect_format path fmt = U "csv" ->
  scan_lazy files path fmt delimiter =
  match csv_separator files path delimiter with
  | Ok d => pl_scan_csv files path d
  | Raise e => Raise e
  end.
Proof.
  intros E. unfold scan_lazy, csv_separator. rewrite E. simpl.
  destruct delimiter; reflexivity.
Qed.

Lemma scan_lazy_unsupported (files : filesystem) (path : str)
    (fmt delimiter : option str) :
  ~ In (detect_format path fmt) supported_formats ->
  scan_lazy files path fmt delimiter =
  Raise (unsupported_format (detect_format path fmt)).
Proof.
  intros H. unfold scan_lazy.
  destruct (str_eqb (detect_format path fmt) (U "csv")) eqn:E1;
    [apply str_eqb_eq in E1; exfalso; apply H; rewrite E1; simpl; auto|].
  destruct (str_eqb (detect_format path fmt) (U "ndjson")) eqn:E2;
    [apply str_eqb_eq in E2; exfalso; apply H; rewrite E2; simpl; auto|].
  destruct (str_eqb (detect_format path fmt) (U "parquet")) eqn:E3;
    [apply str_eqb_eq in E3; exfalso; apply H; rewrite E3; simpl; auto|].
  reflexivity.
Qed.

(** X4. Without an override the format is always one of the supported
    three, so neither loader raises its own [ValueError]: the eager and
    the lazy loader go to the same one of the engine's three readers. *)
Theorem loaders_dispatch_without_override :
  forall (path : str) (fmt : option str),
    fmt = None \/ fmt = Some [] ->
    In (detect_format path fmt) supported_formats /\
    forall (files : filesystem) (delimiter : option str) (infer : Z),
      (detect_format path fmt = U "csv" /\
       read_frame files path fmt delimiter infer =
         match csv_separator files path delimiter with
         | Ok d => pl_read_csv files path d infer
         | Raise e => Raise e
         end /\
       scan_lazy files path fmt delimiter =
         match csv_separator files path delimiter with
         | Ok d => pl_scan_csv files path d
         | Raise e => Raise e
         end) \/
      (detect_format path fmt = U "ndjson" /\
       read_frame files path fmt delimiter infer = pl_read_ndjson files path /\
       scan_lazy files path fmt delimiter = pl_scan_ndjson files path) \/
      (detect_format path fmt = U "parquet" /\
       read_frame files path fmt delimiter infer = pl_read_parquet files path /\
       scan_lazy files path fmt delimiter = pl_scan_parquet files path).
Proof.
  intros path fmt Hfmt.
  assert (E : detect_format path fmt = format_of_extension path)
    by (destruct Hfmt as [-> | ->]; reflexivity).
  pose proof (format_of_extension_supported path) as Hin. rewrite <- E in Hin.
  split; [exact Hin|]. intros files delimiter infer.
  destruct Hin as [H | [H | [H | []]]]; symmetry in H.
  - left. split; [exact H|]. split; [now apply read_frame_csv | now apply scan_lazy_csv].
  - right. left. split; [exact H|]. unfold read_frame, scan_lazy. rewrite H.
    split; reflexivity.
  - right. right. split; [exact H|]. unfold read_frame, scan_lazy. rewrite H.
    split; reflexivity.
Qed.

(** X5. For a csv file without [--delimiter] both loaders open the file
    themselves: a file that cannot be opened makes them raise the error
    of [open] before the engine is asked, and otherwise the engine is
    handed by both the separator [sniff_delimiter] returns for the
    file, one of comma, tab and semicolon. A given delimiter is handed
    on as it is and the file is not opened by the loader. *)
Theorem loaders_csv_separator :
  forall (files : filesystem) (path : str) (fmt : option str) (infer : Z),
    detect_format path fmt = U "csv" ->
    (files path = None ->
       read_frame files path fmt None infer = Raise (OSError path) /\
       scan_lazy files path fmt None = Raise (OSError path)) /\
    (forall data, files path = Some data ->
       exists d,
         sniff_delimiter files path = Ok d /\
         d = sniff_text (TextIO.decode data) /\
         In d candidates /\
         read_frame files path fmt None infer = pl_read_csv files path d infer /\
         scan_lazy files path fmt None = pl_scan_csv files path d) /\
    (forall d,
       read_frame files path fmt (Some d) infer = pl_read_csv files path d infer /\
       scan_lazy files path fmt (Some d) = pl_scan_csv files path d).
Proof.
  intros files path fmt infer Hcsv.
  split; [|split].
  - intros Hnone. rewrite read_frame_csv, scan_lazy_csv by exact Hcsv.
    unfold csv_separator, sniff_delimiter. rewrite Hnone. split; reflexivity.
  - intros data Hsome. exists (sniff_lines (TextIO.readlines data)).
    split; [unfold sniff_delimiter; now rewrite Hsome|].
    split; [reflexivity|].
    split; [apply sniff_lines_candidate|].
    rewrite read_frame_csv, scan_lazy_csv by exact Hcsv.
    unfold csv_separator, sniff_delimiter. rewrite Hsome. split; reflexivity.
  - intros d. rewrite read_frame_csv, scan_lazy_csv by exact Hcsv.
    split; reflexivity.
Qed.

End Loaders.

Lemma loaders_dispatch_without_override_witness :
  In (detect_format (R := Demo.runtime) (U "notes.txt") None) supported_formats.
Proof.
  exact (proj1 (loaders_dispatch_without_override
                  (R := Demo.runtime) (L := DemoLazy.engine)
                  (U "notes.txt") None (or_introl eq_refl))).
Defined.

(** On the demo runtime: the file [a,b / 1,2] is read with the comma
    the sniffer finds in it. *)
Lemma loaders_csv_separator_witness :
  exists d,
    sniff_delimiter (only_file Demo.csv_file) (U "in.csv") = Ok d /\
    d = sniff_text (TextIO.decode Demo.csv_file) /\
    In d candidates /\
    read_frame (R := Demo.runtime) (only_file Demo.csv_file) (U "in.csv") None None 2048
      = @pl_read_csv Demo.runtime (only_file Demo.csv_file) (U "in.csv") d 2048 /\
    scan_lazy (R := Demo.runtime) (L := DemoLazy.engine)
        (only_file Demo.csv_file) (U "in.csv") None None
      = @pl_scan_csv DemoLazy.engine (only_file Demo.csv_file) (U "in.csv") d.
Proof.
  exact (proj1 (proj2 (loaders_csv_separator
                         (R := Demo.runtime) (L := DemoLazy.engine)
                         (only_file Demo.csv_file) (U "in.csv") None 2048 eq_refl))
               Demo.csv_file eq_refl).
Defined.

(** ** More on rendering *)

Section RenderingMore.

Context {R : Runtime}.

(** X6. The table [render_table] builds has the frame's column names
    as headers and a row of as many cells for each row it keeps. It
    keeps [min(max_rows, height)] rows for a bound that is not
    negative; for a negative bound [-k] it keeps all rows but the last
    [k] (none if there are no more than [k]). The call prints that
    table or raises and prints nothing; for a frame the engine can
    count it raises exactly when the table does not render as console
    markup. *)
Theorem render_table_row_count :
  forall (df : DataFrame) (max_rows max_width : Z) (title : option str)
         (w : world),
    let tbl := table_of df max_rows title in
    (tbl_title tbl = title /\
     tbl_columns tbl = columns df /\
     Z.of_nat (length (tbl_rows tbl)) =
       (if (max_rows <? 0)%Z then Z.max 0 (height df + max_rows)
        else Z.min max_rows (height df)) /\
     map (@length str) (tbl_rows tbl) =
       map (@length pyval) (firstn (length (tbl_rows tbl)) (rows df))) /\
    ((exists e, render_table df max_rows max_width title w = (w, Raise e)) \/
     render_table df max_rows max_width title w =
       (with_console w [RTable tbl (Some max_width)], Ok tt)) /\
    ((height df <= 2 ^ 64)%Z ->
     render_table df max_rows max_width title w =
       if renders (RTable tbl (Some max_width))
       then (with_console w [RTable tbl (Some max_width)], Ok tt)
       else (w, Raise MarkupError)).
Proof.
  intros df max_rows max_width title w tbl. split; [|split].
  - unfold tbl, table_of. cbn [tbl_title tbl_columns tbl_rows].
    split; [reflexivity|]. split; [reflexivity|].
    unfold rows_kept, height.
    set (k := Z.to_nat (if (max_rows <? 0)%Z
                        then Z.max 0 (Z.of_nat (length (rows df)) + max_rows)
                        else max_rows)).
    split.
    + rewrite length_map, length_firstn. unfold k.
      destruct (Z.ltb_spec max_rows 0); lia.
    + rewrite length_map, !map_map.
      assert (E : firstn (length (firstn k (rows df))) (rows df) = firstn k (rows df)).
      { rewrite length_firstn.
        destruct (Nat.le_ge_cases k (length (rows df))) as [Hk|Hk].
        - now rewrite Nat.min_l.
        - rewrite Nat.min_r by exact Hk.
          now rewrite firstn_all, firstn_all2. }
      rewrite E. apply map_ext. intros row. apply length_map.
  - destruct (render_table_cases df max_rows max_width title w)
      as [He | [_ Hrun]]; [now left | now right].
  - intros Hh. now apply render_table_run.
Qed.

End RenderingMore.

(** On the demo runtime: with a bound of -1 the three-row frame is
    shown without its last row; the frame whose cell reads as a
    closing tag is not shown at all. *)
Lemma render_table_row_count_witness :
  render_table (R := Demo.runtime) Demo.three_rows (-1) 120 None
    (fresh_world no_files 0) =
  (with_console (fresh_world no_files 0)
     [RTable {| tbl_title := None; tbl_columns := [U "a"];
                tbl_rows := [[U "1"]; [U "2"]] |} (Some 120%Z)], Ok tt) /\
  render_table (R := Demo.runtime) closing_tag_frame 20 120 None
    (fresh_world no_files 0) = (fresh_world no_files 0, Raise MarkupError).
Proof.
  split.
  - refine (proj2 (proj2 (render_table_row_count (R := Demo.runtime)
                            Demo.three_rows (-1) 120 None (fresh_world no_files 0)))
                  _).
    vm_compute. discriminate.
  - refine (proj2 (proj2 (render_table_row_count (R := Demo.runtime)
                            closing_tag_frame 20 120 None (fresh_world no_files 0)))
                  _).
    vm_compute. discriminate.
Defined.

(** ** More on [stats] *)

Section StatsMore.

Context {R : Runtime}.

Lemma stats_loaded (path : str) (topk : Z) (fmt delimiter : option str)
    (w : world) (df : DataFrame) :
  read_frame (fs w) path fmt delimiter 2048 = Ok df ->
  stats path topk fmt delimiter w = stats_frame df topk w.
Proof. intros H. unfold stats, bind, lift. now rewrite H. Qed.

(** The summary goes through [render_table] with the bound 20, which
    the engine takes whatever the size of the aggregate. *)
Lemma render_summary (s : DataFrame) (w : world) :
  render_table s 20 120 (Some numeric_summary_title) w =
  if renders (summary_table s)
  then (with_console w [summary_table s], Ok tt)
  else (w, Raise MarkupError).
Proof.
  rewrite render_table_unfold.
  assert (E : (if (20 <? height s)%Z then head s 20 else Ok s) =
              Ok {| columns := columns s; dtypes := dtypes s;
                    rows := firstn 20 (rows s) |}).
  { destruct (Z.ltb_spec 20 (height s)) as [Hlt|Hge]; [reflexivity|].
    unfold height in Hge. rewrite firstn_all2 by lia. now destruct s. }
  rewrite E. reflexivity.
Qed.

(** [stats_frame], print by print. *)
Lemma stats_frame_unfold (df : DataFrame) (topk : Z) (w : world) :
  stats_frame df topk w =
  match columns_where is_numeric_dtype df with
  | [] =>
    for_each (columns_where is_utf8_dtype df) (stats_topk df topk)
      (with_console w [no_numeric_notice])
  | c :: cs =>
    match df_numeric_summary df (c :: cs) with
    | Ok s =>
      if renders (summary_table s)
      then for_each (columns_where is_utf8_dtype df) (stats_topk df topk)
             (with_console w [summary_table s])
      else (w, Raise MarkupError)
    | Raise e => (w, Raise e)
    end
  end.
Proof.
  unfold stats_frame. destruct (columns_where is_numeric_dtype df) as [|c cs].
  - unfold bind. now rewrite (console_print_renders _ w no_numeric_notice_renders).
  - unfold bind, lift. destruct (df_numeric_summary df (c :: cs)) as [s|e];
      [|reflexivity].
    rewrite render_summary. now destruct (renders (summary_table s)).
Qed.

(** X7. On a frame with numeric columns [stats] first asks the engine
    for the aggregate: if that fails, the failure ends the command
    with nothing printed. Otherwise the numeric summary (cut to 20
    rows) is what is printed first, never the warning; if it does not
    render as console markup the command ends there with
    [MarkupError] and nothing printed. After the summary come, for a
    [--topk] of at least one, the top-k tables of the text columns as
    far as every column gets through its turn: all of them, and a
    normal end, when every text column does, and an error
    otherwise. *)
Theorem stats_with_numeric_columns :
  forall (path : str) (topk : Z) (fmt delimiter : option str)
         (w : world) (df : DataFrame),
    counts_contract ->
    read_frame (fs w) path fmt delimiter 2048 = Ok df ->
    columns_where is_numeric_dtype df <> [] ->
    (1 <= topk)%Z ->
    (forall e,
       df_numeric_summary df (columns_where is_numeric_dtype df) = Raise e ->
       stats path topk fmt delimiter w = (w, Raise e)) /\
    (forall s,
       df_numeric_summary df (columns_where is_numeric_dtype df) = Ok s ->
       (renders (summary_table s) = false ->
          stats path topk fmt delimiter w = (w, Raise MarkupError)) /\
       (renders (summary_table s) = true ->
          let text := columns_where is_utf8_dtype df in
          let tables :=
            map (topk_table df topk)
                (filter (has_value df) (take_while (topk_passes df topk) text)) in
          fst (stats path topk fmt delimiter w) =
            with_console w (summary_table s :: tables) /\
          ~ In no_numeric_notice (summary_table s :: tables) /\
          (forallb (topk_passes df topk) text = true ->
             stats path topk fmt delimiter w =
               (with_console w (summary_table s :: topk_tables df topk), Ok tt)) /\
          (forallb (topk_passes df topk) text = false ->
             exists e, outcome (stats path topk fmt delimiter) w = Raise e))).
Proof.
  intros path topk fmt delimiter w df Hc Hload Hnum Hk.
  rewrite (stats_loaded path topk fmt delimiter w df Hload).
  unfold outcome. rewrite (stats_loaded path topk fmt delimiter w df Hload).
  unfold stats_frame.
  destruct (columns_where is_numeric_dtype df) as [|c cs]; [contradiction|].
  unfold bind at 1 2 3 4 5. unfold bind at 1 2 3 4 5. unfold lift. split.
  - intros e ->. reflexivity.
  - intros s ->. rewrite render_summary. split.
    + intros ->. reflexivity.
    + intros ->. set (text := columns_where is_utf8_dtype df).
      destruct (stats_topk_loop df topk text Hc Hk
                  (with_console w [summary_table s])) as (r & Hloop & Hok & Hbad).
      rewrite Hloop, with_console_app.
      split; [reflexivity|]. split; [|split].
      * intros [H | H]; [discriminate|].
        apply in_map_iff in H as (x & Hx & _). discriminate.
      * intros Hall. rewrite (Hok Hall). unfold topk_tables.
        fold text. now rewrite (take_while_all _ _ Hall).
      * intros Hsome. exact (Hbad Hsome).
Qed.

(** Whatever a turn of the loop prints is a table within the two
    bounds. *)
Lemma stats_topk_bounded (df : DataFrame) (topk : Z) (c : str) (w : world) :
  exists extra r,
    stats_topk df topk c w = (with_console w extra, r) /\
    Forall (rows_at_most 20) extra /\
    ((0 <= topk)%Z -> Forall (rows_at_most (Z.to_nat topk)) extra).
Proof.
  assert (Hnone : forall r : result unit,
             exists extra r',
               (w, r) = (with_console w extra, r') /\
               Forall (rows_at_most 20) extra /\
               ((0 <= topk)%Z -> Forall (rows_at_most (Z.to_nat topk)) extra)).
  { intros r. exists [], r. rewrite with_console_nil.
    split; [reflexivity|]. split; [constructor | intros _; constructor]. }
  unfold stats_topk, bind, lift.
  destruct (value_counts_frame df c) as [counts|e]; [|apply Hnone].
  destruct (head counts topk) as [freq|e] eqn:Hhead; [|apply Hnone].
  destruct (negb (height freq =? 0)%Z); [|apply Hnone].
  destruct (render_table_cases freq 20 120 (Some (topk_title topk c)) w)
    as [[e ->] | [_ ->]]; [apply Hnone|].
  eexists. exists (Ok tt). split; [reflexivity|].
  assert (Hlen : (length (rows_kept freq 20) <= 20)%nat).
  { unfold rows_kept. change (20 <? 0)%Z with false. cbv iota.
    rewrite length_firstn. lia. }
  assert (Hle : (length (rows_kept freq 20) <= length (rows freq))%nat).
  { unfold rows_kept. rewrite length_firstn. lia. }
  split.
  - constructor; [|constructor]. cbn [rows_at_most table_of tbl_rows].
    now rewrite length_map.
  - intros Hk0. constructor; [|constructor].
    cbn [rows_at_most table_of tbl_rows]. rewrite length_map.
    unfold head in Hhead. destruct (Z.ltb_spec topk 0); [lia|].
    destruct (topk <? 2 ^ 64)%Z; [|discriminate].
    injection Hhead as <-. cbn [rows] in Hle. rewrite length_firstn in Hle. lia.
Qed.

Lemma stats_loop_bounded (df : DataFrame) (topk : Z) (cols : list str) :
  forall w,
    exists extra r,
      for_each cols (stats_topk df topk) w = (with_console w extra, r) /\
      Forall (rows_at_most 20) extra /\
      ((0 <= topk)%Z -> Forall (rows_at_most (Z.to_nat topk)) extra).
Proof.
  induction cols as [|c cols IH]; intros w.
  - exists [], (Ok tt). simpl. unfold ret. rewrite with_console_nil.
    split; [reflexivity|]. split; [constructor | intros _; constructor].
  - destruct (stats_topk_bounded df topk c w) as (e1 & r1 & H1 & B1 & K1).
    simpl for_each. unfold bind. rewrite H1. destruct r1 as [[]|e].
    + destruct (IH (with_console w e1)) as (e2 & r2 & H2 & B2 & K2).
      exists (e1 ++ e2), r2. rewrite H2, with_console_app.
      split; [reflexivity|].
      split; [now apply Forall_app | intros Hk; apply Forall_app; auto].
    + exists e1, (Raise e). split; [reflexivity|]. split; assumption.
Qed.

(** X8. No table of [stats] has more than 20 rows, whatever [--topk]
    is: the tables go through [render_table] with its default bound.
    A top-k table also has at most [topk] rows. *)
Theorem stats_tables_at_most_20_rows :
  forall (path : str) (topk : Z) (fmt delimiter : option str)
         (w : world) (df : DataFrame),
    read_frame (fs w) path fmt delimiter 2048 = Ok df ->
    exists extra,
      fst (stats path topk fmt delimiter w) = with_console w extra /\
      Forall (rows_at_most 20) extra /\
      ((0 <= topk)%Z ->
       Forall (fun r => table_title r <> Some numeric_summary_title ->
                        rows_at_most (Z.to_nat topk) r) extra).
Proof.
  intros path topk fmt delimiter w df Hload.
  rewrite (stats_loaded path topk fmt delimiter w df Hload).
  unfold stats_frame.
  destruct (columns_where is_numeric_dtype df) as [|c cs].
  - unfold bind. rewrite (console_print_renders _ w no_numeric_notice_renders).
    destruct (stats_loop_bounded df topk (columns_where is_utf8_dtype df)
                (with_console w [no_numeric_notice])) as (e & r & He & B & K).
    rewrite He, with_console_app. exists ([no_numeric_notice] ++ e).
    split; [reflexivity|]. split.
    + apply Forall_app. split; [repeat constructor | exact B].
    + intros Hk. apply Forall_app. split.
      * constructor; [intros _; exact I | constructor].
      * eapply Forall_impl; [|exact (K Hk)]. auto.
  - unfold bind at 1 2. unfold lift.
    destruct (df_numeric_summary df (c :: cs)) as [s|e].
    + rewrite render_summary. destruct (renders (summary_table s)).
      * destruct (stats_loop_bounded df topk (columns_where is_utf8_dtype df)
                    (with_console w [summary_table s])) as (e & r & He & B & K).
        rewrite He, with_console_app. exists ([summary_table s] ++ e).
        split; [reflexivity|]. split.
        -- apply Forall_app. split; [|exact B].
           constructor; [|constructor]. cbn [rows_at_most summary_table tbl_rows].
           rewrite length_map, length_firstn. lia.
        -- intros Hk. apply Forall_app. split.
           ++ constructor; [|constructor]. intros Hne. exfalso. now apply Hne.
           ++ eapply Forall_impl; [|exact (K Hk)]. auto.
      * exists []. simpl. rewrite with_console_nil.
        split; [reflexivity|]. split; [constructor | intros _; constructor].
    + exists []. simpl. rewrite with_console_nil.
      split; [reflexivity|]. split; [constructor | intros _; constructor].
Qed.

(** With a bound of zero a turn of the loop prints nothing; it fails
    only if the engine's count does. *)
Lemma stats_loop_zero (df : DataFrame) (cols : list str) (w : world) :
  exists r,
    for_each cols (stats_topk df 0) w = (w, r) /\
    ((forall c, In c cols ->
        exists groups, df_value_counts c (values_of df c) = Ok groups) ->
     r = Ok tt).
Proof.
  induction cols as [|c cols IH].
  - exists (Ok tt). split; reflexivity.
  - simpl for_each. unfold bind, stats_topk at 1, bind, lift.
    unfold value_counts_frame. fold (values_of df c).
    destruct (df_value_counts c (values_of df c)) as [groups|e] eqn:Hg.
    + cbn. destruct IH as (r & -> & Hr). exists r. split; [reflexivity|].
      intros Hall. apply Hr. intros c' Hc'. apply Hall. now right.
    + exists (Raise e). split; [reflexivity|]. intros Hall.
      destruct (Hall c (or_introl eq_refl)) as [groups Hgroups]. congruence.
Qed.

(** X9. With [--topk 0] no top-k table is printed: whatever happens,
    the output is nothing, the warning alone or the numeric summary
    alone. Once that first print is made, the command ends normally if
    the engine counts the values of every text column. *)
Theorem stats_topk_zero :
  forall (path : str) (fmt delimiter : option str) (w : world) (df : DataFrame),
    read_frame (fs w) path fmt delimiter 2048 = Ok df ->
    exists extra,
      fst (stats path 0 fmt delimiter w) = with_console w extra /\
      (extra = [] \/ extra = [no_numeric_notice] \/
       exists s, extra = [summary_table s]) /\
      ((forall c, In c (columns_where is_utf8_dtype df) ->
          exists groups, df_value_counts c (values_of df c) = Ok groups) ->
       extra <> [] ->
       outcome (stats path 0 fmt delimiter) w = Ok tt).
Proof.
  intros path fmt delimiter w df Hload. unfold outcome.
  rewrite (stats_loaded path 0 fmt delimiter w df Hload), stats_frame_unfold.
  assert (Hnone : forall e : exn,
            exists extra,
              fst (w, @Raise unit e) = with_console w extra /\
              (extra = [] \/ extra = [no_numeric_notice] \/
               exists s, extra = [summary_table s]) /\
              ((forall c, In c (columns_where is_utf8_dtype df) ->
                  exists groups, df_value_counts c (values_of df c) = Ok groups) ->
               extra <> [] -> snd (w, @Raise unit e) = Ok tt)).
  { intros e. exists []. rewrite with_console_nil.
    split; [reflexivity|]. split; [now left|]. intros _ H. now contradiction H. }
  destruct (columns_where is_numeric_dtype df) as [|c cs].
  - destruct (stats_loop_zero df (columns_where is_utf8_dtype df)
                (with_console w [no_numeric_notice])) as (r & -> & Hr).
    exists [no_numeric_notice]. split; [reflexivity|].
    split; [right; now left|]. intros Hall _. exact (Hr Hall).
  - destruct (df_numeric_summary df (c :: cs)) as [s|e]; [|apply Hnone].
    destruct (renders (summary_table s)); [|apply Hnone].
    destruct (stats_loop_zero df (columns_where is_utf8_dtype df)
                (with_console w [summary_table s])) as (r & -> & Hr).
    exists [summary_table s]. split; [reflexivity|].
    split; [right; right; now exists s|]. intros Hall _. exact (Hr Hall).
Qed.

End StatsMore.

Lemma demo_typed_counts_contract : counts_contract (R := DemoTyped.runtime).
Proof. exact demo_counts_contract. Qed.

(** A frame with one numeric column: the summary comes first, then the
    table of the text column. *)
Lemma stats_with_numeric_columns_witness :
  let w := fresh_world (only_file Demo.csv_file) 0 in
  exists s,
    stats (R := DemoTyped.runtime) (U "s.csv") 5 None None w =
    (with_console w
       (summary_table (R := DemoTyped.runtime) s
        :: topk_tables (R := DemoTyped.runtime) DemoTyped.scores 5), Ok tt).
Proof.
  intros w.
  destruct (stats_with_numeric_columns (R := DemoTyped.runtime) (U "s.csv") 5
              None None w DemoTyped.scores demo_typed_counts_contract eq_refl
              ltac:(discriminate) ltac:(lia)) as [_ Hok].
  eexists.
  exact (proj1 (proj2 (proj2 (proj2 (Hok _ eq_refl) eq_refl))) eq_refl).
Defined.

Lemma stats_tables_at_most_20_rows_witness :
  let w := fresh_world (only_file Demo.names_file) 0 in
  exists extra,
    fst (stats (R := Demo.runtime) (U "n.csv") 50 None None w) = with_console w extra /\
    Forall (rows_at_most 20) extra.
Proof.
  intros w.
  destruct (stats_tables_at_most_20_rows (R := Demo.runtime) (U "n.csv") 50
              None None w Demo.names eq_refl) as (extra & H1 & H2 & _).
  exists extra. split; assumption.
Defined.

(** On the demo runtime: the file with the columns [name] and [city]
    gets the warning and nothing else, and the command ends
    normally. *)
Lemma stats_topk_zero_witness :
  let w := fresh_world (only_file Demo.names_file) 0 in
  exists extra,
    fst (stats (R := Demo.runtime) (U "n.csv") 0 None None w)
      = with_console w extra /\
    (extra = [] \/ extra = [no_numeric_notice] \/
     exists s, extra = [summary_table (R := Demo.runtime) s]) /\
    (extra <> [] ->
     outcome (stats (R := Demo.runtime) (U "n.csv") 0 None None) w = Ok tt).
Proof.
  intros w.
  destruct (stats_topk_zero (R := Demo.runtime) (U "n.csv") None None w
              Demo.names eq_refl) as (extra & Hrun & Hshape & Hend).
  exists extra. split; [exact Hrun|]. split; [exact Hshape|].
  apply Hend. intros c Hc. vm_compute in Hc.
  destruct Hc as [<- | [<- | []]]; eexists; vm_compute; reflexivity.
Defined.

(** ** Failing loads *)

Section FailingLoads.

Context {R : Runtime} {L : LazyEngine}.

(** X10. A command that cannot load its input prints nothing and writes
    nothing: the loader's error comes out of [stats], [sample] and
    [convert] with the world as it was, and out of [show] when the scan
    fails. [convert] always loads its source without a delimiter. *)
Theorem failed_load_leaves_world :
  forall (path : str) (fmt delimiter : option str) (w : world) (e : exn),
    (read_frame (fs w) path fmt delimiter 2048 = Raise e ->
       (forall topk, stats path topk fmt delimiter w = (w, Raise e)) /\
       (forall n seed, sample path n seed fmt delimiter w = (w, Raise e))) /\
    (read_frame (fs w) path fmt None 2048 = Raise e ->
       forall dst fmt_dst, convert path dst fmt fmt_dst delimiter w = (w, Raise e)) /\
    (scan_lazy (fs w) path fmt delimiter = Raise e ->
       forall rows cols, show path rows cols fmt delimiter w = (w, Raise e)).
Proof.
  intros path fmt delimiter w e. split; [|split].
  - intros H. split; intros; [unfold stats | unfold sample];
      unfold bind, lift; now rewrite H.
  - intros H dst fmt_dst. unfold convert, bind, lift. now rewrite H.
  - intros H rows cols. unfold show, bind, lift. now rewrite H.
Qed.

End FailingLoads.

Lemma failed_load_leaves_world_witness :
  let w := fresh_world no_files 0 in
  convert (R := Demo.runtime) (U "gone.csv") (U "out.parquet") None None
    (Some (U ";")) w = (w, Raise (OSError (U "gone.csv"))) /\
  show (R := Demo.runtime) (L := DemoLazy.engine) (U "gone.csv") 5 None None None w
    = (w, Raise (OSError (U "gone.csv"))).
Proof.
  intros w.
  pose proof (failed_load_leaves_world (R := Demo.runtime) (L := DemoLazy.engine)
                (U "gone.csv") None (Some (U ";")) w (OSError (U "gone.csv")))
    as (_ & Hconvert & _).
  pose proof (failed_load_leaves_world (R := Demo.runtime) (L := DemoLazy.engine)
                (U "gone.csv") None None w (OSError (U "gone.csv")))
    as (_ & _ & Hshow).
  split; [exact (Hconvert eq_refl _ _) | exact (Hshow eq_refl _ _)].
Defined.

(** ** More on [convert] *)

Section ConvertMore.

Context {R : Runtime}.

(** X11. [--delimiter] is the separator of a csv output and nothing
    else: for a destination that is not csv the command runs the same
    whatever the delimiter, and an empty delimiter is the same as
    none. *)
Theorem convert_delimiter_output_only :
  forall (src dst : str) (fmt_src fmt_dst delimiter : option str) (w : world),
    (out_format dst fmt_dst <> U "csv" ->
       convert src dst fmt_src fmt_dst delimiter w =
       convert src dst fmt_src fmt_dst None w) /\
    convert src dst fmt_src fmt_dst (Some []) w =
      convert src dst fmt_src fmt_dst None w /\
    (out_format dst fmt_dst = U "csv" ->
       forall df, read_frame (fs w) src fmt_src None 2048 = Ok df ->
         convert src dst fmt_src fmt_dst None w =
         (write_with (df_write_csv df dst (U ",")) ;;;
          console_print (wrote_notice dst)) w).
Proof.
  intros src dst fmt_src fmt_dst delimiter w. split; [|split].
  - intros Hne. apply str_eqb_neq in Hne. unfold convert, bind, lift.
    destruct (read_frame (fs w) src fmt_src None 2048) as [df|e]; [|reflexivity].
    now rewrite Hne.
  - reflexivity.
  - intros Hcsv df Hload. unfold convert, bind, lift. rewrite Hload, Hcsv.
    reflexivity.
Qed.



(** X13. A destination path without an extension and no [--to-format]
    resolves to the empty format: [convert] refuses it with status 2
    and writes nothing. *)
Theorem convert_destination_without_extension :
  forall (src dst : str) (fmt_src fmt_dst delimiter : option str)
         (w : world) (df : DataFrame),
    read_frame (fs w) src fmt_src None 2048 = Ok df ->
    snd (splitext dst) = [] ->
    fmt_dst = None \/ fmt_dst = Some [] ->
    out_format dst fmt_dst = [] /\
    convert src dst fmt_src fmt_dst delimiter w =
      (with_console w [unsupported_destination []], Raise (Exit 2)).
Proof.
  intros src dst fmt_src fmt_dst delimiter w df Hload Hext Hfmt.
  assert (E : out_format dst fmt_dst = []).
  { rewrite out_format_extension by exact Hfmt. rewrite Hext. reflexivity. }
  split; [exact E|].
  rewrite (convert_unsupported src dst fmt_src fmt_dst delimiter w df Hload);
    rewrite E; [reflexivity| |].
  - vm_compute. intuition discriminate.
  - apply unsupported_destination_renders. intros [].
Qed.

End ConvertMore.

Lemma convert_delimiter_output_only_witness :
  let w := fresh_world (only_file Demo.csv_file) 0 in
  convert (R := Demo.runtime) (U "in.csv") (U "out.pq") None None (Some (U ";")) w =
  convert (R := Demo.runtime) (U "in.csv") (U "out.pq") None None None w.
Proof.
  intros w.
  refine (proj1 (convert_delimiter_output_only (R := Demo.runtime)
                   (U "in.csv") (U "out.pq") None None (Some (U ";")) w) _).
  vm_compute. discriminate.
Defined.


Lemma convert_destination_without_extension_witness :
  let w := fresh_world (only_file Demo.csv_file) 0 in
  convert (R := Demo.runtime) (U "in.csv") (U "backup/.hidden") None None None w =
  (with_console w [unsupported_destination []], Raise (Exit 2)).
Proof.
  intros w.
  exact (proj2 (convert_destination_without_extension (R := Demo.runtime)
                  (U "in.csv") (U "backup/.hidden") None None None w
                  Demo.csv_frame eq_refl eq_refl (or_introl eq_refl))).
Defined.

(** ** [show]: the column list *)

Lemma dropwhile_In (p : char -> bool) (s : str) (x : char) :
  In x (dropwhile p s) -> In x s.
Proof.
  induction s as [|c r IH]; simpl; [tauto|].
  destruct (p c); [intros H; right; auto | simpl; tauto].
Qed.

Lemma dropwhile_head (p : char -> bool) (s : str) (c : char) (r : str) :
  dropwhile p s = c :: r -> p c = false.
Proof.
  induction s as [|x t IH]; simpl; [discriminate|].
  destruct (p x) eqn:E; [exact IH|]. intros H. injection H as -> _. exact E.
Qed.

Lemma dropwhile_idem (p : char -> bool) (s : str) :
  dropwhile p (dropwhile p s) = dropwhile p s.
Proof.
  destruct (dropwhile p s) as [|c r] eqn:E; [reflexivity|].
  simpl. now rewrite (dropwhile_head p s c r E).
Qed.

Lemma dropwhile_split (p : char -> bool) (s : str) :
  exists pre, s = pre ++ dropwhile p s /\ forallb p pre = true.
Proof.
  induction s as [|c r (pre & E & Hpre)]; [exists []; auto|].
  simpl. destruct (p c) eqn:Hc.
  - exists (c :: pre). simpl. rewrite Hc, Hpre. split; [now f_equal | reflexivity].
  - exists []. auto.
Qed.

Lemma strip_In (s : str) (x : char) : In x (strip s) -> In x s.
Proof.
  unfold strip, rstrip_ws, lstrip_ws. intros H.
  apply in_rev, dropwhile_In, in_rev in H. revert H. apply dropwhile_In. 
Qed.

(** Trimming twice is trimming once. *)
Lemma strip_idem (s : str) : strip (strip s) = strip s.
Proof.
  unfold strip, rstrip_ws, lstrip_ws.
  set (a := dropwhile isspace s).
  set (d := dropwhile isspace (rev a)).
  assert (Hl : dropwhile isspace (rev d) = rev d).
  { destruct (dropwhile_split isspace (rev a)) as (pre & E & _). fold d in E.
    assert (Ea : a = rev d ++ rev pre)
      by (rewrite <- rev_app_distr, <- E; now rewrite rev_involutive).
    destruct (rev d) as [|x b'] eqn:Eb; [reflexivity|].
    simpl. replace (isspace x) with false; [reflexivity|].
    symmetry. apply (dropwhile_head isspace s x (b' ++ rev pre)).
    fold a. rewrite Ea. reflexivity. }
  rewrite Hl, rev_involutive. unfold d. now rewrite dropwhile_idem.
Qed.

Lemma split_acc_no_sep (sep : char) (s cur : str) :
  ~ In sep cur -> Forall (fun p => ~ In sep p) (split_acc sep cur s).
Proof.
  revert cur. induction s as [|c r IH]; intros cur Hcur; simpl.
  - constructor; [|constructor]. now rewrite <- in_rev.
  - destruct (N.eqb_spec c sep) as [->|Hne].
    + constructor; [now rewrite <- in_rev | apply IH; intros []].
    + apply IH. intros [H|H]; [congruence | contradiction].
Qed.

Lemma split_acc_all (sep : char) (p : char -> bool) (s cur : str) :
  forallb p cur = true ->
  Forall (fun c => c = sep \/ p c = true) s ->
  Forall (fun part => forallb p part = true) (split_acc sep cur s).
Proof.
  intros Hcur Hs. revert cur Hcur.
  induction Hs as [|c r Hc _ IH]; intros cur Hcur; simpl.
  - constructor; [|constructor]. rewrite forallb_forall in *.
    intros x Hx. apply Hcur. now apply in_rev.
  - destruct (N.eqb_spec c sep) as [->|Hne].
    + constructor; [|now apply IH].
      rewrite forallb_forall in *. intros x Hx. apply Hcur. now apply in_rev.
    + apply IH. simpl. destruct Hc as [Hc|Hc]; [contradiction|].
      now rewrite Hc, Hcur.
Qed.

Lemma split_acc_app (sep : char) (p rest cur : str) :
  ~ In sep p ->
  split_acc sep cur (p ++ sep :: rest) = (rev cur ++ p) :: split_acc sep [] rest.
Proof.
  revert cur. induction p as [|c r IH]; intros cur Hp; simpl.
  - rewrite N.eqb_refl, app_nil_r. reflexivity.
  - destruct (N.eqb_spec c sep) as [->|Hne]; [exfalso; apply Hp; now left|].
    rewrite IH by (intros H; apply Hp; now right).
    simpl. now rewrite <- app_assoc.
Qed.

Lemma split_acc_last (sep : char) (p cur : str) :
  ~ In sep p -> split_acc sep cur p = [rev cur ++ p].
Proof.
  revert cur. induction p as [|c r IH]; intros cur Hp; simpl.
  - now rewrite app_nil_r.
  - destruct (N.eqb_spec c sep) as [->|Hne]; [exfalso; apply Hp; now left|].
    rewrite IH by (intros H; apply Hp; now right).
    simpl. now rewrite <- app_assoc.
Qed.

(** Splitting what was joined gives the parts back. *)
Lemma split_join (sep : char) (parts : list str) :
  parts <> [] -> Forall (fun p => ~ In sep p) parts ->
  split sep (str_join [sep] parts) = parts.
Proof.
  unfold split. induction parts as [|p r IH]; [contradiction|].
  intros _ H. inversion H as [|? ? Hp Hr]; subst.
  destruct r as [|q r'].
  - simpl. now rewrite split_acc_last.
  - change (str_join [sep] (p :: q :: r')) with (p ++ sep :: str_join [sep] (q :: r')).
    rewrite split_acc_app by exact Hp. simpl rev. simpl app at 1.
    f_equal. apply IH; [discriminate | exact Hr].
Qed.

Lemma isspace_not_comma (s : str) : forallb isspace s = true -> ~ In COMMA s.
Proof.
  intros H Hin. rewrite forallb_forall in H. specialize (H _ Hin). discriminate.
Qed.

(** X14. Every name [show] selects is a trimmed, non-empty piece of
    [--cols] without a comma; a [--cols] of commas and whitespace only
    selects no name at all. *)
Theorem selected_columns_tokens :
  forall cols : str,
    Forall column_token (selected_columns cols) /\
    (Forall (fun c => c = COMMA \/ isspace c = true) cols ->
       selected_columns cols = []).
Proof.
  intros cols. unfold selected_columns. split.
  - apply Forall_forall. intros n Hn.
    apply in_map_iff in Hn as (p & <- & Hp). apply filter_In in Hp as [Hp Ht].
    pose proof (split_acc_no_sep COMMA cols [] (fun H => H)) as Hsep.
    rewrite Forall_forall in Hsep. specialize (Hsep p Hp).
    split; [now apply truthy_nonempty|]. split; [apply strip_idem|].
    intros Hin. apply Hsep. now apply strip_In.
  - intros Hall.
    pose proof (split_acc_all COMMA isspace cols [] eq_refl Hall) as Hparts.
    fold (split COMMA cols) in Hparts.
    induction Hparts as [|p r Hp _ IH]; [reflexivity|].
    simpl. rewrite (strip_all_space p Hp). simpl. exact IH.
Qed.

Lemma strip_padded_all (typed : list (str * str * str)) :
  Forall padding_ok typed ->
  map strip (filter (fun c => truthy (strip c)) (map padded typed)) =
  map (fun t => snd (fst t)) typed.
Proof.
  induction 1 as [|t r (Hpre & Hpost & Hne & Hstrip & Hcomma) _ IH];
    [reflexivity|].
  assert (Es : strip (padded t) = snd (fst t)).
  { unfold padded. rewrite (strip_padding _ _ _ Hpre Hpost). exact Hstrip. }
  cbn [map filter]. rewrite Es.
  destruct (snd (fst t)) eqn:E; [contradiction|].
  cbn [truthy map]. now rewrite Es, IH.
Qed.

(** X15. What is typed is what is selected: for names separated by
    commas, each with any whitespace around it, [show] selects exactly
    these names, in the order typed. *)
Theorem selected_columns_round_trip :
  forall typed : list (str * str * str),
    Forall padding_ok typed ->
    selected_columns (str_join [COMMA] (map padded typed)) =
    map (fun t => snd (fst t)) typed.
Proof.
  intros typed Hok. unfold selected_columns.
  destruct typed as [|t0 r0]; [reflexivity|].
  rewrite split_join.
  - now apply strip_padded_all.
  - discriminate.
  - apply Forall_forall. intros p Hp. apply in_map_iff in Hp as (t & <- & Ht).
    rewrite Forall_forall in Hok. destruct (Hok t Ht) as (Hpre & Hpost & _ & _ & Hc).
    unfold padded. intros Hin.
    apply in_app_or in Hin as [Hin | Hin];
      [exact (isspace_not_comma _ Hpre Hin)|].
    apply in_app_or in Hin as [Hin | Hin];
      [exact (Hc Hin) | exact (isspace_not_comma _ Hpost Hin)].
Qed.

Lemma selected_columns_tokens_witness :
  selected_columns ([COMMA] ++ U " " ++ [COMMA; TAB; COMMA]) = [].
Proof.
  refine (proj2 (selected_columns_tokens _) _).
  repeat (apply Forall_cons; [first [left; reflexivity | right; reflexivity]|]).
  apply Forall_nil.
Defined.

Lemma selected_columns_round_trip_witness :
  selected_columns (U " id ,name,  city") = [U "id"; U "name"; U "city"].
Proof.
  refine (selected_columns_round_trip
            [(U " ", U "id", U " "); ([], U "name", []); (U "  ", U "city", [])] _).
  repeat constructor; vm_compute; try reflexivity; try discriminate;
    intuition discriminate.
Defined.

(** ** [show] *)

Section ShowMore.

Context {R : Runtime} {L : LazyEngine}.

(** The selection step of [show], run. *)
Lemma show_selection_run (cols : option str) (lf : LazyFrame) (w : world) :
  match cols with
  | Some c => if truthy c
              then lift (fun _ => lf_select lf (selected_columns c))
              else ret lf
  | None => ret lf
  end w =
  (w, match cols with
      | Some c => if truthy c then lf_select lf (selected_columns c) else Ok lf
      | None => Ok lf
      end).
Proof. destruct cols as [c|]; [destruct (truthy c)|]; reflexivity. Qed.

(** X16. [show] prints either nothing or two things: once the file is
    scanned, a failing selection or fetch ends the command with the
    console as it was, and so does a table that cannot be printed;
    otherwise the table of the fetched frame, cut to [--rows] rows, is
    followed by the count line, which reports the height of the
    fetched frame and always renders. For a fetched frame the engine
    can count, the table is printed exactly when it renders as console
    markup. [--cols] is used only when it is not empty. *)
Theorem show_prints_table_then_count :
  forall (path : str) (n : Z) (cols fmt delimiter : option str)
         (w : world) (lf : LazyFrame),
    scan_lazy (fs w) path fmt delimiter = Ok lf ->
    let selection :=
      match cols with
      | Some c => if truthy c then lf_select lf (selected_columns c) else Ok lf
      | None => Ok lf
      end in
    (forall e, selection = Raise e ->
       show path n cols fmt delimiter w = (w, Raise e)) /\
    (forall lf', selection = Ok lf' ->
       (forall e, lf_fetch lf' n = Raise e ->
          show path n cols fmt delimiter w = (w, Raise e)) /\
       (forall df, lf_fetch lf' n = Ok df ->
          ((exists e, show path n cols fmt delimiter w = (w, Raise e)) \/
           show path n cols fmt delimiter w =
             (with_console w [preview_table df n path; rows_shown_line df],
              Ok tt)) /\
          ((height df <= 2 ^ 64)%Z ->
           show path n cols fmt delimiter w =
             if renders (preview_table df n path)
             then (with_console w [preview_table df n path; rows_shown_line df],
                   Ok tt)
             else (w, Raise MarkupError)) /\
          ((0 <= n)%Z -> rows_at_most (Z.to_nat n) (preview_table df n path)))).
Proof.
  intros path n cols fmt delimiter w lf Hscan selection.
  assert (Hrun : show path n cols fmt delimiter w =
                 match selection with
                 | Raise e => (w, Raise e)
                 | Ok lf' =>
                   match lf_fetch lf' n with
                   | Raise e => (w, Raise e)
                   | Ok df =>
                     match render_table df n 120 (Some (preview_title path)) w with
                     | (w', Ok _) => (with_console w' [rows_shown_line df], Ok tt)
                     | (w', Raise e) => (w', Raise e)
                     end
                   end
                 end).
  { unfold show. unfold bind at 1. unfold lift at 1. rewrite Hscan.
    unfold bind at 1. rewrite show_selection_run. fold selection.
    destruct selection as [lf'|e]; [|reflexivity].
    unfold bind at 1. unfold lift. destruct (lf_fetch lf' n) as [df|e];
      [|reflexivity].
    unfold bind.
    destruct (render_table df n 120 (Some (preview_title path)) w) as [w' [[]|e]];
      [|reflexivity].
    apply console_print_renders, rows_shown_line_renders. }
  rewrite Hrun. split.
  - intros e ->. reflexivity.
  - intros lf' ->. split.
    + intros e ->. reflexivity.
    + intros df ->. fold (preview_table df n path). split; [|split].
      * destruct (render_table_cases df n 120 (Some (preview_title path)) w)
          as [[e ->] | [_ ->]].
        -- left. now exists e.
        -- right. now rewrite with_console_app.
      * intros Hh. rewrite (render_table_run df n 120 _ w Hh).
        fold (preview_table df n path).
        destruct (renders (preview_table df n path)); [|reflexivity].
        now rewrite with_console_app.
      * intros Hn. unfold preview_table, table_of. cbn [rows_at_most tbl_rows].
        rewrite rows_kept_nonneg by exact Hn.
        rewrite length_map, length_firstn. lia.
Qed.

End ShowMore.

(** On the demo runtime: two rows of the three-row file, with the
    column picked by [--cols]; and of the file whose cell reads as a
    closing tag nothing is shown. *)
Lemma show_prints_table_then_count_witness :
  let w := fresh_world (only_file Demo.three_rows_file) 0 in
  let df := {| columns := [U "a"]; dtypes := [Utf8];
               rows := [[PyStr (U "1")]; [PyStr (U "2")]] |} in
  show (R := Demo.runtime) (L := DemoLazy.engine) (U "d.csv") 2 (Some (U " a ,"))
    None None w =
  (with_console w
     [preview_table (R := Demo.runtime) df 2 (U "d.csv"); rows_shown_line df],
   Ok tt) /\
  show (R := Demo.runtime) (L := DemoLazy.engine) (U "d.csv") 2 None None None
    (fresh_world (only_file closing_tag_file) 0) =
  (fresh_world (only_file closing_tag_file) 0, Raise MarkupError).
Proof.
  intros w df.
  pose proof (show_prints_table_then_count (R := Demo.runtime) (L := DemoLazy.engine)
                (U "d.csv") 2 (Some (U " a ,")) None None w Demo.three_rows
                eq_refl) as (_ & Hok).
  pose proof (show_prints_table_then_count (R := Demo.runtime) (L := DemoLazy.engine)
                (U "d.csv") 2 None None None
                (fresh_world (only_file closing_tag_file) 0) closing_tag_frame
                eq_refl) as (_ & Hbad).
  split.
  - refine (proj1 (proj2 (proj2 (Hok Demo.three_rows eq_refl) df eq_refl)) _).
    vm_compute. discriminate.
  - refine (proj1 (proj2 (proj2 (Hbad closing_tag_frame eq_refl)
                            closing_tag_frame eq_refl)) _).
    vm_compute. discriminate.
Defined.

(** ** [schema] and [columns] *)

Lemma dict_get_set (d : dict) (k k' : str) (v default : Z) :
  dict_get (dict_set d k v) k' default =
  if str_eqb k k' then v else dict_get d k' default.
Proof.
  induction d as [|[k0 v0] r IH]; simpl.
  - reflexivity.
  - destruct (str_eqb k0 k) eqn:E0; simpl.
    + apply str_eqb_eq in E0. subst k0. destruct (str_eqb k k'); reflexivity.
    + rewrite IH. destruct (str_eqb k0 k') eqn:E1; [|reflexivity].
      apply str_eqb_eq in E1. subst k0.
      destruct (str_eqb k k') eqn:E2; [|reflexivity].
      apply str_eqb_eq in E2. subst k'. apply str_eqb_neq in E0. congruence.
Qed.

Lemma dict_of_pairs_other (pairs : list (str * Z)) (k : str) (default : Z) :
  forall d,
    ~ In k (map fst pairs) ->
    dict_get (fold_left (fun d kv => dict_set d (fst kv) (snd kv)) pairs d) k default
    = dict_get d k default.
Proof.
  induction pairs as [|[k0 v0] r IH]; intros d Hk; [reflexivity|].
  simpl. rewrite IH by (intros H; apply Hk; now right).
  rewrite dict_get_set.
  destruct (str_eqb k0 k) eqn:E; [|reflexivity].
  apply str_eqb_eq in E. exfalso. apply Hk. now left.
Qed.

(** Looking up a key of a dict built from pairs with distinct keys
    gives the value it was paired with. *)
Lemma dict_of_pairs_get (pairs : list (str * Z)) (k : str) (v default : Z) :
  NoDup (map fst pairs) -> In (k, v) pairs ->
  dict_get (dict_of_pairs pairs) k default = v.
Proof.
  unfold dict_of_pairs. generalize (@nil (str * Z)) as d.
  induction pairs as [|[k0 v0] r IH]; intros d Hnd Hin; [contradiction|].
  simpl in Hnd. inversion Hnd as [|? ? Hk0 Hr]; subst.
  destruct Hin as [E | Hin].
  - injection E as -> ->. simpl.
    rewrite dict_of_pairs_other by exact Hk0.
    rewrite dict_get_set. now rewrite (proj2 (str_eqb_eq k k) eq_refl).
  - simpl. now apply IH.
Qed.

Lemma nth_error_combine {A B} (l1 : list A) (l2 : list B) (i : nat) (a : A) (b : B) :
  nth_error l1 i = Some a -> nth_error l2 i = Some b ->
  nth_error (combine l1 l2) i = Some (a, b).
Proof.
  revert l2 i. induction l1 as [|x r IH]; intros l2 i H1 H2.
  - destruct i; discriminate.
  - destruct l2 as [|y r2]; [destruct i; discriminate|].
    destruct i as [|i]; simpl in *; [congruence | now apply IH].
Qed.

Lemma map_fst_combine {A B} (l1 : list A) (l2 : list B) :
  length l1 = length l2 -> map fst (combine l1 l2) = l1.
Proof.
  revert l2. induction l1 as [|x r IH]; intros [|y r2] H; simpl in *;
    try discriminate; [reflexivity|]. f_equal. apply IH. lia.
Qed.

Lemma null_count_row_nth (df : DataFrame) (i : nat) :
  (i < length (columns df))%nat ->
  nth_error (null_count_row df) i = Some (null_cells (column_at df i)).
Proof.
  intros Hi. unfold null_count_row.
  rewrite nth_error_map, nth_error_seq.
  apply Nat.ltb_lt in Hi. now rewrite Hi.
Qed.

Section SchemaMore.

Context {R : Runtime} {L : LazyEngine}.

(** X17. For a frame with distinct column names [schema] lists the
    columns in order, each with its type and the number of null cells
    of that very column. *)
Theorem schema_meta_null_counts :
  forall (df : DataFrame) (i : nat) (name : str) (dt : dtype),
    NoDup (columns df) ->
    nth_error (columns df) i = Some name ->
    nth_error (dtypes df) i = Some dt ->
    nth_error (schema_meta df) i =
      Some (name, schema_entry dt (null_cells (column_at df i))).
Proof.
  intros df i name dt Hnd Hname Hdt. unfold schema_meta. cbv zeta.
  rewrite nth_error_map, (nth_error_combine _ _ i name dt Hname Hdt).
  cbn [option_map fst snd]. unfold schema_entry.
  replace (dict_get (dict_of_pairs (combine (columns df) (null_count_row df)))
             name 0)
    with (null_cells (column_at df i)); [reflexivity|]. symmetry.
  assert (Hi : (i < length (columns df))%nat)
    by (apply nth_error_Some; congruence).
  assert (Hlen : length (columns df) = length (null_count_row df)).
  { unfold null_count_row. now rewrite length_map, length_seq. }
  apply dict_of_pairs_get.
  - now rewrite map_fst_combine.
  - apply (nth_error_In _ i). apply nth_error_combine; [exact Hname|].
    now apply null_count_row_nth.
Qed.

(** [print_kv] returns the rule and the table, or raises
    [MarkupError]. *)
Lemma print_kv_cases (title : str) (pairs : list (str * str)) :
  print_kv title pairs =
    Ok [KVRule (U "[bold]" ++ title ++ U "[/bold]");
        KVTable (map (fun kv => [fst kv; snd kv]) pairs)] \/
  print_kv title pairs = Raise MarkupError.
Proof.
  unfold print_kv. cbv zeta.
  destruct (forallb markup_ok (kv_texts (KVRule _))); [|now right].
  destruct (forallb markup_ok (kv_texts (KVTable _))); [now left | now right].
Qed.

Lemma print_kv_rows (title : str) (pairs : list (str * str))
    (out : list kv_renderable) :
  print_kv title pairs = Ok out ->
  kv_rows_of out = map (fun kv => [fst kv; snd kv]) pairs.
Proof.
  intros H. destruct (print_kv_cases title pairs) as [E | E];
    rewrite E in H; [|discriminate].
  injection H as <-. cbn. now rewrite app_nil_r.
Qed.

(** X18. [schema] and [columns] load the file in the same way, and a
    load that fails ends both with the same error. On a frame they
    hand [print_kv] the same names in the same order (all the column
    names, with their types, when every column has a type), so that
    when both print, the first cells of the rows they print are the
    same. *)
Theorem schema_and_columns_agree :
  forall (files : filesystem) (path : str) (fmt delimiter : option str),
    (forall e, read_frame files path fmt delimiter 10000 = Raise e ->
       schema files path fmt delimiter = Raise e /\
       columns_cmd files path fmt delimiter = Raise e) /\
    (forall df, read_frame files path fmt delimiter 10000 = Ok df ->
       schema files path fmt delimiter =
         print_kv (schema_title path) (schema_meta df) /\
       columns_cmd files path fmt delimiter =
         print_kv (columns_title path) (columns_pairs df) /\
       map fst (schema_meta df) = map fst (columns_pairs df) /\
       (length (dtypes df) = length (columns df) ->
          map fst (columns_pairs df) = columns df /\
          map snd (columns_pairs df) = map dtype_str (dtypes df)) /\
       (forall out out',
          schema files path fmt delimiter = Ok out ->
          columns_cmd files path fmt delimiter = Ok out' ->
          map (@hd str []) (kv_rows_of out) = map (@hd str []) (kv_rows_of out'))).
Proof.
  intros files path fmt delimiter. unfold schema, columns_cmd. split.
  - intros e ->. split; reflexivity.
  - intros df ->. split; [reflexivity|]. split; [reflexivity|].
    assert (Hnames : map fst (schema_meta df) = map fst (columns_pairs df)).
    { unfold schema_meta, columns_pairs. cbv zeta. rewrite !map_map. reflexivity. }
    split; [exact Hnames|]. split.
    + unfold columns_pairs. intros Hlen. split.
      * rewrite map_map. cbn [fst].
        change (fun x : str * dtype => fst x) with (@fst str dtype).
        now apply map_fst_combine.
      * rewrite map_map. cbn [snd].
        rewrite <- (map_map snd dtype_str). f_equal.
        revert Hlen. generalize (columns df) as cs.
        induction (dtypes df) as [|d r IH]; intros [|c cs] H; simpl in *;
          try discriminate; [reflexivity|]. f_equal. apply IH. lia.
    + intros out out' Hs Hc.
      rewrite (print_kv_rows _ _ _ Hs), (print_kv_rows _ _ _ Hc).
      rewrite !map_map. cbn [hd]. exact Hnames.
Qed.

End SchemaMore.

Lemma schema_meta_null_counts_witness :
  nth_error (schema_meta (L := DemoLazy.engine) nulls_frame) 1 =
  Some (U "city", schema_entry (L := DemoLazy.engine) Utf8 2).
Proof.
  refine (schema_meta_null_counts (L := DemoLazy.engine) nulls_frame 1
            (U "city") Utf8 _ eq_refl eq_refl).
  repeat constructor; simpl; intuition discriminate.
Defined.

(** On the demo runtime: the two columns of [a,b / 1,2], and a file
    that is not there. *)
Lemma schema_and_columns_agree_witness :
  map fst (columns_pairs (L := DemoLazy.engine) Demo.csv_frame) = [U "a"; U "b"] /\
  schema (R := Demo.runtime) (L := DemoLazy.engine) no_files (U "x.csv") None None
    = Raise (OSError (U "x.csv")) /\
  columns_cmd (R := Demo.runtime) (L := DemoLazy.engine) no_files (U "x.csv") None None
    = Raise (OSError (U "x.csv")).
Proof.
  split.
  - destruct (schema_and_columns_agree (R := Demo.runtime) (L := DemoLazy.engine)
                (only_file Demo.csv_file) (U "in.csv") None None) as [_ Hok].
    exact (proj1 (proj1 (proj2 (proj2 (proj2 (Hok Demo.csv_frame eq_refl))))
                    eq_refl)).
  - exact (proj1 (schema_and_columns_agree (R := Demo.runtime)
                    (L := DemoLazy.engine) no_files (U "x.csv") None None)
                 _ eq_refl).
Defined.

(** ** [info] *)

Section InfoMore.

Context {R : Runtime} {L : LazyEngine}.

Lemma info_run (files : filesystem) (path : str) (fmt delimiter used : option str)
    (lf : LazyFrame) (df : DataFrame) (n : Z) :
  info_delimiter files path fmt delimiter = Ok used ->
  scan_lazy files path fmt used = Ok lf ->
  lf_fetch lf 0 = Ok df ->
  lf_len lf = Ok n ->
  info files path fmt delimiter =
  print_kv (U "Info")
    [(U "file", basename path);
     (U "format", detect_format path fmt);
     (U "delimiter", py_or used EM_DASH);
     (U "rows", str_of_Z n);
     (U "columns", str_of_Z (Z.of_nat (length (columns df))));
     (U "mem_est", mem_estimate df)].
Proof.
  intros H1 H2 H3 H4. unfold info. cbv zeta. now rewrite H1, H2, H3, H4.
Qed.

(** X19. A size estimate that fails does not fail [info]: the entry
    [mem_est] is then the placeholder and the command goes on to print
    it with the other five entries, as usual. When [info] does fail,
    the error is that of sniffing, scanning, fetching or counting, or
    the [MarkupError] of printing the six entries. *)
Theorem info_survives_estimate_failure :
  forall (files : filesystem) (path : str) (fmt delimiter : option str),
    (forall used lf df n e,
       info_delimiter files path fmt delimiter = Ok used ->
       scan_lazy files path fmt used = Ok lf ->
       lf_fetch lf 0 = Ok df ->
       lf_len lf = Ok n ->
       df_estimated_sizes df = Raise e ->
       info files path fmt delimiter =
       print_kv (U "Info")
         [(U "file", basename path);
          (U "format", detect_format path fmt);
          (U "delimiter", py_or used EM_DASH);
          (U "rows", str_of_Z n);
          (U "columns", str_of_Z (Z.of_nat (length (columns df))));
          (U "mem_est", U "--")]) /\
    (forall e,
       info files path fmt delimiter = Raise e ->
       info_delimiter files path fmt delimiter = Raise e \/
       exists used,
         info_delimiter files path fmt delimiter = Ok used /\
         (scan_lazy files path fmt used = Raise e \/
          exists lf,
            scan_lazy files path fmt used = Ok lf /\
            (lf_fetch lf 0 = Raise e \/ lf_len lf = Raise e \/
             exists df n,
               lf_fetch lf 0 = Ok df /\ lf_len lf = Ok n /\
               e = MarkupError /\
               print_kv (U "Info")
                 [(U "file", basename path);
                  (U "format", detect_format path fmt);
                  (U "delimiter", py_or used EM_DASH);
                  (U "rows", str_of_Z n);
                  (U "columns", str_of_Z (Z.of_nat (length (columns df))));
                  (U "mem_est", mem_estimate df)] = Raise MarkupError))).
Proof.
  intros files path fmt delimiter. split.
  - intros used lf df n e H1 H2 H3 H4 He.
    rewrite (info_run files path fmt delimiter used lf df n H1 H2 H3 H4).
    unfold mem_estimate. now rewrite He.
  - intros e. unfold info. cbv zeta.
    destruct (info_delimiter files path fmt delimiter) as [used|e1];
      [|intros H; left; injection H as ->; reflexivity].
    intros H. right. exists used. split; [reflexivity|].
    destruct (scan_lazy files path fmt used) as [lf|e2];
      [|left; injection H as ->; reflexivity].
    right. exists lf. split; [reflexivity|].
    destruct (lf_fetch lf 0) as [df|e3];
      [|left; injection H as ->; reflexivity].
    destruct (lf_len lf) as [n|e4];
      [|right; left; injection H as ->; reflexivity].
    right. right. exists df, n. split; [reflexivity|]. split; [reflexivity|].
    match type of H with ?p = _ => destruct (print_kv_cases (U "Info")
      [(U "file", basename path);
       (U "format", detect_format path fmt);
       (U "delimiter", py_or used EM_DASH);
       (U "rows", str_of_Z n);
       (U "columns", str_of_Z (Z.of_nat (length (columns df))));
       (U "mem_est", mem_estimate df)]) as [E | E] end;
      rewrite E in H; [discriminate H|].
    injection H as <-. split; [reflexivity | exact E].
Qed.

(** X20. The delimiter [info] reports for a csv file without
    [--delimiter] is the sniffed one, and it is the separator the file
    is scanned with. For another format without [--delimiter] the file
    is not sniffed and the entry is a dash. *)
Theorem info_reports_scan_delimiter :
  forall (files : filesystem) (path : str) (fmt : option str)
         (out : list kv_renderable),
    info files path fmt None = Ok out ->
    (detect_format path fmt = U "csv" ->
       exists d lf,
         sniff_delimiter files path = Ok d /\ In d candidates /\
         pl_scan_csv files path d = Ok lf /\
         In [U "delimiter"; d] (kv_rows_of out)) /\
    (detect_format path fmt <> U "csv" ->
       info_delimiter files path fmt None = Ok None /\
       In [U "delimiter"; EM_DASH] (kv_rows_of out)).
Proof.
  intros files path fmt out Hinfo.
  assert (Hrows : forall used lf df n,
             info_delimiter files path fmt None = Ok used ->
             scan_lazy files path fmt used = Ok lf ->
             lf_fetch lf 0 = Ok df -> lf_len lf = Ok n ->
             In [U "delimiter"; py_or used EM_DASH] (kv_rows_of out)).
  { intros used lf df n H1 H2 H3 H4.
    rewrite (info_run files path fmt None used lf df n H1 H2 H3 H4) in Hinfo.
    rewrite (print_kv_rows _ _ _ Hinfo). simpl. auto. }
  unfold info in Hinfo. cbv zeta in Hinfo.
  destruct (info_delimiter files path fmt None) as [used|] eqn:Hd;
    [|discriminate].
  destruct (scan_lazy files path fmt used) as [lf|] eqn:Hs; [|discriminate].
  destruct (lf_fetch lf 0) as [df|] eqn:Hf; [|discriminate].
  destruct (lf_len lf) as [n|] eqn:Hn; [|discriminate].
  specialize (Hrows used lf df n eq_refl Hs Hf Hn).
  split.
  - intros Hcsv. unfold info_delimiter in Hd. rewrite Hcsv in Hd. simpl in Hd.
    destruct (sniff_delimiter files path) as [d|] eqn:Hsniff; [|discriminate].
    injection Hd as <-. exists d, lf. split; [reflexivity|].
    split.
    + unfold sniff_delimiter in Hsniff. destruct (files path); [|discriminate].
      injection Hsniff as <-. apply sniff_lines_candidate.
    + split.
      * unfold scan_lazy in Hs. rewrite Hcsv in Hs. exact Hs.
      * assert (Hd' : py_or (Some d) EM_DASH = d).
        { unfold sniff_delimiter in Hsniff. destruct (files path); [|discriminate].
          injection Hsniff as <-.
          pose proof (sniff_lines_candidate (TextIO.readlines l)) as Hc.
          destruct Hc as [<- | [<- | [<- | []]]]; reflexivity. }
        now rewrite Hd' in Hrows.
  - intros Hne. apply str_eqb_neq in Hne.
    unfold info_delimiter in Hd. rewrite Hne in Hd.
    injection Hd as <-. split; [reflexivity | exact Hrows].
Qed.

End InfoMore.

(** On the demo engines: with an engine that cannot estimate sizes
    the six entries are printed, the last one the placeholder. *)
Lemma info_survives_estimate_failure_witness :
  info (R := Demo.runtime) (L := DemoLazy.engine_without_sizes)
    (only_file Demo.three_rows_file) (U "dir/d.csv") None None =
  Ok [KVRule (U "[bold]Info[/bold]");
      KVTable [[U "file"; U "d.csv"]; [U "format"; U "csv"];
               [U "delimiter"; U ","]; [U "rows"; U "3"]; [U "columns"; U "1"];
               [U "mem_est"; U "--"]]].
Proof.
  exact (proj1 (info_survives_estimate_failure (R := Demo.runtime)
                  (L := DemoLazy.engine_without_sizes)
                  (only_file Demo.three_rows_file) (U "dir/d.csv") None None)
               (Some (U ",")) Demo.three_rows
               {| columns := [U "a"]; dtypes := [Utf8]; rows := [] |} 3%Z
               (EngineError (U "no estimate"))
               eq_refl eq_refl eq_refl eq_refl eq_refl).
Defined.

Lemma info_reports_scan_delimiter_witness :
  exists out,
    info (R := Demo.runtime) (L := DemoLazy.engine)
      (only_file Demo.csv_file) (U "in.csv") None None = Ok out /\
    In [U "delimiter"; U ","] (kv_rows_of out).
Proof.
  eexists. split; [reflexivity|].
  destruct (proj1 (info_reports_scan_delimiter (R := Demo.runtime)
                     (L := DemoLazy.engine) (only_file Demo.csv_file) (U "in.csv")
                     None _ eq_refl) eq_refl) as (d & lf & Hd & _ & _ & Hin).
  injection Hd as <-. exact Hin.
Defined.

(** ** The byte-order mark *)

(** X21. A UTF-8 byte-order mark is read as a character, and it is not
    whitespace: when the first line of a file holds nothing else, that
    line is the first non-blank one and the answer is comma, whatever
    follows. *)
Theorem sniff_delimiter_keeps_byte_order_mark :
  forall (files : filesystem) (path : str) (rest : list byte),
    (files path = Some ([xef; xbb; xbf; x0a] ++ rest) ->
       sniff_delimiter files path = Ok [COMMA]) /\
    (files path = Some ([xef; xbb; xbf; x0d; x0a] ++ rest) ->
       sniff_delimiter files path = Ok [COMMA]).
Proof.
  intros files path rest. unfold sniff_delimiter, TextIO.readlines, TextIO.decode.
  split; intros ->; cbn [map app]; repeat rewrite decode_ignore_cons;
    reflexivity.
Qed.

Lemma sniff_delimiter_keeps_byte_order_mark_witness :
  sniff_delimiter
    (only_file ([xef; xbb; xbf; x0a] ++ file_of (U "x;y;z" ++ [TextIO.LF])))
    (U "bom.csv") = Ok [COMMA].
Proof.
  exact (proj1 (sniff_delimiter_keeps_byte_order_mark _ (U "bom.csv")
                  (file_of (U "x;y;z" ++ [TextIO.LF]))) eq_refl).
Defined.
